(** * CryptoScanner: the balance-verification engine of cws_v2.py and cws_win.py

    A shallow embedding of the two scanners of the repository:
    - [V2]  : src/cws_v2.py,  class AsyncWalletScanner;
    - [Win] : src/cws_win.py, class WalletScanner;
    - [Py]  : the fragment of Python the two files rely on (binary64 floats,
              decoded JSON values, exceptions, a state/trace/error monad);
    - [Sched] : interleavings of lookup coroutines under asyncio.Semaphore. *)

From Stdlib Require Import ZArith Ascii String List Bool Lia.
From Stdlib Require Import Floats.SpecFloat.
From stdpp Require Import gmap strings list.

Local Open Scope Z_scope.

(* ===================================================================== *)
(** ** The Python fragment *)
(* ===================================================================== *)

Module Py.

(** *** Floats: IEEE 754 binary64, through the Standard Library's [SpecFloat] *)

Abbreviation float := spec_float.

Definition prec : Z := 53.
Definition emax : Z := 1024.

Definition fdiv : float -> float -> float := SFdiv prec emax.
Definition fmul : float -> float -> float := SFmul prec emax.

(** [float(n)] for an integer that is exactly representable. *)
Definition float_of_Z (n : Z) : float := binary_normalize prec emax n 0 false.

(** The 53-bit significand of a positive integer below 2^53. *)
Definition significand (k : positive) : positive :=
  Z.to_pos (Zpos k * 2 ^ (53 - Zpos (digits2_pos k))).

(** The literals of the two source files. *)
Definition f0_0 : float := S754_zero false.
Definition f0_5 : float := S754_finite false 4503599627370496 (-53).
Definition f1_5 : float := S754_finite false 6755399441055744 (-52).
Definition f0_3 : float := S754_finite false 5404319552844595 (-54).
Definition f1_0 : float := S754_finite false 4503599627370496 (-52).
Definition f0_1 : float := S754_finite false 7205759403792794 (-56).
Definition f2_0 : float := S754_finite false 4503599627370496 (-51).

(** [x > 0] on a float; false on NaN, as every ordered comparison is. *)
Definition fgt0 (x : float) : bool := SFltb f0_0 x.

(** [x < y] on floats. *)
Definition flt (x y : float) : bool := SFltb x y.

(** *** Exceptions *)

Inductive exn :=
| KeyError | TypeError | ValueError | AttributeError | OverflowError
| NameError | IOError
| ClientError          (* aiohttp.ClientError and its subclasses *)
| TimeoutError         (* asyncio.TimeoutError: connect or total timeout *)
| ContentTypeError     (* response.json() on a body that is not JSON *)
| JSONDecodeError
| WalletError          (* whatever hdwallet raises on a bad key *)
| CancelledError       (* BaseException only *)
| KeyboardInterrupt.   (* BaseException only *)

(** [isinstance(e, Exception)]: what [except Exception] catches. *)
Definition is_Exception (e : exn) : bool :=
  match e with
  | CancelledError | KeyboardInterrupt => false
  | _ => true
  end.

Definition is_interrupt (e : exn) : bool :=
  match e with KeyboardInterrupt => true | _ => false end.

Definition is_IOError (e : exn) : bool :=
  match e with IOError => true | _ => false end.

(** The three ways a call can end: a value, an exception, or a coroutine
    that waits for ever (a semaphore with no permit and nobody to release). *)
Inductive result (A : Type) :=
| Ok (a : A)
| Raise (e : exn)
| Hang.
Arguments Ok {A} a.
Arguments Raise {A} e.
Arguments Hang {A}.

Definition rbind {A B} (r : result A) (f : A -> result B) : result B :=
  match r with
  | Ok a => f a
  | Raise e => Raise e
  | Hang => Hang
  end.

(** *** Decoded JSON, as [json.loads] returns it *)

#[local] Unset Elimination Schemes.
Inductive json :=
| JNull
| JBool (b : bool)
| JInt (n : Z)
| JFloat (f : float)
| JStr (s : string)
| JArr (l : list json)
| JObj (members : list (string * json)).
#[local] Set Elimination Schemes.

(** Members are in document order; a later duplicate key overrides. *)
Fixpoint dict_lookup (k : string) (ms : list (string * json)) : option json :=
  match ms with
  | [] => None
  | (k', v) :: rest =>
      match dict_lookup k rest with
      | Some v' => Some v'
      | None => if String.eqb k k' then Some v else None
      end
  end.

(** [d[k]] with a [str] key. *)
Definition py_getitem (d : json) (k : string) : result json :=
  match d with
  | JObj ms => match dict_lookup k ms with Some v => Ok v | None => Raise KeyError end
  | _ => Raise TypeError
  end.

(** [d.get(k, default)]: only a dict has the method. *)
Definition py_get (d : json) (k : string) (default : json) : result json :=
  match d with
  | JObj ms => match dict_lookup k ms with Some v => Ok v | None => Ok default end
  | _ => Raise AttributeError
  end.

(** [x == s] for a [str] literal [s]. *)
Definition py_eq_str (x : json) (s : string) : bool :=
  match x with
  | JStr s' => String.eqb s' s
  | _ => false
  end.

Definition no_inf (r : float) : result float :=
  match r with
  | S754_infinity _ => Raise OverflowError
  | _ => Ok r
  end.

(** [a / b] on two ints: the correctly rounded quotient of the exact
    integers (round to nearest, ties to even), OverflowError when it is
    too large for a float. The divisors of the source are positive. *)
Definition int_truediv (a : Z) (b : positive) : result float :=
  match a with
  | Z0 => Ok f0_0
  | Zpos p => no_inf (fdiv (S754_finite false p 0) (S754_finite false b 0))
  | Zneg p => no_inf (fdiv (S754_finite true p 0) (S754_finite false b 0))
  end.

(** [x / b] for a decoded JSON value [x] and an int literal [b]. *)
Definition py_truediv (x : json) (b : positive) : result float :=
  match x with
  | JInt n => int_truediv n b
  | JBool c => int_truediv (if c then 1 else 0) b
  | JFloat f => Ok (fdiv f (float_of_Z (Zpos b)))
  | _ => Raise TypeError
  end.

(** [int(f)] on a float: truncation toward zero. *)
Definition int_of_float (f : float) : result Z :=
  match f with
  | S754_zero _ => Ok 0
  | S754_infinity _ => Raise OverflowError
  | S754_nan => Raise ValueError
  | S754_finite s m e =>
      let a := match e with
               | Zneg k => Z.shiftr (Zpos m) (Zpos k)
               | _ => Z.shiftl (Zpos m) e
               end in
      Ok (if s then - a else a)
  end.

Section IntBuiltin.
(** [int(s)] on a [str] is the interpreter's; [None] is ValueError. *)
Variable int_of_str : string -> option Z.

Definition py_int (x : json) : result Z :=
  match x with
  | JInt n => Ok n
  | JBool c => Ok (if c then 1 else 0)
  | JFloat f => int_of_float f
  | JStr s => match int_of_str s with Some n => Ok n | None => Raise ValueError end
  | _ => Raise TypeError
  end.
End IntBuiltin.

(** A plain decimal reader (optional sign, ASCII digits), one behaviour
    [int] can be instantiated with. *)
Definition digit_of (c : Ascii.ascii) : option Z :=
  let n := Z.of_nat (Ascii.nat_of_ascii c) in
  if (48 <=? n) && (n <=? 57) then Some (n - 48) else None.

Fixpoint digits_from (acc : Z) (s : string) : option Z :=
  match s with
  | EmptyString => Some acc
  | String c rest =>
      match digit_of c with
      | Some d => digits_from (10 * acc + d) rest
      | None => None
      end
  end.

Definition int_of_decimal (s : string) : option Z :=
  match s with
  | EmptyString => None
  | String "-" (String c r) => Z.opp <$> digits_from 0 (String c r)
  | String "+" (String c r) => digits_from 0 (String c r)
  | _ => digits_from 0 s
  end.

(** *** What one HTTP exchange can do *)

Inductive http_outcome :=
| GetRaises (e : exn)                          (* [session.get] raises *)
| Response (status : Z) (body : result json).  (* [await response.json()] *)

(** *** Observable events *)

Inductive event :=
| EvAcquire             (* semaphore permit taken *)
| EvRelease             (* semaphore permit returned *)
| EvSleep (d : float)   (* asyncio.sleep(d) *)
| EvGet (url : string)  (* request sent *)
| EvDone                (* the request is over: context left, or get failed *)
| EvPrint               (* a line on the terminal *)
| EvAppend (line : string * float * string * float * string).
                        (* a record appended to found_wallets.txt *)

Definition is_get (e : event) : bool :=
  match e with EvGet _ => true | _ => false end.

(** How many requests a trace sends. *)
Definition requests (t : list event) : nat := length (List.filter is_get t).

(** *** The monad of a coroutine: scanner state, trace, three-way result *)

Section Monad.
Context {S : Type}.

Definition M (A : Type) : Type := S -> result A * S * list event.

Definition ret {A} (a : A) : M A := fun s => (Ok a, s, []).

Definition bind {A B} (m : M A) (f : A -> M B) : M B :=
  fun s =>
    match m s with
    | (Ok a, s', t) => let '(r, s'', t') := f a s' in (r, s'', t ++ t')
    | (Raise e, s', t) => (Raise e, s', t)
    | (Hang, s', t) => (Hang, s', t)
    end.

Definition raise {A} (e : exn) : M A := fun s => (Raise e, s, []).

Definition lift {A} (r : result A) : M A := fun s => (r, s, []).

Definition emit (ev : event) : M unit := fun s => (Ok tt, s, [ev]).

Definition gets {A} (f : S -> A) : M A := fun s => (Ok (f s), s, []).

Definition modify (f : S -> S) : M unit := fun s => (Ok tt, f s, []).

(** [try: m  except <classes> as e: h e], for the classes [catches]. *)
Definition try_catch {A} (catches : exn -> bool) (m : M A) (h : exn -> M A)
  : M A :=
  fun s =>
    match m s with
    | (Raise e, s', t) =>
        if catches e
        then let '(r, s'', t') := h e s' in (r, s'', t ++ t')
        else (Raise e, s', t)
    | other => other
    end.

(** [try: m  except Exception as e: h e] *)
Definition try_except {A} (m : M A) (h : exn -> M A) : M A :=
  try_catch is_Exception m h.

(** [m] then [fin] on every way out of [m] that comes back. *)
Definition finally {A} (m : M A) (fin : M unit) : M A :=
  fun s =>
    match m s with
    | (Hang, s', t) => (Hang, s', t)
    | (r, s', t) =>
        match fin s' with
        | (Ok _, s'', t') => (r, s'', t ++ t')
        | (Raise e, s'', t') => (Raise e, s'', t ++ t')
        | (Hang, s'', t') => (Hang, s'', t ++ t')
        end
    end.
End Monad.

Arguments M : clear implicits.

(** [m] leaves the observation [g] of the state as it found it. *)
Definition keeps {S A X : Type} (g : S -> X) (m : M S A) : Prop :=
  forall s, g (snd (fst (m s))) = g s.

Declare Scope py_scope.
Delimit Scope py_scope with py.
Notation "'let*' x ':=' m 'in' k" := (bind m (fun x => k))
  (at level 10, x name, m at level 100, k at level 200) : py_scope.
Notation "'try*' x ':=' r 'in' k" := (rbind r (fun x => k))
  (at level 10, x name, r at level 100, k at level 200) : py_scope.


(** *** The shared semaphore and the shared session *)

(** A scanner object owns an [asyncio.Semaphore]; its value is the number
    of permits left. *)
Class HasSemaphore (S : Type) := {
  sem_value : S -> nat;
  sem_set : nat -> S -> S
}.

Section Shared.
Context {S : Type} `{HasSemaphore S}.
Local Open Scope py_scope.

(** [acquire]: with no permit left the coroutine waits; run on its own,
    nobody will release, so it waits for ever. *)
Definition acquire : M S unit :=
  fun s =>
    match sem_value s with
    | O => (Hang, s, [])
    | Datatypes.S n => (Ok tt, sem_set n s, [EvAcquire])
    end.

Definition release : M S unit :=
  fun s => (Ok tt, sem_set (Datatypes.S (sem_value s)) s, [EvRelease]).

(** [async with self.semaphore: m] *)
Definition with_semaphore {A} (m : M S A) : M S A :=
  let* _ := acquire in finally m release.

(** [async with self.session.get(url) as response: body response] *)
Definition with_response {A} (net : string -> http_outcome) (url : string)
    (body : Z -> result json -> M S A) : M S A :=
  let* _ := emit (EvGet url) in
  match net url with
  | GetRaises e => let* _ := emit EvDone in raise e
  | Response status js => finally (body status js) (emit EvDone)
  end.

(** [await asyncio.sleep(d)] *)
Definition sleep (d : float) : M S unit := emit (EvSleep d).
End Shared.

(** *** The record both files declare *)

Record WalletInfo := {
  btc_address : string;
  eth_address : string;
  private_key : string;
  btc_balance : float;
  eth_balance : float
}.

Definition new_wallet (b e k : string) : WalletInfo :=
  {| btc_address := b; eth_address := e; private_key := k;
     btc_balance := f0_0; eth_balance := f0_0 |}.

Definition set_balances (w : WalletInfo) (b e : float) : WalletInfo :=
  {| btc_address := btc_address w; eth_address := eth_address w;
     private_key := private_key w; btc_balance := b; eth_balance := e |}.

Definition wallet_line (w : WalletInfo) : string * float * string * float * string :=
  (btc_address w, btc_balance w, eth_address w, eth_balance w, private_key w).

(** [wallet.btc_balance > 0 or wallet.eth_balance > 0] *)
Definition has_balance (w : WalletInfo) : bool :=
  fgt0 (btc_balance w) || fgt0 (eth_balance w).

(** The escape sequences of [class Colors], by name. *)
Inductive color := GREEN | RED | WHITE | YELLOW | BLUE | RESET.

(** What the surroundings supply for one turn of the scan loop. *)
Record iter_env := {
  drawn_key : string;                        (* the random private key *)
  net : string -> http_outcome;              (* the two upstream services *)
  disk : option exn                          (* [None]: the append succeeds *)
}.

Definition btc_url (address : string) : string :=
  "https://blockchain.info/balance?active=" +:+ address.

Definition eth_url (address : string) : string :=
  "https://api.etherscan.io/api?module=account&action=balance&address="
    +:+ address +:+ "&tag=latest".

End Py.

(* ===================================================================== *)
(** ** src/cws_v2.py: AsyncWalletScanner *)
(* ===================================================================== *)

Module V2.
Import Py.
Local Open Scope py_scope.

Record scanner := {
  semaphore : nat;
  scan_count : Z;
  found_count : Z
}.

#[global] Instance scanner_semaphore : HasSemaphore scanner := {
  sem_value := semaphore;
  sem_set n s := {| semaphore := n; scan_count := scan_count s;
                    found_count := found_count s |}
}.

(** [__init__] *)
Definition init (max_concurrent_requests : nat) : scanner :=
  {| semaphore := max_concurrent_requests; scan_count := 0; found_count := 0 |}.

Definition incr_scan (s : scanner) : scanner :=
  {| semaphore := semaphore s; scan_count := scan_count s + 1;
     found_count := found_count s |}.

Definition incr_found (s : scanner) : scanner :=
  {| semaphore := semaphore s; scan_count := scan_count s;
     found_count := found_count s + 1 |}.

(** The expression [data[address]['final_balance'] / 100000000], on its own. *)
Definition btc_reading (address : string) (data : json) : result (option float) :=
  try* entry := py_getitem data address in
  try* fb := py_getitem entry "final_balance" in
  try* v := py_truediv fb 100000000 in
  Ok (Some v).

Section Scanner.
Variable TESTMODE : bool.
Variable int_of_str : string -> option Z.
(** [HDWallet(...).from_private_key(k).p2pkh_address()] for BTC and ETH. *)
Variable derive : string -> result (string * string).

(** [if data['status'] == '1': return int(data['result']) / 10**18] *)
Definition eth_reading (data : json) : result (option float) :=
  try* st := py_getitem data "status" in
  if py_eq_str st "1" then
    try* res := py_getitem data "result" in
    try* n := py_int int_of_str res in
    try* v := int_truediv n (10 ^ 18) in
    Ok (Some v)
  else Ok None.

Definition generate_wallet_addresses (private_key : string) : M scanner WalletInfo :=
  let* a := lift (derive private_key) in
  ret (new_wallet (fst a) (snd a) private_key).

(** In both lookups the block under the semaphore yields [Some v] when
    the [return] inside the [with] is reached and [None] when control
    falls through to the final [return 0.0]. *)
Definition get_btc_balance (net : string -> http_outcome) (address : string)
  : M scanner float :=
  if TESTMODE then ret f0_0 else
  let* r :=
    with_semaphore
      (try_except
         (with_response net (btc_url address) (fun status body =>
            if status =? 200 then
              let* data := lift body in
              let* entry := lift (py_getitem data address) in
              let* fb := lift (py_getitem entry "final_balance") in
              let* v := lift (py_truediv fb 100000000) in
              ret (Some v)
            else ret None))
         (fun _ => ret None)) in
  match r with
  | Some v => ret v
  | None => ret f0_0
  end.

Definition get_eth_balance (net : string -> http_outcome) (address : string)
  : M scanner float :=
  if TESTMODE then ret f0_0 else
  let* r :=
    with_semaphore
      (try_except
         (with_response net (eth_url address) (fun status body =>
            if status =? 200 then
              let* data := lift body in
              let* st := lift (py_getitem data "status") in
              if py_eq_str st "1" then
                let* res := lift (py_getitem data "result") in
                let* n := lift (py_int int_of_str res) in
                let* v := lift (int_truediv n (10 ^ 18)) in
                ret (Some v)
              else ret None
            else ret None))
         (fun _ => ret None)) in
  match r with
  | Some v => ret v
  | None => ret f0_0
  end.

(** The shape the two lookups share, over the pure reading of the body. *)
Definition lookup (net : string -> http_outcome) (url : string)
    (reading : json -> result (option float)) : M scanner float :=
  if TESTMODE then ret f0_0 else
  let* r :=
    with_semaphore
      (try_except
         (with_response net url (fun status body =>
            if status =? 200 then
              let* data := lift body in
              lift (reading data)
            else ret None))
         (fun _ => ret None)) in
  match r with
  | Some v => ret v
  | None => ret f0_0
  end.

(** The two tasks of [asyncio.gather] share only the semaphore; they are
    run here one after the other, in the order they are created. That is
    what [gather] returns, and the scanner it leaves, whenever both
    lookups come back with a value: the lookups commute. It is not the
    order of their events, which interleave, and it is not what happens
    when a lookup is cancelled or interrupted: [gather] then raises at
    once, while the other lookup is still on its way and may hold its
    permit. *)
Definition check_wallet_balances (net : string -> http_outcome)
    (wallet : WalletInfo) : M scanner WalletInfo :=
  let* b := get_btc_balance net (btc_address wallet) in
  let* e := get_eth_balance net (eth_address wallet) in
  ret (set_balances wallet b e).

Definition save_found_wallet (dsk : option exn) (wallet : WalletInfo)
  : M scanner unit :=
  if TESTMODE then emit EvPrint else
  try_except
    (match dsk with
     | None => emit (EvAppend (wallet_line wallet))
     | Some e => raise e
     end)
    (fun _ => emit EvPrint).

(** [display_results]: the colour each balance is shown in,
    [Colors.GREEN if wallet.btc_balance > 0 else Colors.YELLOW] and the
    same for ETH. *)
Definition btc_color (wallet : WalletInfo) : color :=
  if fgt0 (btc_balance wallet) then GREEN else YELLOW.

Definition eth_color (wallet : WalletInfo) : color :=
  if fgt0 (eth_balance wallet) then GREEN else YELLOW.

(** Clears the screen and prints: as far as the engine goes, one event on
    the terminal; nothing comes back. What the lines show of the wallet
    are its fields, [btc_color], [eth_color] and, when [has_balance]
    holds, one more line. *)
Definition display_results (wallet : WalletInfo) : M scanner unit :=
  emit EvPrint.

(** [run_scan], first half of a turn: draw, derive, check. *)
Definition checked_wallet (env : iter_env) : M scanner WalletInfo :=
  let* wallet := generate_wallet_addresses (drawn_key env) in
  check_wallet_balances (net env) wallet.

(** [run_scan], the counters: [scan_count += 1] and the [if] under it. *)
Definition tally (dsk : option exn) (wallet : WalletInfo) : M scanner unit :=
  let* _ := modify incr_scan in
  if has_balance wallet
  then let* _ := modify incr_found in save_found_wallet dsk wallet
  else ret tt.

(** One turn of the [while True] of [run_scan]. *)
Definition scan_iteration (env : iter_env) : M scanner unit :=
  let* wallet := checked_wallet env in
  let* _ := tally (disk env) wallet in
  let* _ := display_results wallet in
  if negb TESTMODE then sleep f0_3 else sleep f0_1.

(** The loop never ends by itself: [scan_loop envs] is its run over the
    turns the surroundings [envs] describe. *)
Fixpoint scan_loop (envs : list iter_env) : M scanner unit :=
  match envs with
  | [] => ret tt
  | env :: rest => let* _ := scan_iteration env in scan_loop rest
  end.

Definition run_scan (envs : list iter_env) : M scanner unit :=
  try_catch is_interrupt (scan_loop envs) (fun _ => emit EvPrint).
End Scanner.

End V2.

(* ===================================================================== *)
(** ** src/cws_win.py: WalletScanner *)
(* ===================================================================== *)

Module Win.
Import Py.
Local Open Scope py_scope.

Record scanner := {
  max_concurrent : nat;
  semaphore : nat;
  scan_count : Z;
  found_count : Z;
  request_delays : gmap string float
}.

#[global] Instance scanner_semaphore : HasSemaphore scanner := {
  sem_value := semaphore;
  sem_set n s := {| max_concurrent := max_concurrent s; semaphore := n;
                    scan_count := scan_count s; found_count := found_count s;
                    request_delays := request_delays s |}
}.

(** [__init__] *)
Definition init (max_concurrent_requests : nat) : scanner :=
  {| max_concurrent := max_concurrent_requests;
     semaphore := max_concurrent_requests;
     scan_count := 0; found_count := 0;
     request_delays := <["btc" := f0_5]> (<["eth" := f0_3]> ∅) |}.

Definition incr_scan (s : scanner) : scanner :=
  {| max_concurrent := max_concurrent s; semaphore := semaphore s;
     scan_count := scan_count s + 1; found_count := found_count s;
     request_delays := request_delays s |}.

Definition incr_found (s : scanner) : scanner :=
  {| max_concurrent := max_concurrent s; semaphore := semaphore s;
     scan_count := scan_count s; found_count := found_count s + 1;
     request_delays := request_delays s |}.

Definition set_delays (d : gmap string float) (s : scanner) : scanner :=
  {| max_concurrent := max_concurrent s; semaphore := semaphore s;
     scan_count := scan_count s; found_count := found_count s;
     request_delays := d |}.

(** [self.request_delays[chain]] *)
Definition delay_of (chain : string) : M scanner float :=
  let* d := gets request_delays in
  match d !! chain with
  | Some v => ret v
  | None => raise KeyError
  end.

(** [self.request_delays[chain] *= 1.5] *)
Definition scale_delay (chain : string) : M scanner unit :=
  let* v := delay_of chain in
  modify (fun s => set_delays (<[chain := fmul v f1_5]> (request_delays s)) s).

(** [max(self.request_delays.values())], the values in the order of
    [__init__]: a later one replaces the running maximum when it is greater. *)
Definition max_delay (d : gmap string float) : result float :=
  match d !! "btc", d !! "eth" with
  | Some b, Some e => Ok (if flt b e then e else b)
  | Some b, None => Ok b
  | None, Some e => Ok e
  | None, None => Raise ValueError
  end.

(** [min(x, 0.1)] *)
Definition min_tenth (x : float) : float := if flt f0_1 x then f0_1 else x.

Fixpoint zeros (n : nat) : string :=
  match n with
  | O => EmptyString
  | Datatypes.S k => String "0" (zeros k)
  end.

(** [str(n % 10)] *)
Definition last_digit (n : Z) : string :=
  String (ascii_of_nat (48 + Z.to_nat (n mod 10))) EmptyString.

(** The expression
    [data.get(address, {}).get('final_balance', 0) / 100000000], on its own. *)
Definition btc_reading (address : string) (data : json) : result (option float) :=
  try* entry := py_get data address (JObj []) in
  try* fb := py_get entry "final_balance" (JInt 0) in
  try* v := py_truediv fb 100000000 in
  Ok (Some v).

Section Scanner.
Variable TESTMODE : bool.
Variable int_of_str : string -> option Z.
Variable derive : string -> result (string * string).

(** [if data.get('status') == '1':
       return int(data.get('result', 0)) / 10**18] *)
Definition eth_reading (data : json) : result (option float) :=
  try* st := py_get data "status" JNull in
  if py_eq_str st "1" then
    try* res := py_get data "result" (JInt 0) in
    try* n := py_int int_of_str res in
    try* v := int_truediv n (10 ^ 18) in
    Ok (Some v)
  else Ok None.

Definition generate_secure_private_key (drawn : string) : M scanner string :=
  if TESTMODE
  then let* n := gets scan_count in ret (zeros 63 +:+ last_digit n)
  else ret drawn.

Definition generate_wallet_addresses (private_key : string) : M scanner WalletInfo :=
  try_except
    (let* a := lift (derive private_key) in
     ret (new_wallet (fst a) (snd a) private_key))
    (fun e => let* _ := emit EvPrint in raise e).

Definition report_api_error : M scanner unit :=
  if negb TESTMODE then emit EvPrint else ret tt.

Definition get_btc_balance (net : string -> http_outcome) (address : string)
  : M scanner float :=
  if TESTMODE then ret f0_0 else
  let* r :=
    with_semaphore
      (try_except
         (let* d := delay_of "btc" in
          let* _ := sleep d in
          with_response net (btc_url address) (fun status body =>
            if status =? 200 then
              let* data := lift body in
              let* entry := lift (py_get data address (JObj [])) in
              let* fb := lift (py_get entry "final_balance" (JInt 0)) in
              let* v := lift (py_truediv fb 100000000) in
              ret (Some v)
            else if status =? 429 then
              let* _ := scale_delay "btc" in
              let* _ := sleep f2_0 in
              ret None
            else ret None))
         (fun _ => let* _ := report_api_error in ret None)) in
  match r with
  | Some v => ret v
  | None => ret f0_0
  end.

Definition get_eth_balance (net : string -> http_outcome) (address : string)
  : M scanner float :=
  if TESTMODE then ret f0_0 else
  let* r :=
    with_semaphore
      (try_except
         (let* d := delay_of "eth" in
          let* _ := sleep d in
          with_response net (eth_url address) (fun status body =>
            if status =? 200 then
              let* data := lift body in
              let* st := lift (py_get data "status" JNull) in
              if py_eq_str st "1" then
                let* res := lift (py_get data "result" (JInt 0)) in
                let* n := lift (py_int int_of_str res) in
                let* v := lift (int_truediv n (10 ^ 18)) in
                ret (Some v)
              else ret None
            else if status =? 429 then
              let* _ := scale_delay "eth" in
              let* _ := sleep f2_0 in
              ret None
            else ret None))
         (fun _ => let* _ := report_api_error in ret None)) in
  match r with
  | Some v => ret v
  | None => ret f0_0
  end.

(** The shape the two lookups share, for the chain whose key in
    [request_delays] is [chain], over the pure reading of the body. *)
Definition lookup (chain : string) (net : string -> http_outcome)
    (url : string) (reading : json -> result (option float)) : M scanner float :=
  if TESTMODE then ret f0_0 else
  let* r :=
    with_semaphore
      (try_except
         (let* d := delay_of chain in
          let* _ := sleep d in
          with_response net url (fun status body =>
            if status =? 200 then
              let* data := lift body in
              lift (reading data)
            else if status =? 429 then
              let* _ := scale_delay chain in
              let* _ := sleep f2_0 in
              ret None
            else ret None))
         (fun _ => let* _ := report_api_error in ret None)) in
  match r with
  | Some v => ret v
  | None => ret f0_0
  end.

(** The two tasks of [asyncio.gather] share the semaphore and write
    different keys of [request_delays]; they are run here one after the
    other, in the order they are created. That is what [gather] returns,
    and the scanner it leaves, whenever both lookups come back with a
    value: the lookups commute. It is not the order of their events,
    which interleave, and it is not what happens when a lookup is
    cancelled or interrupted: [gather] then raises at once, while the
    other lookup is still on its way and may hold its permit. *)
Definition check_wallet (net : string -> http_outcome) (wallet : WalletInfo)
  : M scanner WalletInfo :=
  let* b := get_btc_balance net (btc_address wallet) in
  let* e := get_eth_balance net (eth_address wallet) in
  ret (set_balances wallet b e).

Definition save_found_wallet (dsk : option exn) (wallet : WalletInfo)
  : M scanner unit :=
  if TESTMODE then ret tt else
  try_catch is_IOError
    (match dsk with
     | None => emit (EvAppend (wallet_line wallet))
     | Some e => raise e
     end)
    (fun _ => emit EvPrint).

(** [display_results]: the colour each balance is shown in,
    [Colors.GREEN if wallet.btc_balance > 0 else Colors.WHITE] and the
    same for ETH. *)
Definition btc_color (wallet : WalletInfo) : color :=
  if fgt0 (btc_balance wallet) then GREEN else WHITE.

Definition eth_color (wallet : WalletInfo) : color :=
  if fgt0 (eth_balance wallet) then GREEN else WHITE.

(** [display_banner] formats [hdwallet_status], a name the module never
    binds: the f-string raises before anything is printed. *)
Definition display_banner : M scanner unit := raise NameError.

Definition display_results (wallet : WalletInfo) : M scanner unit :=
  let* _ := display_banner in
  emit EvPrint.

(** [run_scan], first half of a turn: key, derive, check. *)
Definition checked_wallet (env : iter_env) : M scanner WalletInfo :=
  let* private_key := generate_secure_private_key (drawn_key env) in
  let* wallet := generate_wallet_addresses private_key in
  check_wallet (net env) wallet.

(** [run_scan], the counters: [scan_count += 1] and the [if] under it. *)
Definition tally (dsk : option exn) (wallet : WalletInfo) : M scanner unit :=
  let* _ := modify incr_scan in
  if has_balance wallet
  then let* _ := modify incr_found in save_found_wallet dsk wallet
  else ret tt.

Definition scan_iteration (env : iter_env) : M scanner unit :=
  let* wallet := checked_wallet env in
  let* _ := tally (disk env) wallet in
  let* _ := display_results wallet in
  if negb TESTMODE
  then let* d := gets request_delays in
       let* base_delay := lift (max_delay d) in
       sleep (min_tenth (fmul base_delay f0_5))
  else ret tt.

(** [while target_scans is None or self.scan_count < target_scans] *)
Definition keep_scanning (target_scans : option Z) (s : scanner) : bool :=
  match target_scans with
  | None => true
  | Some t => scan_count s <? t
  end.

Fixpoint scan_loop (target_scans : option Z) (envs : list iter_env)
  : M scanner unit :=
  match envs with
  | [] => ret tt
  | env :: rest =>
      let* go := gets (keep_scanning target_scans) in
      if go : bool
      then let* _ := scan_iteration env in scan_loop target_scans rest
      else ret tt
  end.

Definition run_scan (target_scans : option Z) (envs : list iter_env)
  : M scanner unit :=
  try_catch (fun e => is_interrupt e || is_Exception e)
    (scan_loop target_scans envs)
    (fun _ => emit EvPrint).
End Scanner.

End Win.

(* ===================================================================== *)
(** ** The vocabulary of the specification *)
(* ===================================================================== *)

Module Spec.
Import Py.

Inductive chain := BTC | ETH.

Definition chain_key (c : chain) : string :=
  match c with BTC => "btc" | ETH => "eth" end.

Definition chain_url (c : chain) (address : string) : string :=
  match c with BTC => btc_url address | ETH => eth_url address end.



(** The delays [__init__] stores in [request_delays]. *)
Definition initial_delay (c : chain) : float :=
  match c with BTC => f0_5 | ETH => f0_3 end.

(** The delay of a chain after [k] multiplications by 1.5. *)
Definition backoff (c : chain) (k : nat) : float :=
  Nat.iter k (fun d => fmul d f1_5) (initial_delay c).

(** The outcomes of section 3. *)
Inductive outcome := Success | Throttled | Failed | TimedOut.

(** The classification of section 4.2, written from the specification:
    test mode is a Success; a timeout is TimedOut; status 200 with a body
    that reads to a balance is a Success; status 429 is Throttled;
    everything else is Failed. *)

Definition classify (test_mode : bool)
    (reading : json -> result (option float)) (x : http_outcome) : outcome :=
  if test_mode then Success else
  match x with
  | GetRaises TimeoutError => TimedOut
  | GetRaises _ => Failed
  | Response status body =>
      if status =? 200 then
        match body with
        | Ok data =>
            match reading data with
            | Ok (Some _) => Success
            | _ => Failed
            end
        | Raise TimeoutError => TimedOut
        | _ => Failed
        end
      else if status =? 429 then Throttled
      else Failed
  end.

(** The failures a lookup has to absorb: a transport error, a status other
    than 200, a body that does not decode, a body of the wrong shape. *)
Inductive failed_exchange (reading : json -> result (option float))
  : http_outcome -> Prop :=
| failed_transport e :
    is_Exception e = true -> failed_exchange reading (GetRaises e)
| failed_status status body :
    status <> 200 -> failed_exchange reading (Response status body)
| failed_decode e :
    is_Exception e = true -> failed_exchange reading (Response 200 (Raise e))
| failed_schema data e :
    reading data = Raise e -> failed_exchange reading (Response 200 (Ok data)).

(** Upstream failures are exceptions of class [Exception]; a cancellation
    or an interrupt is not a failure of the chain, and a body that is
    awaited arrives or fails. *)
Definition ordinary (x : http_outcome) : bool :=
  match x with
  | GetRaises e => is_Exception e
  | Response status body =>
      if status =? 200 then
        match body with
        | Ok _ => true
        | Raise e => is_Exception e
        | Hang => false
        end
      else true
  end.

(** The chain answered with its throttling status. *)
Definition throttled (x : http_outcome) : bool :=
  match x with
  | Response status _ => status =? 429
  | GetRaises _ => false
  end.

(** The bodies the lookups can read: reading one never waits, and fails
    only with an exception of class [Exception]. *)
Definition well_read (reading : json -> result (option float)) : Prop :=
  forall d, match reading d with
            | Ok _ => True
            | Raise e => is_Exception e = true
            | Hang => False
            end.

(** The balance section 4.2 assigns to an exchange: the reading of a body
    that came with status 200, and 0 in every other case. *)
Definition reported (reading : json -> result (option float))
    (x : http_outcome) : float :=
  match x with
  | GetRaises _ => f0_0
  | Response status body =>
      if status =? 200 then
        match body with
        | Ok data =>
            match reading data with
            | Ok (Some v) => v
            | _ => f0_0
            end
        | _ => f0_0
        end
      else f0_0
  end.

(** The value of the float [f] is the rational [raw / divisor], exactly. *)
Definition exact_quotient (f : float) (raw divisor : Z) : Prop :=
  match f with
  | S754_zero _ => raw = 0
  | S754_finite s m e =>
      let v := if s then Zneg m else Zpos m in
      if 0 <=? e then v * 2 ^ e * divisor = raw
      else v * divisor = raw * 2 ^ (- e)
  | _ => False
  end.

(** The float 10.0. *)
Definition ten : float := S754_finite false 5629499534213120 (-49).

(** Bodies of the two services for a raw balance. *)
Definition btc_body (address : string) (raw : Z) : json :=
  JObj [(address, JObj [("final_balance", JInt raw); ("n_tx", JInt 0)])].

Definition eth_body (raw : string) : json :=
  JObj [("status", JStr "1"); ("message", JStr "OK"); ("result", JStr raw)].

(** The two counters of a scanner. *)
Definition v2_counters (s : V2.scanner) : Z * Z :=
  (V2.scan_count s, V2.found_count s).

Definition win_counters (s : Win.scanner) : Z * Z :=
  (Win.scan_count s, Win.found_count s).

(** The body of the ETH service carries the status ['1']. *)
Definition status_is_one (data : json) : bool :=
  match data with
  | JObj ms =>
      match dict_lookup "status" ms with
      | Some st => py_eq_str st "1"
      | None => false
      end
  | _ => false
  end.

(** What the ETH service answers for an address that holds nothing. *)
Definition genuine_zero : json :=
  JObj [("status", JStr "1"); ("message", JStr "OK"); ("result", JStr "0")].

(** The lookup of one chain, in each file. *)
Definition v2_fetch (tm : bool) (ios : string -> option Z) (c : chain)
    (net : string -> http_outcome) (address : string) : M V2.scanner float :=
  match c with
  | BTC => V2.get_btc_balance tm net address
  | ETH => V2.get_eth_balance tm ios net address
  end.

Definition win_fetch (tm : bool) (ios : string -> option Z) (c : chain)
    (net : string -> http_outcome) (address : string) : M Win.scanner float :=
  match c with
  | BTC => Win.get_btc_balance tm net address
  | ETH => Win.get_eth_balance tm ios net address
  end.

Definition v2_reading (ios : string -> option Z) (c : chain) (address : string)
  : json -> result (option float) :=
  match c with
  | BTC => V2.btc_reading address
  | ETH => V2.eth_reading ios
  end.

Definition win_reading (ios : string -> option Z) (c : chain) (address : string)
  : json -> result (option float) :=
  match c with
  | BTC => Win.btc_reading address
  | ETH => Win.eth_reading ios
  end.


(** What one turn of the scan loop does to the two counters, given how
    the check of the wallet ended. *)
Definition turn_counts (scan found scan' found' : Z)
    (checked : result WalletInfo) : Prop :=
  match checked with
  | Ok w => scan' = scan + 1 /\ found' = found + (if has_balance w then 1 else 0)
  | _ => scan' = scan /\ found' = found
  end.

(** A lookup that has taken place: the chain, the address, the answer. *)
Record past_lookup := {
  on_chain : chain;
  at_address : string;
  answer : http_outcome
}.

(** The scanner of cws_win.py after a history of lookups, oldest first. *)
Fixpoint win_after (ios : string -> option Z) (history : list past_lookup)
    (s : Win.scanner) : Win.scanner :=
  match history with
  | [] => s
  | l :: rest =>
      win_after ios rest
        (snd (fst (win_fetch false ios (on_chain l) (fun _ => answer l)
                     (at_address l) s)))
  end.

Definition same_chain (a b : chain) : bool :=
  match a, b with
  | BTC, BTC | ETH, ETH => true
  | _, _ => false
  end.

(** How often chain [c] was throttled in a history. *)
Definition throttles (c : chain) (history : list past_lookup) : nat :=
  length (List.filter (fun l => same_chain c (on_chain l) && throttled (answer l))
            history).

(** The first [n] delays of a back-off that starts at [d] all grow. *)
Fixpoint grows (n : nat) (d : float) : bool :=
  match n with
  | O => true
  | S k => flt d (fmul d f1_5) && grows k (fmul d f1_5)
  end.

(** Throttles in a row on one chain, from the delays of [__init__]. *)
Definition throttled_in_a_row (c : chain) (n : nat) : list past_lookup :=
  repeat {| on_chain := c; at_address := "x";
            answer := Response 429 (Raise ContentTypeError) |} n.

(** How many multiplications by 1.5 take the delay of a chain from its
    value of [__init__] to plus infinity. *)
Definition overflows_after (c : chain) : nat :=
  match c with BTC => 1753 | ETH => 1754 end.

(** *** The bodies of the two services, by their schema

    These definitions follow the response schema of the services and the
    words of section 4.2, not the code: blockchain.info answers
    [{"<address>": {"final_balance": <int>, ...}}], etherscan answers
    [{"status": "1", "message": "OK", "result": "<digits>"}]. *)

(** The fixed divisor of a chain: satoshis per BTC, wei per ETH. *)
Definition divisor (c : chain) : positive :=
  match c with BTC => 100000000 | ETH => 10 ^ 18 end.









End Spec.

(* ===================================================================== *)
(** ** Lookups as coroutines under one semaphore *)
(* ===================================================================== *)

Module Sched.
Import Py.

(** A coroutine is the events it still has to go through; [holding] is
    set between its acquire and its release, [pending] between the sending
    of its request and the end of that request. *)
Record task := {
  holding : bool;
  pending : bool;
  todo : list event
}.

Record pool := {
  permits : nat;
  tasks : list task
}.

Definition spawn (program : list event) : task :=
  {| holding := false; pending := false; todo := program |}.

Definition start (ceiling : nat) (programs : list (list event)) : pool :=
  {| permits := ceiling; tasks := map spawn programs |}.

(** One atomic move of a task when [n] permits are left; [None] when it
    has finished or waits for a permit. *)
Definition advance (n : nat) (t : task) : option (nat * task) :=
  match todo t with
  | [] => None
  | EvAcquire :: rest =>
      match n with
      | O => None
      | S k => Some (k, {| holding := true; pending := pending t; todo := rest |})
      end
  | EvRelease :: rest =>
      Some (S n, {| holding := false; pending := pending t; todo := rest |})
  | EvGet _ :: rest =>
      Some (n, {| holding := holding t; pending := true; todo := rest |})
  | EvDone :: rest =>
      Some (n, {| holding := holding t; pending := false; todo := rest |})
  | _ :: rest =>
      Some (n, {| holding := holding t; pending := pending t; todo := rest |})
  end.

(** The event loop gives the floor to task [i]. *)
Definition step (i : nat) (p : pool) : pool :=
  match tasks p !! i with
  | Some t =>
      match advance (permits p) t with
      | Some (n, t') => {| permits := n; tasks := <[i := t']> (tasks p) |}
      | None => p
      end
  | None => p
  end.

Definition run (schedule : list nat) (p : pool) : pool :=
  foldl (fun q i => step i q) p schedule.

Fixpoint count (f : task -> bool) (l : list task) : nat :=
  match l with
  | [] => O
  | t :: rest => ((if f t then 1 else 0) + count f rest)%nat
  end.

(** Requests executing at this instant. *)
Definition in_flight (p : pool) : nat := count pending (tasks p).

Definition holders (p : pool) : nat := count holding (tasks p).

(** The discipline of [async with semaphore: ... async with get: ...]. *)
Fixpoint disciplined (h g : bool) (tr : list event) : bool :=
  match tr with
  | [] => true
  | EvAcquire :: r => negb h && disciplined true g r
  | EvRelease :: r => h && negb g && disciplined false g r
  | EvGet _ :: r => h && negb g && disciplined h true r
  | EvDone :: r => g && disciplined h false r
  | _ :: r => disciplined h g r
  end.

Definition task_ok (t : task) : bool :=
  implb (pending t) (holding t) && disciplined (holding t) (pending t) (todo t).

(** What the event loop never breaks: every task keeps the discipline and
    each permit is either free or held. *)
Definition sound (ceiling : nat) (p : pool) : Prop :=
  Forall (fun t => task_ok t = true) (tasks p)
  /\ (permits p + holders p = ceiling)%nat.

(** The lookups of the two scanners, each with what it is called on. *)
Inductive call :=
| V2Btc (tm : bool) (net : string -> http_outcome) (address : string)
        (s : V2.scanner)
| V2Eth (tm : bool) (ios : string -> option Z) (net : string -> http_outcome)
        (address : string) (s : V2.scanner)
| WinBtc (tm : bool) (net : string -> http_outcome) (address : string)
         (s : Win.scanner)
| WinEth (tm : bool) (ios : string -> option Z) (net : string -> http_outcome)
         (address : string) (s : Win.scanner).

Definition program_of (c : call) : list event :=
  match c with
  | V2Btc tm net a s => snd (V2.get_btc_balance tm net a s)
  | V2Eth tm ios net a s => snd (V2.get_eth_balance tm ios net a s)
  | WinBtc tm net a s => snd (Win.get_btc_balance tm net a s)
  | WinEth tm ios net a s => snd (Win.get_eth_balance tm ios net a s)
  end.

End Sched.

(* ===================================================================== *)
(** ** Concrete surroundings *)
(* ===================================================================== *)

Module Examples.
Import Py Spec.

Definition btc_addr : string := "1A1zP1eP5QGefi2DMPTfTL5SLmv7DivfNa".
Definition eth_addr : string := "0x7E5F4552091A69125d5DfCb7b8C2659029395Bdf".
Definition key1 : string := Win.zeros 63 +:+ "1".

Definition wallet1 : WalletInfo := new_wallet btc_addr eth_addr key1.

Definition derive1 (k : string) : result (string * string) :=
  Ok (btc_addr, eth_addr).

(** Both services time out. *)
Definition net_down (url : string) : http_outcome := GetRaises TimeoutError.

(** The BTC service reports 0.12345678 BTC, the ETH service throttles. *)
Definition net_mixed (url : string) : http_outcome :=
  if String.eqb url (btc_url btc_addr)
  then Response 200 (Ok (btc_body btc_addr 12345678))
  else Response 429 (Raise ContentTypeError).

(** The ETH service answers with an application error. *)
Definition net_eth_error (url : string) : http_outcome :=
  Response 200
    (Ok (JObj [("status", JStr "0"); ("message", JStr "NOTOK");
               ("result", JStr "Max rate limit reached")])).

Definition net_eth_zero (url : string) : http_outcome :=
  Response 200 (Ok genuine_zero).

Definition env_mixed : iter_env :=
  {| drawn_key := key1; net := net_mixed; disk := None |}.





(** Both services throttle. *)
Definition net_busy (url : string) : http_outcome :=
  Response 429 (Raise ContentTypeError).

(** The BTC lookup is cancelled, the ETH service answers. *)
Definition net_cancelled (url : string) : http_outcome :=
  if String.eqb url (btc_url btc_addr)
  then GetRaises CancelledError
  else Response 200 (Ok genuine_zero).

(** The two lookups of one check of cws_v2.py under a ceiling of 15. *)
Definition check_calls : list Sched.call :=
  [Sched.V2Btc false net_cancelled btc_addr (V2.init 15);
   Sched.V2Eth false int_of_decimal net_cancelled eth_addr (V2.init 15)].

(** Three lookups under a ceiling of two. *)
Definition three_calls : list Sched.call :=
  [Sched.V2Btc false net_mixed btc_addr (V2.init 2);
   Sched.WinEth false int_of_decimal net_mixed eth_addr (Win.init 2);
   Sched.WinBtc false net_mixed btc_addr (Win.init 2)].

End Examples.

(* ===================================================================== *)
(** ** Start-up: how the mode is chosen *)
(* ===================================================================== *)

Module Startup.
Import Py.

(** [str.lower()], on the ASCII letters. (Outside ASCII only U+212A
    lowers to a lone ASCII letter, [k], which none of the words below
    contains; U+0130 lowers to [i] followed by a combining dot, which is
    no word below either.) *)
Definition lower_char (c : ascii) : ascii :=
  let n := nat_of_ascii c in
  if (65 <=? n)%nat && (n <=? 90)%nat then ascii_of_nat (n + 32) else c.

Fixpoint lower (s : string) : string :=
  match s with
  | EmptyString => EmptyString
  | String c rest => String (lower_char c) (lower rest)
  end.

(** [x in [a, b, c]] on strings. *)
Definition one_of (x : string) (words : list string) : bool :=
  existsb (String.eqb x) words.

(** Module level: [TESTMODE = os.getenv('TESTMODE', 'true').lower() == 'true'];
    [None] is an unset variable. *)
Definition env_testmode (value : option string) : bool :=
  String.eqb (lower (default "true" value)) "true".

(** [set_testmode()], the same in both files: [sys.argv] in, the new value
    of the global out. *)
Definition set_testmode (argv : list string) (TESTMODE : bool) : bool :=
  match argv with
  | _ :: a :: _ =>
      let arg := lower a in
      if one_of arg ["live"; "false"; "real"] then false
      else if one_of arg ["test"; "true"; "safe"] then true
      else TESTMODE
  | _ => TESTMODE
  end.

(** The mode the scanner runs in: the import, then [set_testmode()]. *)
Definition resolved_mode (value : option string) (argv : list string) : bool :=
  set_testmode argv (env_testmode value).

End Startup.

(* ===================================================================== *)
(** ** Observations on traces, orders and whole runs *)
(* ===================================================================== *)

Module Obs.
Import Py Spec.
Local Open Scope py_scope.

(** Every event [m] performs satisfies [P]. *)
Definition emits {S A : Type} (P : event -> bool) (m : M S A) : Prop :=
  forall s, forallb P (snd (m s)) = true.

(** Events that stay on the machine: the terminal and the clock. *)
Definition is_local (e : event) : bool :=
  match e with
  | EvPrint | EvSleep _ => true
  | _ => false
  end.

(** [check_wallet] with the two lookups in the other order. *)
Definition v2_check_flipped (tm : bool) (ios : string -> option Z)
    (net : string -> http_outcome) (wallet : WalletInfo) : M V2.scanner WalletInfo :=
  let* e := V2.get_eth_balance tm ios net (eth_address wallet) in
  let* b := V2.get_btc_balance tm net (btc_address wallet) in
  ret (set_balances wallet b e).

Definition win_check_flipped (tm : bool) (ios : string -> option Z)
    (net : string -> http_outcome) (wallet : WalletInfo) : M Win.scanner WalletInfo :=
  let* e := Win.get_eth_balance tm ios net (eth_address wallet) in
  let* b := Win.get_btc_balance tm net (btc_address wallet) in
  ret (set_balances wallet b e).

(** The surroundings of a turn that lets it run to its end: the wallet is
    derived, the services fail in ordinary ways only, and the append, if it
    fails, fails with an [Exception]. *)
Definition fair_turn (derive : string -> result (string * string))
    (env : iter_env) : Prop :=
  (exists a, derive (drawn_key env) = Ok a)
  /\ (forall url, ordinary (net env url) = true)
  /\ match disk env with
     | None => True
     | Some e => is_Exception e = true
     end.

(** The wallet a fair turn of cws_v2.py ends up with. *)
Definition v2_checked (tm : bool) (ios : string -> option Z)
    (derive : string -> result (string * string)) (env : iter_env) : WalletInfo :=
  match derive (drawn_key env) with
  | Ok a =>
      let w := new_wallet (fst a) (snd a) (drawn_key env) in
      if tm then set_balances w f0_0 f0_0
      else set_balances w
             (reported (V2.btc_reading (fst a)) (net env (btc_url (fst a))))
             (reported (V2.eth_reading ios) (net env (eth_url (snd a))))
  | _ => new_wallet "" "" (drawn_key env)
  end.

(** How many of the turns end with a wallet that holds something. *)
Definition v2_paying (tm : bool) (ios : string -> option Z)
    (derive : string -> result (string * string)) (envs : list iter_env) : nat :=
  length (List.filter (fun env => has_balance (v2_checked tm ios derive env)) envs).

End Obs.

(* ===================================================================== *)
(** ** Coroutines that run to their end *)
(* ===================================================================== *)

Module Progress.
Import Py Sched.

(** The discipline of [Sched.disciplined], and at the end of the program
    nothing is held and nothing is pending. *)
Fixpoint closed (h g : bool) (tr : list event) : bool :=
  match tr with
  | [] => negb h && negb g
  | EvAcquire :: r => negb h && closed true g r
  | EvRelease :: r => h && negb g && closed false g r
  | EvGet _ :: r => h && negb g && closed h true r
  | EvDone :: r => g && closed h false r
  | _ :: r => closed h g r
  end.

Definition task_closed (t : task) : bool :=
  implb (pending t) (holding t) && closed (holding t) (pending t) (todo t).

Definition done (t : task) : bool :=
  match todo t with [] => true | _ => false end.

Definition finished (p : pool) : bool := forallb done (tasks p).

(** Task [i] can move. *)
Definition enabled (p : pool) (i : nat) : bool :=
  match tasks p !! i with
  | Some t => match advance (permits p) t with Some _ => true | None => false end
  | None => false
  end.


(** What the event loop keeps when every program is closed. *)
Definition live_inv (ceiling : nat) (p : pool) : Prop :=
  Forall (fun t => task_closed t = true) (tasks p)
  /\ (permits p + holders p = ceiling)%nat.

(** The exchange a call meets. *)
Definition call_exchange (c : call) : http_outcome :=
  match c with
  | V2Btc _ net a _ => net (btc_url a)
  | V2Eth _ _ net a _ => net (eth_url a)
  | WinBtc _ net a _ => net (btc_url a)
  | WinEth _ _ net a _ => net (eth_url a)
  end.

End Progress.

(* ===================================================================== *)
(** ** Proofs *)
(* ===================================================================== *)

Import Py Spec.

(** *** Tactics for the monad *)

Ltac unfold_py :=
  unfold with_semaphore, with_response, try_except, try_catch, finally,
    acquire, release, sleep, bind, lift, emit, ret, raise, gets, modify in *.

Ltac unfold_win :=
  unfold Win.scale_delay, Win.delay_of, Win.report_api_error in *; unfold_py.

(** *** The operations on decoded bodies never wait and raise only [Exception]s *)

Section Readings.
Variable ios : string -> option Z.

Lemma getitem_no_hang d k : py_getitem d k <> Hang.
Proof.
  destruct d as [| | | | | |ms]; simpl; try discriminate.
  destruct (dict_lookup k ms); discriminate.
Qed.

Lemma get_no_hang d k x : py_get d k x <> Hang.
Proof.
  destruct d as [| | | | | |ms]; simpl; try discriminate.
  destruct (dict_lookup k ms); discriminate.
Qed.

Lemma no_inf_no_hang f : no_inf f <> Hang.
Proof. destruct f; discriminate. Qed.

Lemma int_truediv_no_hang a b : int_truediv a b <> Hang.
Proof. destruct a; simpl; try discriminate; apply no_inf_no_hang. Qed.

Lemma truediv_no_hang x b : py_truediv x b <> Hang.
Proof. destruct x; simpl; try discriminate; apply int_truediv_no_hang. Qed.

Lemma py_int_no_hang x : py_int ios x <> Hang.
Proof.
  destruct x as [| | |f|str| |]; simpl; try discriminate.
  - destruct f; discriminate.
  - destruct (ios str); discriminate.
Qed.

Lemma getitem_raises d k e : py_getitem d k = Raise e -> is_Exception e = true.
Proof.
  destruct d as [| | | | | |ms]; simpl; try (intros [= <-]; reflexivity).
  destruct (dict_lookup k ms); intros [= <-]; reflexivity.
Qed.

Lemma get_raises d k x e : py_get d k x = Raise e -> is_Exception e = true.
Proof.
  destruct d as [| | | | | |ms]; simpl; try (intros [= <-]; reflexivity).
  destruct (dict_lookup k ms); intros [= <-]; reflexivity.
Qed.

Lemma int_truediv_raises a b e :
  int_truediv a b = Raise e -> is_Exception e = true.
Proof.
  destruct a; simpl; try discriminate;
    match goal with |- no_inf ?f = _ -> _ => destruct f end; simpl;
    intros [= <-]; reflexivity.
Qed.

Lemma truediv_raises x b e : py_truediv x b = Raise e -> is_Exception e = true.
Proof.
  destruct x; simpl; try (intros [= <-]; reflexivity); try discriminate;
    apply int_truediv_raises.
Qed.

Lemma py_int_raises x e : py_int ios x = Raise e -> is_Exception e = true.
Proof.
  destruct x as [| | |f|str| |]; simpl;
    try (intros [= <-]; reflexivity); try discriminate.
  - destruct f; simpl; intros [= <-]; reflexivity.
  - destruct (ios str); intros [= <-]; reflexivity.
Qed.
End Readings.

(** *** The readings of the four lookups *)

Lemma V2_btc_reading_well a : well_read (V2.btc_reading a).
Proof.
  intros d. unfold V2.btc_reading, rbind.
  destruct (py_getitem d a) eqn:E1;
    [| exact (getitem_raises _ _ _ E1) | exact (getitem_no_hang _ _ E1)].
  destruct (py_getitem a0 "final_balance") eqn:E2;
    [| exact (getitem_raises _ _ _ E2) | exact (getitem_no_hang _ _ E2)].
  destruct (py_truediv a1 100000000) eqn:E3;
    [exact I | exact (truediv_raises _ _ _ E3) | exact (truediv_no_hang _ _ E3)].
Qed.

Lemma Win_btc_reading_well a : well_read (Win.btc_reading a).
Proof.
  intros d. unfold Win.btc_reading, rbind.
  destruct (py_get d a (JObj [])) eqn:E1;
    [| exact (get_raises _ _ _ _ E1) | exact (get_no_hang _ _ _ E1)].
  destruct (py_get a0 "final_balance" (JInt 0)) eqn:E2;
    [| exact (get_raises _ _ _ _ E2) | exact (get_no_hang _ _ _ E2)].
  destruct (py_truediv a1 100000000) eqn:E3;
    [exact I | exact (truediv_raises _ _ _ E3) | exact (truediv_no_hang _ _ E3)].
Qed.

Lemma V2_eth_reading_well ios : well_read (V2.eth_reading ios).
Proof.
  intros d. unfold V2.eth_reading, rbind.
  destruct (py_getitem d "status") eqn:E1;
    [| exact (getitem_raises _ _ _ E1) | exact (getitem_no_hang _ _ E1)].
  destruct (py_eq_str a "1"); [|exact I].
  destruct (py_getitem d "result") eqn:E2;
    [| exact (getitem_raises _ _ _ E2) | exact (getitem_no_hang _ _ E2)].
  destruct (py_int ios a0) eqn:E3;
    [| exact (py_int_raises _ _ _ E3) | exact (py_int_no_hang _ _ E3)].
  destruct (int_truediv a1 (10 ^ 18)) eqn:E4;
    [exact I | exact (int_truediv_raises _ _ _ E4) | exact (int_truediv_no_hang _ _ E4)].
Qed.

Lemma Win_eth_reading_well ios : well_read (Win.eth_reading ios).
Proof.
  intros d. unfold Win.eth_reading, rbind.
  destruct (py_get d "status" JNull) eqn:E1;
    [| exact (get_raises _ _ _ _ E1) | exact (get_no_hang _ _ _ E1)].
  destruct (py_eq_str a "1"); [|exact I].
  destruct (py_get d "result" (JInt 0)) eqn:E2;
    [| exact (get_raises _ _ _ _ E2) | exact (get_no_hang _ _ _ E2)].
  destruct (py_int ios a0) eqn:E3;
    [| exact (py_int_raises _ _ _ E3) | exact (py_int_no_hang _ _ E3)].
  destruct (int_truediv a1 (10 ^ 18)) eqn:E4;
    [exact I | exact (int_truediv_raises _ _ _ E4) | exact (int_truediv_no_hang _ _ E4)].
Qed.

(** The written-out lookups are instances of the shared shape. *)
Lemma V2_btc_is_lookup tm net a s :
  V2.get_btc_balance tm net a s = V2.lookup tm net (btc_url a) (V2.btc_reading a) s.
Proof.
  unfold V2.get_btc_balance, V2.lookup, V2.btc_reading.
  destruct tm; [reflexivity|]. unfold_py.
  destruct (sem_value s); [reflexivity|].
  destruct (net (btc_url a)) as [e|st body]; [reflexivity|].
  destruct (st =? 200); [|reflexivity].
  destruct body as [data|e|]; try reflexivity; simpl.
  destruct (py_getitem data a) as [entry|e|]; try reflexivity; simpl.
  destruct (py_getitem entry "final_balance") as [fb|e|]; try reflexivity; simpl.
  destruct (py_truediv fb 100000000) as [v|e|]; reflexivity.
Qed.

Lemma V2_eth_is_lookup tm ios net a s :
  V2.get_eth_balance tm ios net a s = V2.lookup tm net (eth_url a) (V2.eth_reading ios) s.
Proof.
  unfold V2.get_eth_balance, V2.lookup, V2.eth_reading.
  destruct tm; [reflexivity|]. unfold_py.
  destruct (sem_value s); [reflexivity|].
  destruct (net (eth_url a)) as [e|st body]; [reflexivity|].
  destruct (st =? 200); [|reflexivity].
  destruct body as [data|e|]; try reflexivity; simpl.
  destruct (py_getitem data "status") as [stt|e|]; try reflexivity; simpl.
  destruct (py_eq_str stt "1"); [|reflexivity].
  destruct (py_getitem data "result") as [res|e|]; try reflexivity; simpl.
  destruct (py_int ios res) as [k|e|]; try reflexivity; simpl.
  destruct (int_truediv k (10 ^ 18)) as [v|e|]; reflexivity.
Qed.

Lemma Win_btc_is_lookup tm net a s :
  Win.get_btc_balance tm net a s = Win.lookup tm "btc" net (btc_url a) (Win.btc_reading a) s.
Proof.
  unfold Win.get_btc_balance, Win.lookup, Win.btc_reading.
  destruct tm; [reflexivity|]. unfold_win.
  destruct (sem_value s); [reflexivity|]. simpl.
  destruct (Win.request_delays _ !! "btc"); [|reflexivity]. 
  destruct (net (btc_url a)) as [e|st body]; [reflexivity|].
  destruct (st =? 200); [|reflexivity].
  destruct body as [data|e|]; try reflexivity; simpl.
  destruct (py_get data a (JObj [])) as [entry|e|]; try reflexivity; simpl.
  destruct (py_get entry "final_balance" (JInt 0)) as [fb|e|]; try reflexivity; simpl.
  destruct (py_truediv fb 100000000) as [v|e|]; reflexivity.
Qed.

Lemma Win_eth_is_lookup tm ios net a s :
  Win.get_eth_balance tm ios net a s
  = Win.lookup tm "eth" net (eth_url a) (Win.eth_reading ios) s.
Proof.
  unfold Win.get_eth_balance, Win.lookup, Win.eth_reading.
  destruct tm; [reflexivity|]. unfold_win.
  destruct (sem_value s); [reflexivity|]. simpl.
  destruct (Win.request_delays _ !! "eth"); [|reflexivity]. 
  destruct (net (eth_url a)) as [e|st body]; [reflexivity|].
  destruct (st =? 200); [|reflexivity].
  destruct body as [data|e|]; try reflexivity; simpl.
  destruct (py_get data "status" JNull) as [stt|e|]; try reflexivity; simpl.
  destruct (py_eq_str stt "1"); [|reflexivity].
  destruct (py_get data "result" (JInt 0)) as [res|e|]; try reflexivity; simpl.
  destruct (py_int ios res) as [k|e|]; try reflexivity; simpl.
  destruct (int_truediv k (10 ^ 18)) as [v|e|]; reflexivity.
Qed.

(** *** What a lookup with a permit returns *)

Lemma V2_lookup_run net url reading s n :
  V2.semaphore s = S n ->
  ordinary (net url) = true ->
  well_read reading ->
  V2.lookup false net url reading s =
    (Ok (reported reading (net url)), s, [EvAcquire; EvGet url; EvDone; EvRelease]).
Proof.
  intros Hs Ho Hr. destruct s as [sem sc fc]; simpl in Hs; subst sem.
  unfold V2.lookup, reported, ordinary in *. unfold_py. simpl.
  destruct (net url) as [e|st body]; simpl.
  - rewrite Ho. reflexivity.
  - destruct (st =? 200); [|reflexivity].
    destruct body as [data|e|]; simpl; [| rewrite Ho; reflexivity | discriminate].
    specialize (Hr data). destruct (reading data) as [[v|]|e|]; simpl;
      [reflexivity | reflexivity | rewrite Hr; reflexivity | contradiction].
Qed.

Lemma Win_lookup_run tm' net chain url reading s n d :
  tm' = false ->
  Win.semaphore s = S n ->
  Win.request_delays s !! chain = Some d ->
  ordinary (net url) = true ->
  well_read reading ->
  exists t,
    Win.lookup tm' chain net url reading s =
      (Ok (reported reading (net url)),
       (if throttled (net url)
        then Win.set_delays (<[chain := fmul d f1_5]> (Win.request_delays s)) s
        else s),
       t)
    /\ requests t = 1%nat.
Proof.
  intros -> Hs Hd Ho Hr. destruct s as [mc sem sc fc rd]; simpl in Hs, Hd; subst sem.
  unfold Win.lookup, reported, ordinary, throttled in *. unfold_win. simpl.
  rewrite Hd.
  destruct (net url) as [e|st body]; simpl.
  - rewrite Ho. simpl. eexists; split; reflexivity.
  - destruct (st =? 200) eqn:E200.
    + assert ((st =? 429) = false) as -> by lia.
      destruct body as [data|e|]; simpl;
        [| rewrite Ho; eexists; split; reflexivity | discriminate].
      specialize (Hr data). destruct (reading data) as [[v|]|e|]; simpl;
        [| | rewrite Hr | contradiction]; eexists; split; reflexivity.
    + destruct (st =? 429) eqn:E429; simpl.
      * rewrite Hd. simpl. eexists; split; reflexivity.
      * eexists; split; reflexivity.
Qed.

(** Whatever [request_delays] holds, a lookup with a permit comes back. *)
Lemma Win_lookup_returns net chain url reading s n :
  Win.semaphore s = S n ->
  ordinary (net url) = true ->
  well_read reading ->
  exists v s' t,
    Win.lookup false chain net url reading s = (Ok v, s', t)
    /\ Win.semaphore s' = S n
    /\ (failed_exchange reading (net url) -> v = f0_0)
    /\ (v = reported reading (net url) \/ v = f0_0).
Proof.
  intros Hs Ho Hr.
  destruct (Win.request_delays s !! chain) as [d|] eqn:Hd.
  - destruct (Win_lookup_run false net chain url reading s n d eq_refl Hs Hd Ho Hr)
      as (t & -> & _).
    do 3 eexists; split; [reflexivity|]. split; [|split; [|left; reflexivity]].
    + destruct (throttled (net url)); simpl; assumption.
    + intros F. unfold reported.
      destruct F as [e He|st body Hst|e He|data e He]; try reflexivity.
      * assert ((st =? 200) = false) as -> by lia. reflexivity.
      * simpl. rewrite He. reflexivity.
  - destruct s as [mc sem sc fc rd]; simpl in Hs, Hd; subst sem.
    unfold Win.lookup. unfold_win. simpl. rewrite Hd. simpl.
    do 3 eexists; split; [reflexivity|]. split; [reflexivity|]. split; [reflexivity|].
    right; reflexivity.
Qed.


Lemma V2_check_run ios net w s n :
  V2.semaphore s = S n ->
  (forall url, ordinary (net url) = true) ->
  V2.check_wallet_balances false ios net w s =
    (Ok (set_balances w
           (reported (V2.btc_reading (btc_address w)) (net (btc_url (btc_address w))))
           (reported (V2.eth_reading ios) (net (eth_url (eth_address w))))),
     s,
     [EvAcquire; EvGet (btc_url (btc_address w)); EvDone; EvRelease;
      EvAcquire; EvGet (eth_url (eth_address w)); EvDone; EvRelease]).
Proof.
  intros Hs Ho. unfold V2.check_wallet_balances, bind.
  rewrite V2_btc_is_lookup, (V2_lookup_run _ _ _ _ n Hs (Ho _) (V2_btc_reading_well _)).
  rewrite V2_eth_is_lookup, (V2_lookup_run _ _ _ _ n Hs (Ho _) (V2_eth_reading_well _)).
  reflexivity.
Qed.

(** *** How a lookup touches [request_delays] *)

(** A lookup touches [request_delays] in one way only. *)
Lemma Win_lookup_delays tm chain net url reading s :
  let s' := snd (fst (Win.lookup tm chain net url reading s)) in
  Win.request_delays s' = Win.request_delays s
  \/ (tm = false /\ throttled (net url) = true /\ Win.semaphore s <> O /\
      exists d, Win.request_delays s !! chain = Some d
                /\ Win.request_delays s' = <[chain := fmul d f1_5]> (Win.request_delays s)).
Proof.
  destruct s as [mc sem sc fc rd]. unfold Win.lookup. destruct tm; [left; reflexivity|].
  unfold_win. simpl. destruct sem as [|n]; [left; reflexivity|]. simpl.
  destruct (rd !! chain) as [d|] eqn:Hd; simpl; [|left; reflexivity].
  destruct (net url) as [e|st body]; simpl.
  - destruct (is_Exception e); left; reflexivity.
  - destruct (st =? 200) eqn:E200.
    + destruct body as [data|e|]; simpl.
      * destruct (reading data) as [[v|]|e|]; simpl; try (left; reflexivity).
        destruct (is_Exception e); left; reflexivity.
      * destruct (is_Exception e); left; reflexivity.
      * left; reflexivity.
    + destruct (st =? 429) eqn:E429; simpl; [|left; reflexivity].
      rewrite Hd. simpl. right. repeat split; try discriminate. exists d. split; reflexivity.
Qed.

Lemma Win_lookup_frame tm chain net url reading s k :
  k <> chain ->
  Win.request_delays (snd (fst (Win.lookup tm chain net url reading s))) !! k
  = Win.request_delays s !! k.
Proof.
  intros Hk.
  destruct (Win_lookup_delays tm chain net url reading s)
    as [->|(_ & _ & _ & d & _ & ->)].
  - reflexivity.
  - apply lookup_insert_ne. congruence.
Qed.

Lemma Win_lookup_quiet tm chain net url reading s :
  throttled (net url) = false ->
  Win.request_delays (snd (fst (Win.lookup tm chain net url reading s)))
  = Win.request_delays s.
Proof.
  intros Ht. destruct (Win_lookup_delays tm chain net url reading s) as [->|(_ & H & _)].
  - reflexivity.
  - congruence.
Qed.

(** *** The code's reading of a body against the schema of the service *)














(** *** C1: the check of a wallet always comes back with both balances *)




(** *** The lookups by chain *)


Lemma v2_fetch_is_lookup tm ios c net a s :
  v2_fetch tm ios c net a s = V2.lookup tm net (chain_url c a) (v2_reading ios c a) s.
Proof. destruct c; [apply V2_btc_is_lookup | apply V2_eth_is_lookup]. Qed.

Lemma win_fetch_is_lookup tm ios c net a s :
  win_fetch tm ios c net a s =
    Win.lookup tm (chain_key c) net (chain_url c a) (win_reading ios c a) s.
Proof. destruct c; [apply Win_btc_is_lookup | apply Win_eth_is_lookup]. Qed.

Lemma v2_reading_well ios c a : well_read (v2_reading ios c a).
Proof. destruct c; [apply V2_btc_reading_well | apply V2_eth_reading_well]. Qed.

Lemma win_reading_well ios c a : well_read (win_reading ios c a).
Proof. destruct c; [apply Win_btc_reading_well | apply Win_eth_reading_well]. Qed.

(** *** C2: what a lookup absorbs, and what it reads all the same *)




(** *** C4: test mode never reaches the network *)

(** C4. With test mode on, every chain lookup of both files returns the
    fixed balance 0 for every address, leaves the scanner as it was and
    performs no event at all: no permit taken, no request sent. The check
    of a wallet then returns both balances 0 with an empty trace, and the
    specification classifies each result as a Success. *)
Theorem test_mode_is_offline
    (ios : string -> option Z) (c : chain) (net : string -> http_outcome)
    (a : string) (w : WalletInfo) (s2 : V2.scanner) (sw : Win.scanner) :
  v2_fetch true ios c net a s2 = (Ok f0_0, s2, [])
  /\ win_fetch true ios c net a sw = (Ok f0_0, sw, [])
  /\ V2.check_wallet_balances true ios net w s2 = (Ok (set_balances w f0_0 f0_0), s2, [])
  /\ Win.check_wallet true ios net w sw = (Ok (set_balances w f0_0 f0_0), sw, [])
  /\ classify true (v2_reading ios c a) (net (chain_url c a)) = Success
  /\ classify true (win_reading ios c a) (net (chain_url c a)) = Success.
Proof. destruct c; repeat split. Qed.

(** A throttled lookup with a permit: one request, balance 0, the delay
    of the chain multiplied by 1.5. *)
Lemma win_fetch_throttled
    (ios : string -> option Z) (c : chain) (net : string -> http_outcome)
    (a : string) (s : Win.scanner) (d : float) :
  Win.semaphore s <> O ->
  Win.request_delays s !! chain_key c = Some d ->
  throttled (net (chain_url c a)) = true ->
  exists s' t,
    win_fetch false ios c net a s = (Ok f0_0, s', t)
    /\ requests t = 1%nat
    /\ Win.request_delays s' = <[chain_key c := fmul d f1_5]> (Win.request_delays s).
Proof.
  intros Hp Hd Ht. rewrite win_fetch_is_lookup.
  destruct (Win.semaphore s) as [|n] eqn:Es; [contradiction|].
  assert (Ho : ordinary (net (chain_url c a)) = true).
  { unfold throttled, ordinary in *. destruct (net (chain_url c a)); [discriminate|].
    assert ((status =? 200) = false) as -> by lia. reflexivity. }
  destruct (Win_lookup_run false net (chain_key c) (chain_url c a) _ s n d
              eq_refl Es Hd Ho (win_reading_well ios c a)) as (t & -> & Hreq).
  rewrite Ht.
  assert (reported (win_reading ios c a) (net (chain_url c a)) = f0_0) as ->.
  { unfold reported, throttled in *.
    destruct (net (chain_url c a)); [reflexivity|].
    assert ((status =? 200) = false) as -> by lia. reflexivity. }
  do 2 eexists. split; [reflexivity|]. split; [exact Hreq | reflexivity].
Qed.

(** *** C5: a throttle multiplies the delay of its chain, without a ceiling *)

(** C5, as the code has it. In cws_win.py, when the exchange of a chain
    answers with status 429, the lookup returns the balance 0 after exactly
    one request (no retry inside the call) and multiplies that chain's
    entry of [request_delays] by 1.5; the product is stored as it is, with
    no upper bound. Any other outcome of the exchange, in either mode,
    leaves [request_delays] unchanged. *)
Theorem throttle_scales_delay_without_bound
    (ios : string -> option Z) (c : chain) (net : string -> http_outcome)
    (a : string) (s : Win.scanner) (d : float) :
  Win.semaphore s <> O ->
  Win.request_delays s !! chain_key c = Some d ->
  (throttled (net (chain_url c a)) = true ->
     exists s' t,
       win_fetch false ios c net a s = (Ok f0_0, s', t)
       /\ requests t = 1%nat
       /\ Win.request_delays s' = <[chain_key c := fmul d f1_5]> (Win.request_delays s))
  /\ (throttled (net (chain_url c a)) = false ->
     forall tm,
       Win.request_delays (snd (fst (win_fetch tm ios c net a s)))
       = Win.request_delays s).
Proof.
  intros Hp Hd. split.
  - apply win_fetch_throttled; assumption.
  - intros Ht tm. rewrite win_fetch_is_lookup. apply Win_lookup_quiet, Ht.
Qed.

Lemma throttle_scales_delay_without_bound_witness :
  Win.semaphore (Win.init 15) <> O
  /\ Win.request_delays (Win.init 15) !! chain_key ETH = Some f0_3
  /\ throttled (Examples.net_mixed (chain_url ETH Examples.eth_addr)) = true
  /\ exists s' t,
       win_fetch false int_of_decimal ETH Examples.net_mixed Examples.eth_addr
         (Win.init 15) = (Ok f0_0, s', t)
       /\ requests t = 1%nat
       /\ Win.request_delays s'
          = <[chain_key ETH := fmul f0_3 f1_5]> (Win.request_delays (Win.init 15)).
Proof.
  assert (H1 : Win.semaphore (Win.init 15) <> O) by discriminate.
  assert (H2 : Win.request_delays (Win.init 15) !! chain_key ETH = Some f0_3)
    by reflexivity.
  assert (H3 : throttled (Examples.net_mixed (chain_url ETH Examples.eth_addr)) = true)
    by reflexivity.
  split; [exact H1|]. split; [exact H2|]. split; [exact H3|].
  exact (proj1 (throttle_scales_delay_without_bound int_of_decimal ETH
                  Examples.net_mixed Examples.eth_addr (Win.init 15) f0_3 H1 H2) H3).
Defined.

(** C5, counterexample to the upper bound. From the delays of [__init__],
    eight throttles of the BTC chain in a row take its delay above 10
    seconds, and 1753 of them take it to plus infinity: no finite value
    bounds the delay. *)
Lemma backoff_has_no_upper_bound :
  (exists d,
      Win.request_delays
        (win_after int_of_decimal (throttled_in_a_row BTC 8) (Win.init 15)) !! "btc"
      = Some d
      /\ flt ten d = true)
  /\ Win.request_delays
       (win_after int_of_decimal (throttled_in_a_row BTC 1753) (Win.init 15)) !! "btc"
     = Some (S754_infinity false).
Proof.
  split; [eexists; split|]; vm_compute; reflexivity.
Qed.

(** *** C8: the back-off of one chain does not touch the other *)

Lemma grows_spec n : forall d k,
  grows n d = true -> (k < n)%nat ->
  flt (Nat.iter k (fun x => fmul x f1_5) d) (Nat.iter (S k) (fun x => fmul x f1_5) d) = true.
Proof.
  induction n as [|n IH]; intros d k Hg Hk; [lia|].
  simpl in Hg. apply andb_true_iff in Hg as [H0 Hn].
  destruct k as [|k]; [exact H0|].
  specialize (IH _ k Hn ltac:(lia)).
  rewrite (Nat.iter_succ_r (S k)), (Nat.iter_succ_r k). exact IH.
Qed.

(** Each multiplication short of the overflow gives a greater delay. *)
Lemma backoff_grows_until_overflow c k :
  (k < overflows_after c)%nat -> flt (backoff c k) (backoff c (S k)) = true.
Proof.
  intros Hk. unfold backoff. apply (grows_spec (overflows_after c)); [|exact Hk].
  destruct c; vm_compute; reflexivity.
Qed.

(** From the overflow on the delay is plus infinity. *)
Lemma backoff_saturates c : forall k,
  (overflows_after c <= k)%nat -> backoff c k = S754_infinity false.
Proof.
  intros k Hk. replace k with ((k - overflows_after c) + overflows_after c)%nat by lia.
  induction (k - overflows_after c)%nat as [|j IH].
  - destruct c; vm_compute; reflexivity.
  - unfold backoff in *. simpl. rewrite IH. reflexivity.
Qed.

Lemma chain_key_inj X Y : X <> Y -> chain_key Y <> chain_key X.
Proof. destruct X, Y; simpl; congruence. Qed.

Lemma init_delay n c :
  Win.request_delays (Win.init n) !! chain_key c = Some (backoff c 0).
Proof. destruct c; reflexivity. Qed.

(** After a history of ordinary lookups the permit is back and each chain's
    delay has been multiplied once per throttle of that chain. *)
Lemma win_after_delays ios c : forall history s n k,
  Forall (fun l => ordinary (answer l) = true) history ->
  Win.semaphore s = S n ->
  Win.request_delays s !! chain_key c = Some (backoff c k) ->
  (forall c', exists d, Win.request_delays s !! chain_key c' = Some d) ->
  Win.semaphore (win_after ios history s) = S n
  /\ Win.request_delays (win_after ios history s) !! chain_key c
     = Some (backoff c (k + throttles c history)).
Proof.
  induction history as [|l rest IH]; intros s n k Hall Hs Hd Hkeys.
  - simpl. rewrite Nat.add_0_r. auto.
  - inversion Hall as [|? ? Hl Hrest]; subst. simpl win_after.
    rewrite win_fetch_is_lookup.
    destruct (Hkeys (on_chain l)) as [dl Hdl].
    destruct (Win_lookup_run false (fun _ => answer l) (chain_key (on_chain l))
                (chain_url (on_chain l) (at_address l)) _ s n dl eq_refl Hs Hdl Hl
                (win_reading_well ios (on_chain l) (at_address l))) as (t & -> & _).
    simpl snd. unfold throttles. simpl List.filter.
    destruct (throttled (answer l)) eqn:Ht.
    + destruct (same_chain c (on_chain l)) eqn:Ec; simpl.
      * assert (on_chain l = c) as Hc by (destruct c, (on_chain l); simpl in Ec; congruence).
        rewrite Hc in *. rewrite Hd in Hdl. injection Hdl as <-.
        replace (k + S (length (List.filter
                   (fun l0 => same_chain c (on_chain l0) && throttled (answer l0)) rest)))%nat
          with (S k + throttles c rest)%nat by (unfold throttles; lia).
        apply IH; auto.
        -- simpl. apply lookup_insert_eq.
        -- intros c'. simpl. destruct (decide (chain_key c = chain_key c')) as [E|E].
           ++ rewrite <- E. rewrite lookup_insert_eq. eauto.
           ++ rewrite lookup_insert_ne by exact E. apply Hkeys.
      * apply IH; auto.
        -- simpl. rewrite lookup_insert_ne; [exact Hd|].
           destruct c, (on_chain l); simpl in *; congruence.
        -- intros c'. simpl.
           destruct (decide (chain_key (on_chain l) = chain_key c')) as [E|E].
           ++ rewrite <- E. rewrite lookup_insert_eq. eauto.
           ++ rewrite lookup_insert_ne by exact E. apply Hkeys.
    + rewrite andb_false_r. apply IH; auto.
Qed.

(** C8, as the code has it. In cws_win.py, after any history of ordinary
    lookups since [__init__], a further status 429 on chain X replaces
    X's delay [d] by [d * 1.5] and leaves the delay of every other chain
    Y as it was. The new delay is strictly greater as long as X was
    throttled fewer than 1753 (BTC) or 1754 (ETH) times before; from
    then on the delay is plus infinity and the product is plus infinity
    again, equal to what it was. *)
Theorem throttle_is_per_chain
    (ios : string -> option Z) (history : list past_lookup) (n : nat)
    (X Y : chain) (net : string -> http_outcome) (a : string) :
  X <> Y ->
  Forall (fun l => ordinary (answer l) = true) history ->
  throttled (net (chain_url X a)) = true ->
  let s := win_after ios history (Win.init (S n)) in
  let s' := snd (fst (win_fetch false ios X net a s)) in
  exists d d',
    Win.request_delays s !! chain_key X = Some d
    /\ Win.request_delays s' !! chain_key X = Some d'
    /\ d' = fmul d f1_5
    /\ ((throttles X history < overflows_after X)%nat -> flt d d' = true)
    /\ ((overflows_after X <= throttles X history)%nat ->
        d = S754_infinity false /\ d' = d)
    /\ Win.request_delays s' !! chain_key Y = Win.request_delays s !! chain_key Y.
Proof.
  intros Hxy Hall Ht s s'.
  assert (Hkeys : forall c', exists d,
             Win.request_delays (Win.init (S n)) !! chain_key c' = Some d)
    by (intros c'; eexists; apply init_delay).
  destruct (win_after_delays ios X history (Win.init (S n)) n 0 Hall eq_refl
              (init_delay _ X) Hkeys) as [Hs Hd].
  fold s in Hs, Hd. simpl in Hd.
  destruct (win_fetch_throttled ios X net a s _
              ltac:(rewrite Hs; discriminate) Hd Ht) as (s1 & t & Hrun & _ & Hdel).
  assert (Es' : s' = s1) by (unfold s'; rewrite Hrun; reflexivity).
  exists (backoff X (throttles X history)), (backoff X (S (throttles X history))).
  split; [exact Hd|]. rewrite Es', Hdel.
  split; [apply lookup_insert_eq|]. split; [reflexivity|].
  split; [apply backoff_grows_until_overflow|].
  split.
  { intros Hk. rewrite !backoff_saturates by lia. split; reflexivity. }
  apply lookup_insert_ne. intros E. apply (chain_key_inj X Y Hxy). congruence.
Qed.

Lemma throttle_is_per_chain_witness :
  ETH <> BTC
  /\ Forall (fun l => ordinary (answer l) = true) (throttled_in_a_row ETH 2)
  /\ throttled (Examples.net_mixed (chain_url ETH Examples.eth_addr)) = true
  /\ exists d d',
       Win.request_delays
         (win_after int_of_decimal (throttled_in_a_row ETH 2) (Win.init 15))
         !! chain_key ETH = Some d
       /\ Win.request_delays
            (snd (fst (win_fetch false int_of_decimal ETH Examples.net_mixed
                         Examples.eth_addr
                         (win_after int_of_decimal (throttled_in_a_row ETH 2)
                            (Win.init 15)))))
            !! chain_key ETH = Some d'
       /\ d' = fmul d f1_5
       /\ flt d d' = true
       /\ Win.request_delays
            (snd (fst (win_fetch false int_of_decimal ETH Examples.net_mixed
                         Examples.eth_addr
                         (win_after int_of_decimal (throttled_in_a_row ETH 2)
                            (Win.init 15)))))
            !! chain_key BTC
          = Win.request_delays
              (win_after int_of_decimal (throttled_in_a_row ETH 2) (Win.init 15))
              !! chain_key BTC.
Proof.
  assert (H1 : ETH <> BTC) by discriminate.
  assert (H2 : Forall (fun l => ordinary (answer l) = true) (throttled_in_a_row ETH 2))
    by (repeat constructor).
  assert (H3 : throttled (Examples.net_mixed (chain_url ETH Examples.eth_addr)) = true)
    by reflexivity.
  split; [exact H1|]. split; [exact H2|]. split; [exact H3|].
  destruct (throttle_is_per_chain int_of_decimal (throttled_in_a_row ETH 2) 14 ETH BTC
              Examples.net_mixed Examples.eth_addr H1 H2 H3)
    as (d & d' & A & B & C & D & _ & E).
  exists d, d'. split; [exact A|]. split; [exact B|]. split; [exact C|].
  split; [apply D; vm_compute; lia | exact E].
Defined.

(** C8, counterexample to the strict increase. Under a ceiling of 2000,
    after 1753 throttles of the BTC chain since [__init__] (one after the
    other, or from as many lookups under way at once: each multiplies the
    shared delay when its answer arrives) the BTC delay is plus infinity;
    a further status 429 on BTC multiplies it to plus infinity again: the
    delay has not increased. *)
Lemma throttle_at_infinity_does_not_grow :
  throttled (Examples.net_busy (chain_url BTC Examples.btc_addr)) = true
  /\ (let s := win_after int_of_decimal (throttled_in_a_row BTC 1753)
                 (Win.init 2000) in
      let s' := snd (fst (win_fetch false int_of_decimal BTC Examples.net_busy
                            Examples.btc_addr s)) in
      Win.request_delays s !! "btc" = Some (S754_infinity false)
      /\ Win.request_delays s' !! "btc" = Some (S754_infinity false)
      /\ flt (S754_infinity false) (S754_infinity false) = false).
Proof. split; [reflexivity|]. vm_compute. repeat split. Qed.

(** *** C9: an application error of the ETH service reads as a zero balance *)

Lemma V2_eth_reading_bad_status ios data :
  status_is_one data = false ->
  forall v, V2.eth_reading ios data <> Ok (Some v).
Proof.
  intros H v. unfold V2.eth_reading, status_is_one, py_getitem, rbind in *.
  destruct data; try discriminate.
  destruct (dict_lookup "status" members); [|discriminate].
  rewrite H. discriminate.
Qed.

Lemma Win_eth_reading_bad_status ios data :
  status_is_one data = false ->
  forall v, Win.eth_reading ios data <> Ok (Some v).
Proof.
  intros H v. unfold Win.eth_reading, status_is_one, py_get, rbind in *.
  destruct data; try discriminate.
  destruct (dict_lookup "status" members); [rewrite H|]; discriminate.
Qed.

Lemma reported_bad_status reading data :
  (forall v, reading data <> Ok (Some v)) ->
  reported reading (Response 200 (Ok data)) = f0_0.
Proof.
  intros H. simpl. destruct (reading data) as [[v|]|e|]; try reflexivity.
  destruct (H v eq_refl).
Qed.

Lemma V2_eth_reading_zero ios :
  ios "0"%string = Some 0 -> V2.eth_reading ios genuine_zero = Ok (Some f0_0).
Proof. intros H. unfold V2.eth_reading. simpl. rewrite H. reflexivity. Qed.

Lemma Win_eth_reading_zero ios :
  ios "0"%string = Some 0 -> Win.eth_reading ios genuine_zero = Ok (Some f0_0).
Proof. intros H. unfold Win.eth_reading. simpl. rewrite H. reflexivity. Qed.

(** C9. When the ETH exchange comes back with status 200 and a body whose
    status field is not the string '1' (an application-level error of the
    service, a missing field, a body that is not an object),
    [get_eth_balance] of both files returns the balance 0.0: exactly what
    it returns for the body the service sends for an address that holds
    nothing, so the caller cannot tell the two apart. *)
Theorem eth_application_error_reads_as_zero
    (tm : bool) (ios : string -> option Z) (net net0 : string -> http_outcome)
    (a : string) (data : json) (s2 : V2.scanner) (sw : Win.scanner) :
  (tm = false -> V2.semaphore s2 <> O /\ Win.semaphore sw <> O) ->
  ios "0"%string = Some 0 ->
  net (eth_url a) = Response 200 (Ok data) ->
  status_is_one data = false ->
  net0 (eth_url a) = Response 200 (Ok genuine_zero) ->
  fst (fst (V2.get_eth_balance tm ios net a s2)) = Ok f0_0
  /\ fst (fst (V2.get_eth_balance tm ios net0 a s2)) = Ok f0_0
  /\ fst (fst (Win.get_eth_balance tm ios net a sw)) = Ok f0_0
  /\ fst (fst (Win.get_eth_balance tm ios net0 a sw)) = Ok f0_0.
Proof.
  intros Hp H0 Hnet Hbad Hnet0.
  rewrite !V2_eth_is_lookup, !Win_eth_is_lookup.
  destruct tm; [repeat split|].
  destruct (Hp eq_refl) as [H2 Hw].
  destruct (V2.semaphore s2) as [|n2] eqn:E2; [contradiction|].
  destruct (Win.semaphore sw) as [|nw] eqn:Ew; [contradiction|].
  assert (Ho : ordinary (net (eth_url a)) = true) by (rewrite Hnet; reflexivity).
  assert (Ho0 : ordinary (net0 (eth_url a)) = true) by (rewrite Hnet0; reflexivity).
  repeat split.
  - rewrite (V2_lookup_run _ _ _ _ n2 E2 Ho (V2_eth_reading_well ios)), Hnet.
    simpl fst. f_equal. apply reported_bad_status, V2_eth_reading_bad_status, Hbad.
  - rewrite (V2_lookup_run _ _ _ _ n2 E2 Ho0 (V2_eth_reading_well ios)), Hnet0.
    simpl fst. f_equal. unfold reported. simpl.
    rewrite (V2_eth_reading_zero ios H0). reflexivity.
  - destruct (Win_lookup_returns net "eth" (eth_url a) _ sw nw Ew Ho
                (Win_eth_reading_well ios)) as (v & s' & t & -> & _ & _ & [->| ->]);
      [|reflexivity].
    rewrite Hnet. simpl fst. f_equal.
    apply reported_bad_status, Win_eth_reading_bad_status, Hbad.
  - destruct (Win_lookup_returns net0 "eth" (eth_url a) _ sw nw Ew Ho0
                (Win_eth_reading_well ios)) as (v & s' & t & -> & _ & _ & [->| ->]);
      [|reflexivity].
    rewrite Hnet0. simpl fst. f_equal.
    unfold reported. simpl. rewrite (Win_eth_reading_zero ios H0). reflexivity.
Qed.

Lemma eth_application_error_reads_as_zero_witness :
  (false = false -> V2.semaphore (V2.init 10) <> O /\ Win.semaphore (Win.init 15) <> O)
  /\ int_of_decimal "0"%string = Some 0
  /\ status_is_one
       (JObj [("status", JStr "0"); ("message", JStr "NOTOK");
              ("result", JStr "Max rate limit reached")]) = false
  /\ fst (fst (V2.get_eth_balance false int_of_decimal Examples.net_eth_error
                 Examples.eth_addr (V2.init 10))) = Ok f0_0
  /\ fst (fst (V2.get_eth_balance false int_of_decimal Examples.net_eth_zero
                 Examples.eth_addr (V2.init 10))) = Ok f0_0
  /\ fst (fst (Win.get_eth_balance false int_of_decimal Examples.net_eth_error
                 Examples.eth_addr (Win.init 15))) = Ok f0_0
  /\ fst (fst (Win.get_eth_balance false int_of_decimal Examples.net_eth_zero
                 Examples.eth_addr (Win.init 15))) = Ok f0_0.
Proof.
  assert (H1 : false = false ->
               V2.semaphore (V2.init 10) <> O /\ Win.semaphore (Win.init 15) <> O)
    by (intros _; split; discriminate).
  assert (H2 : int_of_decimal "0"%string = Some 0) by reflexivity.
  assert (H3 : status_is_one
                 (JObj [("status", JStr "0"); ("message", JStr "NOTOK");
                        ("result", JStr "Max rate limit reached")]) = false)
    by reflexivity.
  split; [exact H1|]. split; [exact H2|]. split; [exact H3|].
  exact (eth_application_error_reads_as_zero false int_of_decimal
           Examples.net_eth_error Examples.net_eth_zero Examples.eth_addr _
           (V2.init 10) (Win.init 15) H1 H2 eq_refl H3 eq_refl).
Defined.

(** *** C7: found means a successful lookup with a balance *)


(** The two counters after [tally], and what reaches the file. *)
Lemma V2_tally_run tm dsk w s :
  let '(r, s', t) := V2.tally tm dsk w s in
  V2.scan_count s' = V2.scan_count s + 1
  /\ V2.found_count s' = V2.found_count s + (if has_balance w then 1 else 0)
  /\ V2.semaphore s' = V2.semaphore s
  /\ (forall l, In (EvAppend l) t <->
        has_balance w = true /\ tm = false /\ dsk = None /\ l = wallet_line w).
Proof.
  unfold V2.tally, V2.save_found_wallet. unfold_py. simpl.
  destruct (has_balance w), tm; simpl;
    try (destruct dsk as [e|]; simpl; [destruct (is_Exception e); simpl|]);
    (split; [lia|]); (split; [lia|]); (split; [reflexivity|]);
    intros l; simpl; intuition (try discriminate; try congruence).
Qed.

Lemma Win_tally_run tm dsk w s :
  let '(r, s', t) := Win.tally tm dsk w s in
  Win.scan_count s' = Win.scan_count s + 1
  /\ Win.found_count s' = Win.found_count s + (if has_balance w then 1 else 0)
  /\ Win.semaphore s' = Win.semaphore s
  /\ (forall l, In (EvAppend l) t <->
        has_balance w = true /\ tm = false /\ dsk = None /\ l = wallet_line w).
Proof.
  unfold Win.tally, Win.save_found_wallet. unfold_py. simpl.
  destruct (has_balance w), tm; simpl;
    try (destruct dsk as [e|]; simpl; [destruct (is_IOError e); simpl|]);
    (split; [lia|]); (split; [lia|]); (split; [reflexivity|]);
    intros l; simpl; intuition (try discriminate; try congruence).
Qed.












(** *** C10: the counters of the scan loop *)

(** The state a bind ends in is the state of its first part, or of the
    continuation run from there. *)
Lemma bind_state {S A B} (m : M S A) (f : A -> M S B) (s : S) :
  snd (fst (bind m f s)) =
    match fst (fst (m s)) with
    | Ok a => snd (fst (f a (snd (fst (m s)))))
    | _ => snd (fst (m s))
    end.
Proof.
  unfold bind. destruct (m s) as [[r s1] t1]. simpl.
  destruct r; try reflexivity. destruct (f a s1) as [[r2 s2] t2]. reflexivity.
Qed.

Section Keeps.
Context {S X : Type} (g : S -> X).

Lemma keeps_ret {A} (a : A) : keeps g (ret a).
Proof. intros s. reflexivity. Qed.

Lemma keeps_lift {A} (r : result A) : keeps g (lift r).
Proof. intros s. reflexivity. Qed.

Lemma keeps_raise {A} (e : exn) : keeps g (@raise S A e).
Proof. intros s. reflexivity. Qed.

Lemma keeps_emit (ev : event) : keeps g (emit ev).
Proof. intros s. reflexivity. Qed.

Lemma keeps_gets {A} (f : S -> A) : keeps g (gets f).
Proof. intros s. reflexivity. Qed.

Lemma keeps_bind {A B} (m : M S A) (f : A -> M S B) :
  keeps g m -> (forall a, keeps g (f a)) -> keeps g (bind m f).
Proof.
  intros Hm Hf s. rewrite bind_state. specialize (Hm s).
  destruct (fst (fst (m s))); try exact Hm. rewrite Hf. exact Hm.
Qed.

Lemma keeps_try_catch {A} c (m : M S A) (h : exn -> M S A) :
  keeps g m -> (forall e, keeps g (h e)) -> keeps g (try_catch c m h).
Proof.
  intros Hm Hh s. unfold try_catch. specialize (Hm s).
  destruct (m s) as [[r s1] t1]. simpl in Hm. destruct r; try exact Hm.
  destruct (c e); [|exact Hm]. specialize (Hh e s1).
  destruct (h e s1) as [[r2 s2] t2]. simpl in *. congruence.
Qed.

Lemma keeps_finally {A} (m : M S A) (fin : M S unit) :
  keeps g m -> keeps g fin -> keeps g (finally m fin).
Proof.
  intros Hm Hf s. unfold finally. specialize (Hm s).
  destruct (m s) as [[r s1] t1]. simpl in Hm. specialize (Hf s1).
  destruct r; try exact Hm; destruct (fin s1) as [[r2 s2] t2];
    destruct r2; simpl in *; congruence.
Qed.
End Keeps.



Ltac keeps_step :=
  first
    [ apply keeps_bind; [|intros ?]
    | apply keeps_try_catch; [|intros ?]
    | apply keeps_finally
    | apply keeps_ret | apply keeps_lift | apply keeps_raise
    | apply keeps_emit | apply keeps_gets
    | match goal with
      | |- keeps _ (if ?b then _ else _) => destruct b
      | |- keeps _ (match ?o with Some _ => _ | None => _ end) => destruct o
      | |- keeps _ (match ?h with GetRaises _ => _ | Response _ _ => _ end) =>
          destruct h
      end ].

Lemma V2_acquire_counters : keeps v2_counters (@acquire V2.scanner _).
Proof. intros [sem sc fc]. unfold acquire. simpl. destruct sem; reflexivity. Qed.

Lemma V2_release_counters : keeps v2_counters (@release V2.scanner _).
Proof. intros [sem sc fc]. reflexivity. Qed.

Lemma Win_acquire_counters : keeps win_counters (@acquire Win.scanner _).
Proof. intros [mc sem sc fc rd]. unfold acquire. simpl. destruct sem; reflexivity. Qed.

Lemma Win_release_counters : keeps win_counters (@release Win.scanner _).
Proof. intros [mc sem sc fc rd]. reflexivity. Qed.

Lemma Win_scale_counters chain : keeps win_counters (Win.scale_delay chain).
Proof.
  unfold Win.scale_delay, Win.delay_of. repeat keeps_step.
  intros [mc sem sc fc rd]. reflexivity.
Qed.

Lemma V2_checked_counters tm ios derive env :
  keeps v2_counters (V2.checked_wallet tm ios derive env).
Proof.
  unfold V2.checked_wallet, V2.generate_wallet_addresses, V2.check_wallet_balances,
    V2.get_btc_balance, V2.get_eth_balance, with_semaphore, with_response, try_except, sleep.
  repeat (keeps_step || apply V2_acquire_counters || apply V2_release_counters).
Qed.

Lemma Win_checked_counters tm ios derive env :
  keeps win_counters (Win.checked_wallet tm ios derive env).
Proof.
  unfold Win.checked_wallet, Win.generate_secure_private_key,
    Win.generate_wallet_addresses, Win.check_wallet,
    Win.get_btc_balance, Win.get_eth_balance, Win.report_api_error, Win.delay_of,
    with_semaphore, with_response, try_except, sleep.
  repeat (keeps_step || apply Win_acquire_counters || apply Win_release_counters
          || apply Win_scale_counters).
Qed.

Lemma V2_turn tm ios derive env s :
  let s' := snd (fst (V2.scan_iteration tm ios derive env s)) in
  turn_counts (V2.scan_count s) (V2.found_count s)
    (V2.scan_count s') (V2.found_count s')
    (fst (fst (V2.checked_wallet tm ios derive env s))).
Proof.
  unfold V2.scan_iteration. simpl. rewrite bind_state.
  pose proof (V2_checked_counters tm ios derive env s) as C.
  destruct (V2.checked_wallet tm ios derive env s) as [[r s1] t1].
  simpl in *. injection C as Hsc Hfc.
  destruct r as [w|e|]; simpl; [|rewrite Hsc, Hfc; auto ..].
  rewrite bind_state.
  pose proof (V2_tally_run tm (disk env) w s1) as T.
  destruct (V2.tally tm (disk env) w s1) as [[r2 s2] t2].
  destruct T as (Ts & Tf & _). simpl.
  assert (K : forall u : unit, keeps v2_counters
             (bind (V2.display_results w)
                (fun _ => if negb tm then @sleep V2.scanner f0_3 else sleep f0_1))).
  { intros _. unfold V2.display_results, sleep. repeat keeps_step. }
  destruct r2 as [u| |]; [specialize (K u s2); injection K as -> ->|..]; lia.
Qed.

Lemma Win_turn tm ios derive env s :
  let s' := snd (fst (Win.scan_iteration tm ios derive env s)) in
  turn_counts (Win.scan_count s) (Win.found_count s)
    (Win.scan_count s') (Win.found_count s')
    (fst (fst (Win.checked_wallet tm ios derive env s))).
Proof.
  unfold Win.scan_iteration. simpl. rewrite bind_state.
  pose proof (Win_checked_counters tm ios derive env s) as C.
  destruct (Win.checked_wallet tm ios derive env s) as [[r s1] t1].
  simpl in *. injection C as Hsc Hfc.
  destruct r as [w|e|]; simpl; [|rewrite Hsc, Hfc; auto ..].
  rewrite bind_state.
  pose proof (Win_tally_run tm (disk env) w s1) as T.
  destruct (Win.tally tm (disk env) w s1) as [[r2 s2] t2].
  destruct T as (Ts & Tf & _). simpl.
  destruct r2 as [u| |]; simpl; lia.
Qed.

Lemma turn_counts_le scan found scan' found' r :
  turn_counts scan found scan' found' r -> found <= scan -> found' <= scan'.
Proof.
  unfold turn_counts. destruct r as [w| |]; [destruct (has_balance w)|..]; lia.
Qed.

Lemma V2_loop_le tm ios derive : forall envs s,
  V2.found_count s <= V2.scan_count s ->
  let s' := snd (fst (V2.scan_loop tm ios derive envs s)) in
  V2.found_count s' <= V2.scan_count s'.
Proof.
  induction envs as [|env rest IH]; intros s Hs; [exact Hs|].
  simpl. rewrite bind_state.
  pose proof (turn_counts_le _ _ _ _ _ (V2_turn tm ios derive env s) Hs) as H1.
  destruct (V2.scan_iteration tm ios derive env s) as [[r s1] t1]. simpl in *.
  destruct r; [apply IH|..]; exact H1.
Qed.

Lemma Win_loop_cons tm ios derive target env rest s :
  Win.scan_loop tm ios derive target (env :: rest) s =
    if Win.keep_scanning target s
    then bind (Win.scan_iteration tm ios derive env)
           (fun _ => Win.scan_loop tm ios derive target rest) s
    else (Ok tt, s, []).
Proof.
  simpl. unfold bind at 1. unfold gets.
  destruct (Win.keep_scanning target s); [|reflexivity].
  destruct (bind _ _ s) as [[r s1] t1]. reflexivity.
Qed.

Lemma Win_loop_le tm ios derive target : forall envs s,
  Win.found_count s <= Win.scan_count s ->
  let s' := snd (fst (Win.scan_loop tm ios derive target envs s)) in
  Win.found_count s' <= Win.scan_count s'.
Proof.
  induction envs as [|env rest IH]; intros s Hs; [exact Hs|].
  rewrite Win_loop_cons.
  destruct (Win.keep_scanning target s); [|exact Hs].
  simpl. rewrite bind_state.
  pose proof (turn_counts_le _ _ _ _ _ (Win_turn tm ios derive env s) Hs) as H1.
  destruct (Win.scan_iteration tm ios derive env s) as [[r s1] t1]. simpl in *.
  destruct r; [apply IH|..]; exact H1.
Qed.

(** C10. The scan loop of both files keeps [found_count <= scan_count]:
    if it holds when [run_scan] starts it holds when the run stops, however
    it stops. In one turn, once the wallet has been checked, [scan_count]
    grows by exactly 1 and [found_count] by exactly 1 when the checked
    wallet has a balance above 0 and by 0 otherwise; a turn that does not
    get as far as a checked wallet leaves both counters alone. *)
Theorem scan_counters_invariant
    (tm : bool) (ios : string -> option Z)
    (derive : string -> result (string * string))
    (target : option Z) (envs : list iter_env) (env : iter_env)
    (s2 : V2.scanner) (sw : Win.scanner) :
  V2.found_count s2 <= V2.scan_count s2 ->
  Win.found_count sw <= Win.scan_count sw ->
  let s2' := snd (fst (V2.run_scan tm ios derive envs s2)) in
  let sw' := snd (fst (Win.run_scan tm ios derive target envs sw)) in
  let t2 := snd (fst (V2.scan_iteration tm ios derive env s2)) in
  let tw := snd (fst (Win.scan_iteration tm ios derive env sw)) in
  V2.found_count s2' <= V2.scan_count s2'
  /\ Win.found_count sw' <= Win.scan_count sw'
  /\ turn_counts (V2.scan_count s2) (V2.found_count s2)
       (V2.scan_count t2) (V2.found_count t2)
       (fst (fst (V2.checked_wallet tm ios derive env s2)))
  /\ turn_counts (Win.scan_count sw) (Win.found_count sw)
       (Win.scan_count tw) (Win.found_count tw)
       (fst (fst (Win.checked_wallet tm ios derive env sw))).
Proof.
  intros H2 Hw. simpl. repeat split.
  - pose proof (V2_loop_le tm ios derive envs s2 H2) as L.
    unfold V2.run_scan, try_catch.
    destruct (V2.scan_loop tm ios derive envs s2) as [[r s1] t1]. simpl in L.
    destruct r as [u|e|]; simpl; try exact L.
    destruct (is_interrupt e); exact L.
  - pose proof (Win_loop_le tm ios derive target envs sw Hw) as L.
    unfold Win.run_scan, try_catch.
    destruct (Win.scan_loop tm ios derive target envs sw) as [[r s1] t1]. simpl in L.
    destruct r as [u|e|]; simpl; try exact L.
    destruct (is_interrupt e || is_Exception e); exact L.
  - apply V2_turn.
  - apply Win_turn.
Qed.

Lemma scan_counters_invariant_witness :
  V2.found_count (V2.init 10) <= V2.scan_count (V2.init 10)
  /\ Win.found_count (Win.init 15) <= Win.scan_count (Win.init 15)
  /\ V2.found_count
       (snd (fst (V2.run_scan false int_of_decimal Examples.derive1
                    [Examples.env_mixed; Examples.env_mixed] (V2.init 10))))
     <= V2.scan_count
          (snd (fst (V2.run_scan false int_of_decimal Examples.derive1
                       [Examples.env_mixed; Examples.env_mixed] (V2.init 10))))
  /\ Win.found_count
       (snd (fst (Win.run_scan false int_of_decimal Examples.derive1 None
                    [Examples.env_mixed; Examples.env_mixed] (Win.init 15))))
     <= Win.scan_count
          (snd (fst (Win.run_scan false int_of_decimal Examples.derive1 None
                       [Examples.env_mixed; Examples.env_mixed] (Win.init 15)))).
Proof.
  assert (H1 : V2.found_count (V2.init 10) <= V2.scan_count (V2.init 10))
    by (simpl; lia).
  assert (H2 : Win.found_count (Win.init 15) <= Win.scan_count (Win.init 15))
    by (simpl; lia).
  split; [exact H1|]. split; [exact H2|].
  destruct (scan_counters_invariant false int_of_decimal Examples.derive1 None
              [Examples.env_mixed; Examples.env_mixed] Examples.env_mixed
              (V2.init 10) (Win.init 15) H1 H2) as (A & B & _).
  split; [exact A | exact B].
Defined.

(** *** C3: the semaphore bounds the requests in flight *)

Import Sched.

Lemma V2_lookup_disciplined tm net url reading s :
  disciplined false false (snd (V2.lookup tm net url reading s)) = true.
Proof.
  destruct s as [sem sc fc]. unfold V2.lookup. destruct tm; [reflexivity|].
  unfold_py. simpl. destruct sem; [reflexivity|]. simpl.
  destruct (net url) as [e|st body]; simpl.
  - destruct (is_Exception e); reflexivity.
  - destruct (st =? 200); [|reflexivity].
    destruct body as [data|e|]; simpl.
    + destruct (reading data) as [[v|]|e|]; simpl; try reflexivity.
      destruct (is_Exception e); reflexivity.
    + destruct (is_Exception e); reflexivity.
    + reflexivity.
Qed.

Lemma Win_lookup_disciplined tm chain net url reading s :
  disciplined false false (snd (Win.lookup tm chain net url reading s)) = true.
Proof.
  destruct s as [mc sem sc fc rd]. unfold Win.lookup. destruct tm; [reflexivity|].
  unfold_win. simpl. destruct sem; [reflexivity|]. simpl.
  destruct (rd !! chain) as [d|] eqn:Hd; simpl; [|reflexivity].
  destruct (net url) as [e|st body]; simpl.
  - destruct (is_Exception e); reflexivity.
  - destruct (st =? 200).
    + destruct body as [data|e|]; simpl.
      * destruct (reading data) as [[v|]|e|]; simpl; try reflexivity.
        destruct (is_Exception e); reflexivity.
      * destruct (is_Exception e); reflexivity.
      * reflexivity.
    + destruct (st =? 429); simpl; [rewrite Hd|]; reflexivity.
Qed.

Lemma program_disciplined c : disciplined false false (program_of c) = true.
Proof.
  destruct c; simpl.
  - rewrite V2_btc_is_lookup. apply V2_lookup_disciplined.
  - rewrite V2_eth_is_lookup. apply V2_lookup_disciplined.
  - rewrite Win_btc_is_lookup. apply Win_lookup_disciplined.
  - rewrite Win_eth_is_lookup. apply Win_lookup_disciplined.
Qed.

(** Replacing one task moves a count by the difference of the two tasks. *)
Lemma count_insert f : forall (l : list task) i t t',
  l !! i = Some t ->
  (count f (<[i := t']> l) + (if f t then 1 else 0)
   = count f l + (if f t' then 1 else 0))%nat.
Proof.
  induction l as [|x l IH]; intros i t t' Hi; [discriminate|].
  destruct i as [|i]; simpl in *.
  - injection Hi as ->. lia.
  - specialize (IH i t t' Hi). lia.
Qed.

Lemma Forall_insert_ok : forall (l : list task) i t',
  Forall (fun t => task_ok t = true) l -> task_ok t' = true ->
  Forall (fun t => task_ok t = true) (<[i := t']> l).
Proof.
  induction l as [|x l IH]; intros i t' Hl Ht; [exact Hl|].
  inversion Hl; subst. destruct i; simpl; constructor; auto.
Qed.

Lemma count_le f g : (forall t, task_ok t = true -> f t = true -> g t = true) ->
  forall l, Forall (fun t => task_ok t = true) l -> (count f l <= count g l)%nat.
Proof.
  intros H. induction l as [|x l IH]; intros Hl; [reflexivity|].
  inversion Hl; subst. simpl. specialize (IH ltac:(assumption)).
  destruct (f x) eqn:E; [rewrite (H x) by assumption|destruct (g x)]; lia.
Qed.

Lemma advance_sound n t n' t' :
  task_ok t = true -> advance n t = Some (n', t') ->
  task_ok t' = true
  /\ (n' + (if holding t' then 1 else 0) = n + (if holding t then 1 else 0))%nat.
Proof.
  unfold task_ok, advance. destruct t as [h g tr]. simpl.
  destruct tr as [|ev rest]; [discriminate|].
  destruct ev; simpl; try destruct n; destruct h, g; simpl;
    try discriminate; intros Hk [= <- <-]; simpl; auto.
Qed.

Lemma step_sound ceiling i p : sound ceiling p -> sound ceiling (step i p).
Proof.
  intros [Hok Hsum]. unfold step.
  destruct (tasks p !! i) as [t|] eqn:Hi; [|split; assumption].
  destruct (advance (permits p) t) as [[n' t']|] eqn:Ha; [|split; assumption].
  assert (Ht : task_ok t = true).
  { rewrite Forall_forall in Hok. apply Hok. apply list_elem_of_lookup. eauto. }
  destruct (advance_sound _ _ _ _ Ht Ha) as [Ht' Hn].
  split; simpl.
  - apply Forall_insert_ok; assumption.
  - unfold holders in *. simpl.
    pose proof (count_insert holding (tasks p) i t t' Hi). lia.
Qed.

Lemma run_sound ceiling : forall schedule p,
  sound ceiling p -> sound ceiling (run schedule p).
Proof.
  unfold run. induction schedule as [|i rest IH]; intros p Hp; [exact Hp|].
  simpl. apply IH, step_sound, Hp.
Qed.

Lemma start_sound ceiling calls : sound ceiling (start ceiling (map program_of calls)).
Proof.
  split; simpl.
  - induction calls as [|c rest IH]; constructor; [|exact IH].
    unfold task_ok, spawn. simpl. apply program_disciplined.
  - unfold holders. simpl. induction calls as [|c rest IH]; simpl in *; lia.
Qed.

(** C3. However many lookups of the two scanners overlap and in whatever
    order the event loop runs them, at no instant are more requests
    executing than the ceiling the semaphore was created with
    ([max_concurrent_requests]): every request in flight belongs to a
    coroutine that holds a permit, and permits held plus permits free
    always add up to the ceiling. *)
Theorem never_more_than_ceiling_in_flight
    (ceiling : nat) (calls : list call) (schedule : list nat) :
  let p := run schedule (start ceiling (map program_of calls)) in
  (in_flight p <= ceiling)%nat
  /\ (in_flight p <= holders p)%nat
  /\ (permits p + holders p = ceiling)%nat.
Proof.
  destruct (run_sound ceiling schedule _ (start_sound ceiling calls)) as [Hok Hsum].
  simpl. assert (in_flight (run schedule (start ceiling (map program_of calls)))
                 <= holders (run schedule (start ceiling (map program_of calls))))%nat.
  { apply count_le; [|exact Hok]. intros t Ht Hp. unfold task_ok in Ht.
    rewrite Hp in Ht. simpl in Ht. apply andb_true_iff in Ht as [Hh _].
    destruct (holding t); [reflexivity|discriminate]. }
  repeat split; [lia | assumption | assumption].
Qed.

(** Three lookups under a ceiling of two: two requests go out, the third
    coroutine waits for a permit however often it is given the floor. *)
Example two_in_flight_third_waits :
  let p := Sched.run [0; 0; 1; 1; 1; 2; 2; 2]%nat
             (Sched.start 2 (map Sched.program_of Examples.three_calls)) in
  Sched.in_flight p = 2%nat /\ Sched.permits p = 0%nat
  /\ (Sched.holding <$> Sched.tasks p) = [true; true; false].
Proof. vm_compute. repeat split. Qed.

(** *** Binary64 arithmetic on whole multiples *)

(** *** Bit lengths *)

Lemma digits2_bounds (p : positive) :
  2 ^ (Zpos (digits2_pos p) - 1) <= Zpos p < 2 ^ Zpos (digits2_pos p).
Proof.
  induction p as [p IH|p IH|]; simpl digits2_pos.
  - rewrite Pos2Z.inj_succ.
    replace (Z.succ (Zpos (digits2_pos p)) - 1)
      with (Z.succ (Zpos (digits2_pos p) - 1)) by lia.
    rewrite !Z.pow_succ_r by lia. lia.
  - rewrite Pos2Z.inj_succ.
    replace (Z.succ (Zpos (digits2_pos p)) - 1)
      with (Z.succ (Zpos (digits2_pos p) - 1)) by lia.
    rewrite !Z.pow_succ_r by lia. lia.
  - simpl. lia.
Qed.

Lemma digits2_unique (p : positive) (n : Z) :
  2 ^ (n - 1) <= Zpos p < 2 ^ n -> Zpos (digits2_pos p) = n.
Proof.
  intros [Hlo Hhi]. pose proof (digits2_bounds p) as [Blo Bhi].
  assert (Hn : 0 < n).
  { destruct (Z_lt_le_dec 0 n); [assumption|].
    assert (2 ^ n <= 2 ^ 0) by (destruct (Z_lt_le_dec n 0);
      [rewrite Z.pow_neg_r by assumption; simpl; lia | apply Z.pow_le_mono_r; lia]).
    simpl in *. lia. }
  destruct (Z_lt_le_dec (Zpos (digits2_pos p)) n) as [Hlt|Hge].
  - assert (2 ^ Zpos (digits2_pos p) <= 2 ^ (n - 1)) by (apply Z.pow_le_mono_r; lia). lia.
  - destruct (Z_lt_le_dec n (Zpos (digits2_pos p))) as [Hlt|Hle]; [|lia].
    assert (2 ^ n <= 2 ^ (Zpos (digits2_pos p) - 1)) by (apply Z.pow_le_mono_r; lia). lia.
Qed.

Lemma Zdigits2_unique (z n : Z) :
  2 ^ (n - 1) <= z < 2 ^ n -> 0 < z -> Zdigits2 z = n.
Proof.
  intros H Hz. destruct z as [|p|p]; try lia. simpl. apply digits2_unique, H.
Qed.

(** The bit length of a product is the sum of the bit lengths, or one less. *)
Lemma digits2_mul (a b : positive) :
  let da := Zpos (digits2_pos a) in
  let db := Zpos (digits2_pos b) in
  Zpos (digits2_pos (a * b)) = da + db \/ Zpos (digits2_pos (a * b)) = da + db - 1.
Proof.
  intros da db. pose proof (digits2_bounds a) as [Alo Ahi].
  pose proof (digits2_bounds b) as [Blo Bhi]. fold da in Alo, Ahi. fold db in Blo, Bhi.
  assert (Hda : 0 < da) by (unfold da; lia). assert (Hdb : 0 < db) by (unfold db; lia).
  assert (Hlo : 2 ^ (da + db - 2) <= Zpos (a * b)).
  { replace (da + db - 2) with ((da - 1) + (db - 1)) by lia.
    rewrite Z.pow_add_r by lia. rewrite Pos2Z.inj_mul. apply Z.mul_le_mono_nonneg; lia. }
  assert (Hhi : Zpos (a * b) < 2 ^ (da + db)).
  { rewrite Z.pow_add_r by lia. rewrite Pos2Z.inj_mul. apply Z.mul_lt_mono_nonneg; lia. }
  destruct (Z_lt_le_dec (Zpos (a * b)) (2 ^ (da + db - 1))) as [Hlt|Hge].
  - right. apply digits2_unique. replace (da + db - 1 - 1) with (da + db - 2) by lia. lia.
  - left. apply digits2_unique. lia.
Qed.

(** *** Rounding a value that needs no rounding *)

Lemma fexp_normal (x : Z) : -1021 <= x -> fexp prec emax x = x - 53.
Proof. intros H. unfold fexp, emin, prec, emax. lia. Qed.

Lemma round_aux_fits (m : positive) (e : Z) :
  Zpos (digits2_pos m) = 53 -> -1074 <= e <= 971 ->
  binary_round_aux prec emax false (Zpos m) e loc_Exact = S754_finite false m e.
Proof.
  intros Hd He. unfold binary_round_aux, shr_fexp. simpl Zdigits2. rewrite Hd.
  replace (fexp prec emax (53 + e) - e) with 0 by (unfold fexp, emin, prec, emax; lia).
  simpl. rewrite Hd.
  replace (fexp prec emax (53 + e) - e) with 0 by (unfold fexp, emin, prec, emax; lia).
  simpl. unfold emax, prec. destruct (Z.leb_spec e (1024 - 53)); [reflexivity|lia].
Qed.

Lemma round_aux_fits_shifted (m : positive) (e : Z) :
  Zpos (digits2_pos m) = 53 -> -1074 <= e <= 971 ->
  binary_round_aux prec emax false (Zpos m~0) (e - 1) loc_Exact = S754_finite false m e.
Proof.
  intros Hd He. unfold binary_round_aux, shr_fexp. simpl Zdigits2.
  rewrite Pos2Z.inj_succ, Hd.
  replace (fexp prec emax (Z.succ 53 + (e - 1)) - (e - 1)) with 1
    by (unfold fexp, emin, prec, emax; lia).
  simpl. rewrite Hd. replace (e - 1 + 1) with e by lia.
  replace (fexp prec emax (53 + e) - e) with 0 by (unfold fexp, emin, prec, emax; lia).
  simpl. unfold emax, prec. destruct (Z.leb_spec e (1024 - 53)); [reflexivity|lia].
Qed.

(** *** Dividing a whole multiple *)

Lemma div_eucl_multiple (a d : Z) : 0 < d -> Z.div_eucl (a * d) d = (a, 0).
Proof.
  intros Hd. destruct (Z.div_eucl (a * d) d) as [q r] eqn:E.
  assert (Hq : q = a * d / d) by (unfold Z.div; rewrite E; reflexivity).
  assert (Hr : r = (a * d) mod d) by (unfold Z.modulo; rewrite E; reflexivity).
  rewrite Z.div_mul in Hq by lia. rewrite Z.mod_mul in Hr by lia. congruence.
Qed.

Lemma new_location_zero (d : Z) : new_location d 0 = loc_Exact.
Proof. unfold new_location. destruct (Z.even d); reflexivity. Qed.

Lemma digits2_le_53 (k : positive) : Zpos k < 2 ^ 53 -> Zpos (digits2_pos k) <= 53.
Proof.
  intros Hk. pose proof (digits2_bounds k) as [Hlo _].
  destruct (Z_lt_le_dec 53 (Zpos (digits2_pos k))) as [H|H]; [|exact H].
  assert (2 ^ 53 <= 2 ^ (Zpos (digits2_pos k) - 1)) by (apply Z.pow_le_mono_r; lia). lia.
Qed.

Lemma significand_val (k : positive) :
  Zpos k < 2 ^ 53 ->
  Zpos (significand k) = Zpos k * 2 ^ (53 - Zpos (digits2_pos k)).
Proof.
  intros Hk. pose proof (digits2_le_53 k Hk). unfold significand.
  rewrite Z2Pos.id; [reflexivity|].
  apply Z.mul_pos_pos; [lia|]. apply Z.pow_pos_nonneg; lia.
Qed.

Lemma significand_digits (k : positive) :
  Zpos k < 2 ^ 53 -> Zpos (digits2_pos (significand k)) = 53.
Proof.
  intros Hk. pose proof (digits2_le_53 k Hk) as Hle.
  pose proof (digits2_bounds k) as [Hlo Hhi].
  apply digits2_unique. rewrite significand_val by exact Hk.
  set (dk := Zpos (digits2_pos k)) in *.
  assert (Hp : 0 < 2 ^ (53 - dk)) by (apply Z.pow_pos_nonneg; lia).
  split.
  - replace (53 - 1) with ((dk - 1) + (53 - dk)) by lia.
    rewrite Z.pow_add_r by lia. apply Z.mul_le_mono_nonneg_r; lia.
  - replace 53 with (dk + (53 - dk)) at 2 by lia.
    rewrite Z.pow_add_r by lia. apply Z.mul_lt_mono_pos_r; lia.
Qed.

Lemma div_core_multiple (k d : positive) :
  let s := 53 - (Zpos (digits2_pos (k * d)) - Zpos (digits2_pos d)) in
  Zpos k < 2 ^ 53 ->
  SFdiv_core_binary prec emax (Zpos (k * d)) 0 (Zpos d) 0
  = (Zpos k * 2 ^ s, - s, loc_Exact).
Proof.
  intros s Hk. pose proof (digits2_le_53 k Hk) as Hle.
  assert (Hdk : 0 < Zpos (digits2_pos k)) by lia.
  assert (Hs : 0 <= s) by (unfold s; destruct (digits2_mul k d); lia).
  unfold SFdiv_core_binary. simpl Zdigits2.
  set (d1 := Zpos (digits2_pos (k * d))) in *. set (d2 := Zpos (digits2_pos d)) in *.
  assert (He : Z.min (fexp prec emax (d1 + 0 - (d2 + 0))) (0 - 0) = - s).
  { rewrite fexp_normal by (destruct (digits2_mul k d); unfold d1, d2 in *; lia).
    unfold s. destruct (digits2_mul k d); unfold d1, d2 in *; lia. }
  rewrite He. replace (0 - 0 - - s) with s by lia.
  assert (Hm : match s with
               | 0 => Zpos (k * d)
               | Zpos _ => Z.shiftl (Zpos (k * d)) s
               | Zneg _ => 0
               end = (Zpos k * 2 ^ s) * Zpos d).
  { destruct s as [|p|p] eqn:Es; [simpl; lia | | lia].
    rewrite Z.shiftl_mul_pow2 by lia. rewrite Pos2Z.inj_mul. ring. }
  rewrite Hm, div_eucl_multiple by lia. rewrite new_location_zero. reflexivity.
Qed.

Lemma fdiv_multiple (k d : positive) :
  Zpos k < 2 ^ 53 ->
  fdiv (S754_finite false (k * d) 0) (S754_finite false d 0)
  = S754_finite false (significand k) (Zpos (digits2_pos k) - 53).
Proof.
  intros Hk. pose proof (digits2_le_53 k Hk) as Hle.
  assert (Hdk : 0 < Zpos (digits2_pos k)) by lia.
  unfold fdiv, SFdiv. rewrite (div_core_multiple k d Hk). simpl xorb.
  pose proof (significand_val k Hk) as Hv. pose proof (significand_digits k Hk) as Hd.
  destruct (digits2_mul k d) as [E|E]; simpl in E; rewrite E.
  - replace (53 - (Zpos (digits2_pos k) + Zpos (digits2_pos d) - Zpos (digits2_pos d)))
      with (53 - Zpos (digits2_pos k)) by lia.
    rewrite <- Hv.
    replace (- (53 - Zpos (digits2_pos k))) with (Zpos (digits2_pos k) - 53) by lia.
    apply round_aux_fits; [exact Hd | lia].
  - replace (53 - (Zpos (digits2_pos k) + Zpos (digits2_pos d) - 1 - Zpos (digits2_pos d)))
      with (Z.succ (53 - Zpos (digits2_pos k))) by lia.
    rewrite Z.pow_succ_r by lia.
    replace (Zpos k * (2 * 2 ^ (53 - Zpos (digits2_pos k))))
      with (Zpos (significand k)~0) by (rewrite Pos2Z.inj_xO, Hv; ring).
    replace (- Z.succ (53 - Zpos (digits2_pos k))) with (Zpos (digits2_pos k) - 53 - 1) by lia.
    apply round_aux_fits_shifted; [exact Hd | lia].
Qed.

(** [float(k)] is that significand at that exponent. *)
Lemma float_of_Z_val (k : positive) :
  Zpos k < 2 ^ 53 ->
  float_of_Z (Zpos k) = S754_finite false (significand k) (Zpos (digits2_pos k) - 53).
Proof.
  intros Hk. pose proof (digits2_le_53 k Hk) as Hle.
  pose proof (significand_val k Hk) as Hv. pose proof (significand_digits k Hk) as Hd.
  unfold float_of_Z, binary_normalize, binary_round, shl_align.
  rewrite fexp_normal by lia.
  replace (Zpos (digits2_pos k) + 0 - 53 - 0) with (Zpos (digits2_pos k) - 53) by lia.
  destruct (Zpos (digits2_pos k) - 53) as [|p|p] eqn:Ee; [| lia |].
  - assert (significand k = k) as Hs.
    { apply Pos2Z.inj. rewrite Hv.
      replace (53 - Zpos (digits2_pos k)) with 0 by lia. simpl. lia. }
    rewrite Hs in Hd |- *. replace (Zpos (digits2_pos k) + 0 - 53) with 0 by lia.
    apply round_aux_fits; [exact Hd | lia].
  - assert (Pos.iter xO k p = significand k) as Hs.
    { apply Pos2Z.inj. rewrite Hv.
      rewrite (Pos.iter_swap_gen _ _ Zpos xO (Z.mul 2)) by reflexivity.
      replace (53 - Zpos (digits2_pos k)) with (Zpos p) by lia.
      change (Pos.iter (Z.mul 2) (Zpos k) p) with (Z.shiftl (Zpos k) (Zpos p)).
      apply Z.shiftl_mul_pow2. lia. }
    rewrite Hs. replace (Zpos (digits2_pos k) + 0 - 53) with (Z.neg p) by lia.
    apply round_aux_fits; [exact Hd | lia].
Qed.

(** A whole number of coins comes out as that number. *)
Lemma int_truediv_whole (k : Z) (d : positive) :
  0 <= k < 2 ^ 53 -> int_truediv (k * Zpos d) d = Ok (float_of_Z k).
Proof.
  intros Hk. destruct k as [|k|k]; [reflexivity | | lia].
  change (Zpos k * Zpos d) with (Zpos (k * d)). unfold int_truediv.
  rewrite fdiv_multiple, float_of_Z_val by lia. reflexivity.
Qed.

Lemma float_of_Z_exact (k : Z) (d : Z) :
  0 <= k < 2 ^ 53 -> exact_quotient (float_of_Z k) (k * d) d.
Proof.
  intros Hk. destruct k as [|k|k]; [reflexivity | | lia].
  rewrite float_of_Z_val by lia. unfold exact_quotient.
  pose proof (digits2_le_53 k ltac:(lia)) as Hle.
  destruct (Z.leb_spec 0 (Zpos (digits2_pos k) - 53)).
  - rewrite significand_val by lia.
    replace (53 - Zpos (digits2_pos k)) with 0 by lia.
    replace (Zpos (digits2_pos k) - 53) with 0 by lia. simpl. lia.
  - rewrite significand_val by lia.
    replace (- (Zpos (digits2_pos k) - 53)) with (53 - Zpos (digits2_pos k)) by lia. ring.
Qed.

(** *** C6: what normalization keeps exact *)

Lemma btc_readings_of_body (a : string) (raw : Z) :
  V2.btc_reading a (btc_body a raw)
  = rbind (int_truediv raw 100000000) (fun v => Ok (Some v))
  /\ Win.btc_reading a (btc_body a raw)
  = rbind (int_truediv raw 100000000) (fun v => Ok (Some v)).
Proof.
  unfold V2.btc_reading, Win.btc_reading, btc_body. simpl.
  rewrite String.eqb_refl. split; reflexivity.
Qed.

Lemma eth_readings_of_body (ios : string -> option Z) (res : string) (raw : Z) :
  ios res = Some raw ->
  V2.eth_reading ios (eth_body res)
  = rbind (int_truediv raw 1000000000000000000) (fun v => Ok (Some v))
  /\ Win.eth_reading ios (eth_body res)
  = rbind (int_truediv raw 1000000000000000000) (fun v => Ok (Some v)).
Proof.
  intros H. unfold V2.eth_reading, Win.eth_reading, eth_body. simpl.
  rewrite H. split; reflexivity.
Qed.

(** C6, as the code has it. Normalization is the binary64 quotient
    [raw / divisor]. It is exact for every raw value that is a whole
    multiple [k * divisor] with [0 <= k < 2^53]: the lookup then reads
    exactly [float(k)], whose value is [k]; in particular raw 100000000
    with divisor 1e8 and raw 1000000000000000000 with divisor 1e18 both
    read as 1.0. (Other integers below 2^53 are rounded.) *)
Theorem whole_units_normalize_exactly
    (ios : string -> option Z) (a res : string) (k : Z) :
  0 <= k < 2 ^ 53 ->
  ios res = Some (k * 1000000000000000000) ->
  V2.btc_reading a (btc_body a (k * 100000000)) = Ok (Some (float_of_Z k))
  /\ Win.btc_reading a (btc_body a (k * 100000000)) = Ok (Some (float_of_Z k))
  /\ V2.eth_reading ios (eth_body res) = Ok (Some (float_of_Z k))
  /\ Win.eth_reading ios (eth_body res) = Ok (Some (float_of_Z k))
  /\ exact_quotient (float_of_Z k) (k * 100000000) 100000000
  /\ exact_quotient (float_of_Z k) (k * 1000000000000000000) 1000000000000000000
  /\ float_of_Z 1 = f1_0.
Proof.
  intros Hk Hres.
  destruct (btc_readings_of_body a (k * 100000000)) as [B2 Bw].
  destruct (eth_readings_of_body ios res _ Hres) as [E2 Ew].
  rewrite B2, Bw, E2, Ew, !int_truediv_whole by exact Hk.
  repeat split; try apply float_of_Z_exact; assumption.
Qed.

Lemma whole_units_normalize_exactly_witness :
  0 <= 1 < 2 ^ 53
  /\ int_of_decimal "1000000000000000000" = Some (1 * 1000000000000000000)
  /\ V2.btc_reading Examples.btc_addr (btc_body Examples.btc_addr (1 * 100000000))
     = Ok (Some f1_0)
  /\ Win.eth_reading int_of_decimal (eth_body "1000000000000000000") = Ok (Some f1_0).
Proof.
  assert (H1 : 0 <= 1 < 2 ^ 53) by (simpl; lia).
  assert (H2 : int_of_decimal "1000000000000000000" = Some (1 * 1000000000000000000))
    by reflexivity.
  split; [exact H1|]. split; [exact H2|].
  destruct (whole_units_normalize_exactly int_of_decimal Examples.btc_addr
              "1000000000000000000" 1 H1 H2) as (A & _ & _ & B & _ & _ & C).
  rewrite C in A, B. split; [exact A | exact B].
Defined.

(** C6, counterexample to exactness below 2^53. Raw value 1 with divisor
    1e8 reads as a float whose value is not 1/10^8, and the two raw values
    2^53 - 1 and 2^53 - 2 read as the same float. *)
Lemma normalization_rounds_below_2_53 :
  (0 <= 1 <= 2 ^ 53
   /\ exists f,
        V2.btc_reading Examples.btc_addr (btc_body Examples.btc_addr 1) = Ok (Some f)
        /\ ~ exact_quotient f 1 100000000)
  /\ (0 <= 2 ^ 53 - 2 < 2 ^ 53 - 1 /\ 2 ^ 53 - 1 <= 2 ^ 53
      /\ V2.btc_reading Examples.btc_addr (btc_body Examples.btc_addr (2 ^ 53 - 1))
         = V2.btc_reading Examples.btc_addr (btc_body Examples.btc_addr (2 ^ 53 - 2))).
Proof.
  split; [split; [simpl; lia|] |].
  2: { split; [simpl; lia|]. split; [simpl; lia|]. vm_compute. reflexivity. }
  eexists. split; [vm_compute; reflexivity|].
  intros H. vm_compute in H. discriminate H.
Qed.

(* ===================================================================== *)
(** ** Scenarios *)
(* ===================================================================== *)

(** The BTC service answers 200 with a balance, the ETH service answers
    429: the wallet comes back with the BTC balance and an ETH balance of
    0, it counts as found, the ETH delay has grown, the BTC delay has not. *)
Example one_chain_pays_one_chain_throttles :
  let '(r, s', _) :=
    Win.check_wallet false int_of_decimal Examples.net_mixed Examples.wallet1
      (Win.init 15) in
  r = Ok (set_balances Examples.wallet1
            (S754_finite false 8895998534469781 (-56)) f0_0)
  /\ has_balance (set_balances Examples.wallet1
                    (S754_finite false 8895998534469781 (-56)) f0_0) = true
  /\ Win.request_delays s' !! "eth" = Some (fmul f0_3 f1_5)
  /\ flt f0_3 (fmul f0_3 f1_5) = true
  /\ Win.request_delays s' !! "btc" = Some f0_5
  /\ Win.semaphore s' = 15%nat.
Proof. vm_compute. repeat split. Qed.

(** Both services time out: both balances are 0, the wallet does not
    count as found, nothing is raised and the delays stay as they were. *)
Example both_chains_time_out :
  let '(r, s', t) :=
    Win.check_wallet false int_of_decimal Examples.net_down Examples.wallet1
      (Win.init 15) in
  r = Ok (set_balances Examples.wallet1 f0_0 f0_0)
  /\ has_balance (set_balances Examples.wallet1 f0_0 f0_0) = false
  /\ Win.request_delays s' = Win.request_delays (Win.init 15)
  /\ requests t = 2%nat.
Proof. vm_compute. repeat split. Qed.

(** In cws_win.py a turn of the scan loop never runs to its end:
    [display_results] calls [display_banner], which raises NameError. *)
Lemma Win_turn_stops_at_display tm ios derive env s :
  fst (fst (Win.scan_iteration tm ios derive env s)) <> Ok tt.
Proof.
  unfold Win.scan_iteration, Win.display_results, Win.display_banner.
  unfold bind at 1.
  destruct (Win.checked_wallet tm ios derive env s) as [[[w|e|] s1] t1];
    simpl; try discriminate.
  unfold bind at 1.
  destruct (Win.tally tm (disk env) w s1) as [[[u|e|] s2] t2];
    simpl; discriminate.
Qed.

(** So [run_scan] of cws_win.py counts at most one wallet, whatever
    [target_scans] asks for. *)
Lemma Win_scan_counts_at_most_one tm ios derive target : forall envs s,
  Win.scan_count (snd (fst (Win.run_scan tm ios derive target envs s)))
  <= Win.scan_count s + 1.
Proof.
  intros envs s.
  assert (L : Win.scan_count
                (snd (fst (Win.scan_loop tm ios derive target envs s)))
              <= Win.scan_count s + 1).
  { destruct envs as [|env rest]; [simpl; lia|].
    rewrite Win_loop_cons. destruct (Win.keep_scanning target s); [|simpl; lia].
    rewrite bind_state.
    pose proof (Win_turn_stops_at_display tm ios derive env s) as N.
    pose proof (Win_turn tm ios derive env s) as T. simpl in T.
    destruct (Win.scan_iteration tm ios derive env s) as [[r s1] t1].
    simpl in *. unfold turn_counts in T.
    destruct r as [[]|e|]; [contradiction| |];
      destruct (fst (fst (Win.checked_wallet tm ios derive env s)));
      lia. }
  unfold Win.run_scan, try_catch.
  destruct (Win.scan_loop tm ios derive target envs s) as [[r s1] t1].
  simpl in L. destruct r as [u|e|]; simpl; try exact L.
  destruct (is_interrupt e || is_Exception e); exact L.
Qed.

(* ===================================================================== *)
(** ** Beyond the stated behaviour: both files side by side, traces,
       whole runs, start-up and progress *)
(* ===================================================================== *)

Import Obs Progress.

(* ===================================================================== *)
(** ** Further properties of the lookups *)
(* ===================================================================== *)

(** *** The two files read the same balance off the same exchange *)

Lemma btc_readings_agree (a : string) (data : json) :
  match V2.btc_reading a data with
  | Ok (Some v) => Win.btc_reading a data = Ok (Some v)
  | _ => exists r, Win.btc_reading a data = r
                   /\ (r = Ok (Some f0_0) \/ r = Ok None \/ exists e, r = Raise e)
  end.
Proof.
  unfold V2.btc_reading, Win.btc_reading, rbind, py_getitem, py_get.
  destruct data as [| | | | | |ms]; simpl; try (eexists; split; [reflexivity|]; eauto).
  destruct (dict_lookup a ms) as [entry|]; simpl.
  - destruct entry as [| | | | | |ms2]; simpl;
      try (eexists; split; [reflexivity|]; eauto).
    destruct (dict_lookup "final_balance" ms2) as [fb|]; simpl.
    + destruct (py_truediv fb 100000000) as [v|e|] eqn:E; simpl.
      * reflexivity.
      * eexists; split; [reflexivity|]; eauto.
      * destruct (truediv_no_hang _ _ E).
    + eexists; split; [reflexivity|]; eauto.
  - eexists; split; [reflexivity|]; eauto.
Qed.

Lemma eth_readings_agree (ios : string -> option Z) (data : json) :
  match V2.eth_reading ios data with
  | Ok (Some v) => Win.eth_reading ios data = Ok (Some v)
  | _ => exists r, Win.eth_reading ios data = r
                   /\ (r = Ok (Some f0_0) \/ r = Ok None \/ exists e, r = Raise e)
  end.
Proof.
  unfold V2.eth_reading, Win.eth_reading, rbind, py_getitem, py_get.
  destruct data as [| | | | | |ms]; simpl; try (eexists; split; [reflexivity|]; eauto).
  destruct (dict_lookup "status" ms) as [st|]; simpl;
    [|eexists; split; [reflexivity|]; eauto].
  destruct (py_eq_str st "1"); [|eexists; split; [reflexivity|]; eauto].
  destruct (dict_lookup "result" ms) as [res|]; simpl.
  - destruct (py_int ios res) as [n|e|] eqn:E; simpl.
    + destruct (int_truediv n (10 ^ 18)) as [v|e|] eqn:E2; simpl.
      * reflexivity.
      * eexists; split; [reflexivity|]; eauto.
      * destruct (int_truediv_no_hang _ _ E2).
    + eexists; split; [reflexivity|]; eauto.
    + destruct (py_int_no_hang _ _ E).
  - eexists; split; [reflexivity|]; eauto.
Qed.

Lemma reported_agree (ios : string -> option Z) (c : chain) (a : string)
    (x : http_outcome) :
  reported (v2_reading ios c a) x = reported (win_reading ios c a) x.
Proof.
  unfold reported. destruct x as [e|st body]; [reflexivity|].
  destruct (st =? 200); [|reflexivity].
  destruct body as [data|e|]; try reflexivity.
  destruct c; simpl.
  - pose proof (btc_readings_agree a data) as H.
    destruct (V2.btc_reading a data) as [[v|]|e|]; [rewrite H; reflexivity|..];
      destruct H as (r & -> & [->|[->|[e' ->]]]); reflexivity.
  - pose proof (eth_readings_agree ios data) as H.
    destruct (V2.eth_reading ios data) as [[v|]|e|]; [rewrite H; reflexivity|..];
      destruct H as (r & -> & [->|[->|[e' ->]]]); reflexivity.
Qed.

(** X1. cws_v2.py and cws_win.py return the same balance for the same
    exchange: for each chain, every address and every ordinary answer of
    the service, the lookup of one file and the lookup of the other come
    back with the same float, although one reads the body with [d[k]] and
    the other with [d.get(k, default)]. *)
Theorem both_files_read_the_same_balance
    (tm : bool) (ios : string -> option Z) (c : chain)
    (net : string -> http_outcome) (a : string)
    (s2 : V2.scanner) (sw : Win.scanner) :
  ordinary (net (chain_url c a)) = true ->
  V2.semaphore s2 <> O -> Win.semaphore sw <> O ->
  is_Some (Win.request_delays sw !! chain_key c) ->
  fst (fst (v2_fetch tm ios c net a s2)) = fst (fst (win_fetch tm ios c net a sw)).
Proof.
  intros Ho H2 Hw [d Hd]. rewrite v2_fetch_is_lookup, win_fetch_is_lookup.
  destruct tm; [reflexivity|].
  destruct (V2.semaphore s2) as [|n2] eqn:E2; [contradiction|].
  destruct (Win.semaphore sw) as [|nw] eqn:Ew; [contradiction|].
  rewrite (V2_lookup_run _ _ _ _ n2 E2 Ho (v2_reading_well _ _ _)).
  destruct (Win_lookup_run false net (chain_key c) (chain_url c a) _ sw nw d
              eq_refl Ew Hd Ho (win_reading_well ios c a)) as (t & -> & _).
  simpl. f_equal. apply reported_agree.
Qed.

Lemma both_files_read_the_same_balance_witness :
  ordinary (Examples.net_mixed (chain_url BTC Examples.btc_addr)) = true
  /\ V2.semaphore (V2.init 10) <> O
  /\ Win.semaphore (Win.init 15) <> O
  /\ is_Some (Win.request_delays (Win.init 15) !! chain_key BTC)
  /\ fst (fst (v2_fetch false int_of_decimal BTC Examples.net_mixed
                 Examples.btc_addr (V2.init 10)))
     = fst (fst (win_fetch false int_of_decimal BTC Examples.net_mixed
                   Examples.btc_addr (Win.init 15))).
Proof.
  assert (H1 : ordinary (Examples.net_mixed (chain_url BTC Examples.btc_addr)) = true)
    by reflexivity.
  assert (H2 : V2.semaphore (V2.init 10) <> O) by discriminate.
  assert (H3 : Win.semaphore (Win.init 15) <> O) by discriminate.
  assert (H4 : is_Some (Win.request_delays (Win.init 15) !! chain_key BTC))
    by (exists f0_5; reflexivity).
  split; [exact H1|]. split; [exact H2|]. split; [exact H3|]. split; [exact H4|].
  exact (both_files_read_the_same_balance false int_of_decimal BTC
           Examples.net_mixed Examples.btc_addr (V2.init 10) (Win.init 15)
           H1 H2 H3 H4).
Defined.

(** *** Permits, requests and sleeps of one lookup, whatever happens *)

(** Every way a lookup of cws_v2.py can go. *)
Lemma V2_lookup_cases tm net url reading s :
  let '(r, s', t) := V2.lookup tm net url reading s in
  (r = Hang \/ s' = s)
  /\ (t = [] \/ t = [EvAcquire; EvGet url]
      \/ t = [EvAcquire; EvGet url; EvDone; EvRelease]).
Proof.
  destruct s as [sem sc fc]. unfold V2.lookup. destruct tm; [simpl; auto|].
  unfold_py. simpl. destruct sem; [simpl; auto|]. simpl.
  destruct (net url) as [e|st body]; simpl.
  - destruct (is_Exception e); simpl; auto.
  - destruct (st =? 200); [|simpl; auto].
    destruct body as [data|e|]; simpl.
    + destruct (reading data) as [[v|]|e|]; simpl; auto.
      destruct (is_Exception e); simpl; auto.
    + destruct (is_Exception e); simpl; auto.
    + auto.
Qed.

(** Every way a lookup of cws_win.py can go. *)
Lemma Win_lookup_cases tm chain net url reading s :
  let '(r, s', t) := Win.lookup tm chain net url reading s in
  (r = Hang \/ Win.semaphore s' = Win.semaphore s)
  /\ (requests t = 0%nat
      \/ exists d rest,
           Win.request_delays s !! chain = Some d
           /\ t = EvAcquire :: EvSleep d :: EvGet url :: rest
           /\ requests rest = 0%nat
           /\ (throttled (net url) = true -> r <> Hang ->
               rest = [EvSleep f2_0; EvDone; EvRelease])).
Proof.
  destruct s as [mc sem sc fc rd]. unfold Win.lookup. destruct tm; [simpl; auto|].
  unfold_win. simpl. destruct sem; [simpl; auto|]. simpl.
  destruct (rd !! chain) as [d|] eqn:Hd; simpl; [|auto].
  unfold throttled.
  destruct (net url) as [e|st body]; simpl.
  - destruct (is_Exception e); simpl; (split; [auto|]); right;
      do 2 eexists; (split; [reflexivity|]); (split; [reflexivity|]);
      (split; [reflexivity|discriminate]).
  - destruct (st =? 200) eqn:E200.
    + assert ((st =? 429) = false) as -> by lia.
      destruct body as [data|e|]; simpl.
      * destruct (reading data) as [[v|]|e|]; simpl;
          try destruct (is_Exception e); simpl; (split; [auto|]); right;
          do 2 eexists; (split; [reflexivity|]); (split; [reflexivity|]);
          (split; [reflexivity|discriminate]).
      * destruct (is_Exception e); simpl; (split; [auto|]); right;
          do 2 eexists; (split; [reflexivity|]); (split; [reflexivity|]);
          (split; [reflexivity|discriminate]).
      * split; [auto|]. right.
        do 2 eexists; (split; [reflexivity|]); (split; [reflexivity|]);
          (split; [reflexivity|discriminate]).
    + destruct (st =? 429) eqn:E429; simpl.
      * rewrite Hd. simpl. split; [auto|]. right.
        do 2 eexists; (split; [reflexivity|]); (split; [reflexivity|]);
          (split; [reflexivity|reflexivity]).
      * split; [auto|]. right.
        do 2 eexists; (split; [reflexivity|]); (split; [reflexivity|]);
          (split; [reflexivity|discriminate]).
Qed.

Lemma bind_trace {S A B} (m : M S A) (f : A -> M S B) (s : S) :
  snd (bind m f s) =
    snd (m s) ++ match fst (fst (m s)) with
                 | Ok a => snd (f a (snd (fst (m s))))
                 | _ => []
                 end.
Proof.
  unfold bind. destruct (m s) as [[r s1] t1]. simpl.
  destruct r; try (rewrite app_nil_r; reflexivity).
  destruct (f a s1) as [[r2 s2] t2]. reflexivity.
Qed.

Lemma bind_result {S A B} (m : M S A) (f : A -> M S B) (s : S) :
  fst (fst (bind m f s)) =
    match fst (fst (m s)) with
    | Ok a => fst (fst (f a (snd (fst (m s)))))
    | Raise e => Raise e
    | Hang => Hang
    end.
Proof.
  unfold bind. destruct (m s) as [[r s1] t1]. simpl.
  destruct r; try reflexivity. destruct (f a s1) as [[r2 s2] t2]. reflexivity.
Qed.

Lemma requests_app (t1 t2 : list event) :
  requests (t1 ++ t2) = (requests t1 + requests t2)%nat.
Proof. unfold requests. rewrite List.filter_app, length_app. reflexivity. Qed.

Lemma no_requests_no_get (t : list event) (u : string) :
  requests t = 0%nat -> ~ In (EvGet u) t.
Proof.
  unfold requests. induction t as [|e t IH]; simpl; [tauto|].
  destruct e; simpl; try discriminate; intros H [E|E]; try discriminate;
    apply IH; assumption.
Qed.

Lemma v2_fetch_cases tm ios c net a s :
  let '(r, s', t) := v2_fetch tm ios c net a s in
  (r = Hang \/ s' = s)
  /\ (t = [] \/ t = [EvAcquire; EvGet (chain_url c a)]
      \/ t = [EvAcquire; EvGet (chain_url c a); EvDone; EvRelease]).
Proof.
  pose proof (V2_lookup_cases tm net (chain_url c a) (v2_reading ios c a) s) as H.
  rewrite <- v2_fetch_is_lookup in H. exact H.
Qed.

Lemma win_fetch_cases tm ios c net a s :
  let '(r, s', t) := win_fetch tm ios c net a s in
  (r = Hang \/ Win.semaphore s' = Win.semaphore s)
  /\ (requests t = 0%nat
      \/ exists d rest,
           Win.request_delays s !! chain_key c = Some d
           /\ t = EvAcquire :: EvSleep d :: EvGet (chain_url c a) :: rest
           /\ requests rest = 0%nat
           /\ (throttled (net (chain_url c a)) = true -> r <> Hang ->
               rest = [EvSleep f2_0; EvDone; EvRelease])).
Proof.
  pose proof (Win_lookup_cases tm (chain_key c) net (chain_url c a)
                (win_reading ios c a) s) as H.
  rewrite <- win_fetch_is_lookup in H. exact H.
Qed.

(** X2. No lookup leaks a permit: whatever the service answers, and also
    when the lookup is cancelled or interrupted, a lookup of either file
    that comes back at all (with a value or with an exception) leaves the
    semaphore with as many permits as it found. A check of a wallet that
    returns the wallet, which it does when both its lookups have
    returned, leaves the semaphore as it found it too. *)
Theorem lookups_give_their_permit_back
    (tm : bool) (ios : string -> option Z) (c : chain)
    (net : string -> http_outcome) (a : string) (w : WalletInfo)
    (s2 : V2.scanner) (sw : Win.scanner) :
  (fst (fst (v2_fetch tm ios c net a s2)) = Hang
   \/ V2.semaphore (snd (fst (v2_fetch tm ios c net a s2))) = V2.semaphore s2)
  /\ (fst (fst (win_fetch tm ios c net a sw)) = Hang
   \/ Win.semaphore (snd (fst (win_fetch tm ios c net a sw))) = Win.semaphore sw)
  /\ (forall w',
        fst (fst (V2.check_wallet_balances tm ios net w s2)) = Ok w' ->
        V2.semaphore (snd (fst (V2.check_wallet_balances tm ios net w s2)))
        = V2.semaphore s2)
  /\ (forall w',
        fst (fst (Win.check_wallet tm ios net w sw)) = Ok w' ->
        Win.semaphore (snd (fst (Win.check_wallet tm ios net w sw)))
        = Win.semaphore sw).
Proof.
  split; [|split; [|split]].
  - pose proof (v2_fetch_cases tm ios c net a s2) as H.
    destruct (v2_fetch tm ios c net a s2) as [[r s'] t]. simpl.
    destruct H as [[->| ->] _]; auto.
  - pose proof (win_fetch_cases tm ios c net a sw) as H.
    destruct (win_fetch tm ios c net a sw) as [[r s'] t]. simpl.
    destruct H as [[->|E] _]; auto.
  - intros w'. unfold V2.check_wallet_balances. rewrite bind_result, bind_state.
    pose proof (v2_fetch_cases tm ios BTC net (btc_address w) s2) as H1.
    simpl v2_fetch in H1.
    destruct (V2.get_btc_balance tm net (btc_address w) s2) as [[r1 s1] t1].
    simpl. destruct H1 as [[->| ->] _]; [discriminate|].
    destruct r1 as [b|e|]; try discriminate.
    rewrite bind_result, bind_state.
    pose proof (v2_fetch_cases tm ios ETH net (eth_address w) s2) as H2.
    simpl v2_fetch in H2.
    destruct (V2.get_eth_balance tm ios net (eth_address w) s2) as [[r2 s3] t2].
    simpl. destruct H2 as [[->| ->] _]; [discriminate|].
    destruct r2 as [e| |]; try discriminate. simpl. reflexivity.
  - intros w'. unfold Win.check_wallet. rewrite bind_result, bind_state.
    pose proof (win_fetch_cases tm ios BTC net (btc_address w) sw) as H1.
    simpl win_fetch in H1.
    destruct (Win.get_btc_balance tm net (btc_address w) sw) as [[r1 s1] t1].
    simpl. destruct H1 as [[->|E1] _]; [discriminate|].
    destruct r1 as [b|e|]; try discriminate.
    rewrite bind_result, bind_state.
    pose proof (win_fetch_cases tm ios ETH net (eth_address w) s1) as H2.
    simpl win_fetch in H2.
    destruct (Win.get_eth_balance tm ios net (eth_address w) s1) as [[r2 s3] t2].
    simpl. destruct H2 as [[->|E2] _]; [discriminate|].
    destruct r2; try discriminate. simpl. intros _. congruence.
Qed.

Lemma lookups_give_their_permit_back_witness :
  fst (fst (V2.check_wallet_balances false int_of_decimal Examples.net_mixed
              Examples.wallet1 (V2.init 10)))
  = Ok (set_balances Examples.wallet1
          (reported (V2.btc_reading Examples.btc_addr)
             (Examples.net_mixed (btc_url Examples.btc_addr))) f0_0)
  /\ V2.semaphore (snd (fst (V2.check_wallet_balances false int_of_decimal
                               Examples.net_mixed Examples.wallet1 (V2.init 10))))
     = 10%nat
  /\ Win.semaphore (snd (fst (Win.check_wallet false int_of_decimal
                                Examples.net_mixed Examples.wallet1 (Win.init 15))))
     = 15%nat.
Proof.
  assert (H2 : fst (fst (V2.check_wallet_balances false int_of_decimal
                           Examples.net_mixed Examples.wallet1 (V2.init 10)))
               = Ok (set_balances Examples.wallet1
                       (reported (V2.btc_reading Examples.btc_addr)
                          (Examples.net_mixed (btc_url Examples.btc_addr))) f0_0))
    by reflexivity.
  assert (Hw : fst (fst (Win.check_wallet false int_of_decimal
                           Examples.net_mixed Examples.wallet1 (Win.init 15)))
               = Ok (set_balances Examples.wallet1
                       (reported (Win.btc_reading Examples.btc_addr)
                          (Examples.net_mixed (btc_url Examples.btc_addr))) f0_0))
    by reflexivity.
  destruct (lookups_give_their_permit_back false int_of_decimal BTC
              Examples.net_mixed Examples.btc_addr Examples.wallet1
              (V2.init 10) (Win.init 15)) as (_ & _ & A & B).
  split; [exact H2|]. split; [exact (A _ H2) | exact (B _ Hw)].
Defined.

(** When one lookup of a check is cancelled, [asyncio.gather] raises at
    once and the other lookup is still under way. In the interleaving
    where the ETH lookup has sent its request when the BTC lookup ends
    with CancelledError, the BTC coroutine has finished and given its
    permit back, while the ETH coroutine holds one of the fifteen permits
    with its request in flight. *)
Example cancelled_lookup_leaves_the_other_under_way :
  fst (fst (V2.get_btc_balance false Examples.net_cancelled Examples.btc_addr
              (V2.init 15))) = Raise CancelledError
  /\ (let p := run [0; 0; 1; 1; 0; 0]%nat
                 (start 15 (map program_of Examples.check_calls)) in
      map done (tasks p) = [true; false]
      /\ permits p = 14%nat
      /\ holders p = 1%nat
      /\ in_flight p = 1%nat).
Proof. split; [reflexivity|]. vm_compute. repeat split. Qed.

(** X3. A lookup sends at most one request, and only to the URL of its own
    chain built from the address it was given; the check of a wallet sends
    at most two. This holds in both files for every answer of the services,
    every scanner state and both modes. *)
Theorem one_request_per_lookup_to_its_own_url
    (tm : bool) (ios : string -> option Z) (c : chain)
    (net : string -> http_outcome) (a : string) (w : WalletInfo)
    (s2 : V2.scanner) (sw : Win.scanner) :
  (requests (snd (v2_fetch tm ios c net a s2)) <= 1)%nat
  /\ (forall u, In (EvGet u) (snd (v2_fetch tm ios c net a s2)) -> u = chain_url c a)
  /\ (requests (snd (win_fetch tm ios c net a sw)) <= 1)%nat
  /\ (forall u, In (EvGet u) (snd (win_fetch tm ios c net a sw)) -> u = chain_url c a)
  /\ (requests (snd (V2.check_wallet_balances tm ios net w s2)) <= 2)%nat
  /\ (requests (snd (Win.check_wallet tm ios net w sw)) <= 2)%nat.
Proof.
  assert (V : forall c a s,
             (requests (snd (v2_fetch tm ios c net a s)) <= 1)%nat
             /\ (forall u, In (EvGet u) (snd (v2_fetch tm ios c net a s)) ->
                           u = chain_url c a)).
  { intros c0 a0 s. pose proof (v2_fetch_cases tm ios c0 net a0 s) as H.
    destruct (v2_fetch tm ios c0 net a0 s) as [[r s'] t]. simpl.
    destruct H as [_ [->|[->| ->]]]; (split; [unfold requests; simpl; lia|]);
      intros u Hu; simpl in Hu; intuition congruence. }
  assert (W : forall c a s,
             (requests (snd (win_fetch tm ios c net a s)) <= 1)%nat
             /\ (forall u, In (EvGet u) (snd (win_fetch tm ios c net a s)) ->
                           u = chain_url c a)).
  { intros c0 a0 s. pose proof (win_fetch_cases tm ios c0 net a0 s) as H.
    destruct (win_fetch tm ios c0 net a0 s) as [[r s'] t]. simpl.
    destruct H as [_ [H0|(d & rest & _ & -> & H0 & _)]].
    - split; [lia|]. intros u Hu. destruct (no_requests_no_get _ _ H0 Hu).
    - split; [unfold requests in *; simpl; lia|].
      intros u [E|[E|[E|Hu]]]; try discriminate; [congruence|].
      destruct (no_requests_no_get _ _ H0 Hu). }
  split; [apply V|]. split; [apply V|]. split; [apply W|]. split; [apply W|].
  split.
  - unfold V2.check_wallet_balances. rewrite bind_trace, requests_app.
    pose proof (proj1 (V BTC (btc_address w) s2)) as H1. simpl v2_fetch in H1.
    destruct (V2.get_btc_balance tm net (btc_address w) s2) as [[r1 s1] t1].
    simpl in *. destruct r1 as [b|e|]; try (unfold requests at 2; simpl; lia).
    rewrite bind_trace, requests_app.
    pose proof (proj1 (V ETH (eth_address w) s1)) as H2. simpl v2_fetch in H2.
    destruct (V2.get_eth_balance tm ios net (eth_address w) s1) as [[r2 s3] t2].
    simpl in *. destruct r2; unfold requests at 3; simpl; lia.
  - unfold Win.check_wallet. rewrite bind_trace, requests_app.
    pose proof (proj1 (W BTC (btc_address w) sw)) as H1. simpl win_fetch in H1.
    destruct (Win.get_btc_balance tm net (btc_address w) sw) as [[r1 s1] t1].
    simpl in *. destruct r1 as [b|e|]; try (unfold requests at 2; simpl; lia).
    rewrite bind_trace, requests_app.
    pose proof (proj1 (W ETH (eth_address w) s1)) as H2. simpl win_fetch in H2.
    destruct (Win.get_eth_balance tm ios net (eth_address w) s1) as [[r2 s3] t2].
    simpl in *. destruct r2; unfold requests at 3; simpl; lia.
Qed.

(** X4. In cws_win.py a request never goes out unannounced: a lookup that
    sends a request has first taken a permit and slept the delay its chain
    had in [request_delays] when the lookup began; and when the answer is
    a 429 the lookup sleeps two more seconds, still holding its permit,
    before it leaves the response and gives the permit back. *)
Theorem win_request_follows_the_delay
    (tm : bool) (ios : string -> option Z) (c : chain)
    (net : string -> http_outcome) (a : string) (sw : Win.scanner) :
  let '(r, _, t) := win_fetch tm ios c net a sw in
  requests t = 0%nat
  \/ exists d rest,
       Win.request_delays sw !! chain_key c = Some d
       /\ t = EvAcquire :: EvSleep d :: EvGet (chain_url c a) :: rest
       /\ requests rest = 0%nat
       /\ (throttled (net (chain_url c a)) = true -> r <> Hang ->
           rest = [EvSleep f2_0; EvDone; EvRelease]).
Proof.
  pose proof (win_fetch_cases tm ios c net a sw) as H.
  destruct (win_fetch tm ios c net a sw) as [[r s'] t]. exact (proj2 H).
Qed.

(** *** The delays over a whole history *)

(** X5. In cws_win.py the delay of a chain never comes down again: after
    any history of ordinary lookups since [__init__], the delay of each
    chain is its initial value (0.5 for btc, 0.3 for eth) multiplied by
    1.5 once for every 429 that chain has answered, however many
    successful or failed lookups came in between; [request_delays] still
    has both keys and the semaphore all its permits. *)
Theorem delay_counts_the_throttles
    (ios : string -> option Z) (history : list past_lookup) (n : nat) (c : chain) :
  Forall (fun l => ordinary (answer l) = true) history ->
  let s := win_after ios history (Win.init (S n)) in
  Win.request_delays s !! chain_key c = Some (backoff c (throttles c history))
  /\ dom (Win.request_delays s) = dom (Win.request_delays (Win.init (S n)))
  /\ Win.semaphore s = S n.
Proof.
  intros Hall s.
  assert (Hkeys : forall c', exists d,
             Win.request_delays (Win.init (S n)) !! chain_key c' = Some d)
    by (intros c'; eexists; apply init_delay).
  assert (D : forall c', Win.request_delays s !! chain_key c'
                         = Some (backoff c' (throttles c' history))).
  { intros c'. apply (win_after_delays ios c' history (Win.init (S n)) n 0 Hall
                        eq_refl (init_delay _ c') Hkeys). }
  split; [apply D|]. split.
  - assert (G : forall m : gmap string float,
               is_Some (m !! "btc") -> is_Some (m !! "eth") ->
               (forall k, k <> "btc" -> k <> "eth" -> m !! k = None) ->
               dom m = ({["btc"; "eth"]} : gset string)).
    { intros m Hb He Ho. apply set_eq. intros k.
      rewrite elem_of_dom, elem_of_union, !elem_of_singleton.
      split.
      - intros Hk. destruct (decide (k = "btc")); [auto|].
        destruct (decide (k = "eth")); [auto|].
        rewrite Ho in Hk by assumption. destruct Hk; discriminate.
      - intros [->| ->]; assumption. }
    assert (O : forall history' s0,
               (forall k, k <> "btc" -> k <> "eth" ->
                          Win.request_delays s0 !! k = None) ->
               forall k, k <> "btc" -> k <> "eth" ->
                 Win.request_delays (win_after ios history' s0) !! k = None).
    { induction history' as [|l rest IH]; intros s0 H0 k Hb He; [apply H0; auto|].
      simpl. apply IH; auto. intros k' Hb' He'.
      rewrite win_fetch_is_lookup, Win_lookup_frame; [apply H0; auto|].
      destruct (on_chain l); simpl; assumption. }
    rewrite (G (Win.request_delays s)), (G (Win.request_delays (Win.init (S n)))).
    + reflexivity.
    + exists f0_5; reflexivity.
    + exists f0_3; reflexivity.
    + intros k Hb He. simpl. rewrite !lookup_insert_ne by congruence. apply lookup_empty.
    + eexists. exact (D BTC).
    + eexists. exact (D ETH).
    + apply O. intros k Hb He. simpl.
      rewrite !lookup_insert_ne by congruence. apply lookup_empty.
  - apply (win_after_delays ios c history (Win.init (S n)) n 0 Hall
             eq_refl (init_delay _ c) Hkeys).
Qed.

Lemma delay_counts_the_throttles_witness :
  Forall (fun l => ordinary (answer l) = true)
    (throttled_in_a_row ETH 2
       ++ [{| on_chain := ETH; at_address := Examples.eth_addr;
              answer := Response 200 (Ok genuine_zero) |}])
  /\ Win.request_delays
       (win_after int_of_decimal
          (throttled_in_a_row ETH 2
             ++ [{| on_chain := ETH; at_address := Examples.eth_addr;
                    answer := Response 200 (Ok genuine_zero) |}])
          (Win.init 15)) !! chain_key ETH
     = Some (fmul (fmul f0_3 f1_5) f1_5).
Proof.
  assert (H : Forall (fun l => ordinary (answer l) = true)
                (throttled_in_a_row ETH 2
                   ++ [{| on_chain := ETH; at_address := Examples.eth_addr;
                          answer := Response 200 (Ok genuine_zero) |}]))
    by (repeat constructor).
  split; [exact H|].
  exact (proj1 (delay_counts_the_throttles int_of_decimal _ 14 ETH H)).
Defined.

(** *** The order of the two lookups of a check *)

Lemma Win_after_lookup (chain other : string) (thr : bool) (s : Win.scanner) n d d' :
  chain <> other ->
  Win.semaphore s = S n ->
  Win.request_delays s !! other = Some d' ->
  let s1 := if thr
            then Win.set_delays (<[chain := fmul d f1_5]> (Win.request_delays s)) s
            else s in
  Win.semaphore s1 = S n /\ Win.request_delays s1 !! other = Some d'.
Proof.
  intros Hne Hs Hd. destruct thr; simpl; [|auto].
  split; [exact Hs|]. rewrite lookup_insert_ne by exact Hne. exact Hd.
Qed.

(** X6. The two lookups of a check commute: with ordinary answers, a
    permit and both keys in [request_delays], running the ETH lookup
    before the BTC lookup gives the same wallet and leaves the same
    scanner (counters, permits, delays) as running them in the order
    [asyncio.gather] is given them; only the order of the events differs. *)
Theorem lookups_of_a_check_commute
    (tm : bool) (ios : string -> option Z) (net : string -> http_outcome)
    (w : WalletInfo) (s2 : V2.scanner) (sw : Win.scanner) :
  (forall url, ordinary (net url) = true) ->
  V2.semaphore s2 <> O -> Win.semaphore sw <> O ->
  is_Some (Win.request_delays sw !! "btc") ->
  is_Some (Win.request_delays sw !! "eth") ->
  fst (v2_check_flipped tm ios net w s2)
  = fst (V2.check_wallet_balances tm ios net w s2)
  /\ fst (win_check_flipped tm ios net w sw)
     = fst (Win.check_wallet tm ios net w sw).
Proof.
  intros Ho H2 Hw [db Hdb] [de Hde]. destruct tm; [split; reflexivity|].
  destruct (V2.semaphore s2) as [|n2] eqn:E2; [contradiction|].
  destruct (Win.semaphore sw) as [|nw] eqn:Ew; [contradiction|].
  split.
  - rewrite (V2_check_run ios net w s2 n2 E2 Ho).
    unfold v2_check_flipped, bind.
    rewrite V2_eth_is_lookup,
      (V2_lookup_run _ _ _ _ n2 E2 (Ho _) (V2_eth_reading_well _)).
    rewrite V2_btc_is_lookup,
      (V2_lookup_run _ _ _ _ n2 E2 (Ho _) (V2_btc_reading_well _)).
    reflexivity.
  - destruct (Win_lookup_run false net "btc" (btc_url (btc_address w)) _ sw nw db
                eq_refl Ew Hdb (Ho _) (Win_btc_reading_well (btc_address w)))
      as (t1 & R1 & _).
    destruct (Win_after_lookup "btc" "eth"
                (throttled (net (btc_url (btc_address w)))) sw nw db de
                ltac:(discriminate) Ew Hde) as [Es1 Hd1].
    destruct (Win_lookup_run false net "eth" (eth_url (eth_address w)) _ _ nw de
                eq_refl Es1 Hd1 (Ho _) (Win_eth_reading_well ios))
      as (t2 & R2 & _).
    destruct (Win_lookup_run false net "eth" (eth_url (eth_address w)) _ sw nw de
                eq_refl Ew Hde (Ho _) (Win_eth_reading_well ios))
      as (t3 & R3 & _).
    destruct (Win_after_lookup "eth" "btc"
                (throttled (net (eth_url (eth_address w)))) sw nw de db
                ltac:(discriminate) Ew Hdb) as [Es2 Hd2].
    destruct (Win_lookup_run false net "btc" (btc_url (btc_address w)) _ _ nw db
                eq_refl Es2 Hd2 (Ho _) (Win_btc_reading_well (btc_address w)))
      as (t4 & R4 & _).
    rewrite <- Win_btc_is_lookup in R1, R4. rewrite <- Win_eth_is_lookup in R2, R3.
    assert (L : Win.check_wallet false ios net w sw
                = (Ok (set_balances w
                         (reported (Win.btc_reading (btc_address w))
                            (net (btc_url (btc_address w))))
                         (reported (Win.eth_reading ios)
                            (net (eth_url (eth_address w))))),
                   (if throttled (net (eth_url (eth_address w)))
                    then Win.set_delays
                           (<["eth" := fmul de f1_5]>
                              (Win.request_delays
                                 (if throttled (net (btc_url (btc_address w)))
                                  then Win.set_delays
                                         (<["btc" := fmul db f1_5]>
                                            (Win.request_delays sw)) sw
                                  else sw)))
                           (if throttled (net (btc_url (btc_address w)))
                            then Win.set_delays
                                   (<["btc" := fmul db f1_5]>
                                      (Win.request_delays sw)) sw
                            else sw)
                    else if throttled (net (btc_url (btc_address w)))
                         then Win.set_delays
                                (<["btc" := fmul db f1_5]>
                                   (Win.request_delays sw)) sw
                         else sw),
                   t1 ++ t2 ++ [])).
    { unfold Win.check_wallet, bind. rewrite R1, R2. reflexivity. }
    assert (F : win_check_flipped false ios net w sw
                = (Ok (set_balances w
                         (reported (Win.btc_reading (btc_address w))
                            (net (btc_url (btc_address w))))
                         (reported (Win.eth_reading ios)
                            (net (eth_url (eth_address w))))),
                   (if throttled (net (btc_url (btc_address w)))
                    then Win.set_delays
                           (<["btc" := fmul db f1_5]>
                              (Win.request_delays
                                 (if throttled (net (eth_url (eth_address w)))
                                  then Win.set_delays
                                         (<["eth" := fmul de f1_5]>
                                            (Win.request_delays sw)) sw
                                  else sw)))
                           (if throttled (net (eth_url (eth_address w)))
                            then Win.set_delays
                                   (<["eth" := fmul de f1_5]>
                                      (Win.request_delays sw)) sw
                            else sw)
                    else if throttled (net (eth_url (eth_address w)))
                         then Win.set_delays
                                (<["eth" := fmul de f1_5]>
                                   (Win.request_delays sw)) sw
                         else sw),
                   t3 ++ t4 ++ [])).
    { unfold win_check_flipped, bind. rewrite R3, R4. reflexivity. }
    rewrite L, F. simpl. f_equal.
    destruct sw as [mc sem sc fc rd]. simpl in *.
    destruct (throttled (net (btc_url (btc_address w))));
      destruct (throttled (net (eth_url (eth_address w)))); simpl; try reflexivity.
    unfold Win.set_delays. simpl. f_equal.
    apply insert_insert_ne. discriminate.
Qed.

Lemma lookups_of_a_check_commute_witness :
  (forall url, ordinary (Examples.net_mixed url) = true)
  /\ V2.semaphore (V2.init 10) <> O
  /\ Win.semaphore (Win.init 15) <> O
  /\ is_Some (Win.request_delays (Win.init 15) !! "btc")
  /\ is_Some (Win.request_delays (Win.init 15) !! "eth")
  /\ fst (win_check_flipped false int_of_decimal Examples.net_mixed
            Examples.wallet1 (Win.init 15))
     = fst (Win.check_wallet false int_of_decimal Examples.net_mixed
              Examples.wallet1 (Win.init 15)).
Proof.
  assert (H1 : forall url, ordinary (Examples.net_mixed url) = true).
  { intros url. unfold Examples.net_mixed.
    destruct (String.eqb url (btc_url Examples.btc_addr)); reflexivity. }
  assert (H2 : V2.semaphore (V2.init 10) <> O) by discriminate.
  assert (H3 : Win.semaphore (Win.init 15) <> O) by discriminate.
  assert (H4 : is_Some (Win.request_delays (Win.init 15) !! "btc"))
    by (exists f0_5; reflexivity).
  assert (H5 : is_Some (Win.request_delays (Win.init 15) !! "eth"))
    by (exists f0_3; reflexivity).
  split; [exact H1|]. split; [exact H2|]. split; [exact H3|].
  split; [exact H4|]. split; [exact H5|].
  exact (proj2 (lookups_of_a_check_commute false int_of_decimal Examples.net_mixed
                  Examples.wallet1 (V2.init 10) (Win.init 15) H1 H2 H3 H4 H5)).
Defined.

(** *** A whole run in test mode *)

Section Emits.
Context {S : Type} (P : event -> bool).

Lemma emits_ret {A} (a : A) : emits P (@ret S A a).
Proof. intros s. reflexivity. Qed.

Lemma emits_lift {A} (r : result A) : emits P (@lift S A r).
Proof. intros s. reflexivity. Qed.

Lemma emits_raise {A} (e : exn) : emits P (@raise S A e).
Proof. intros s. reflexivity. Qed.

Lemma emits_gets {A} (f : S -> A) : emits P (gets f).
Proof. intros s. reflexivity. Qed.

Lemma emits_modify (f : S -> S) : emits P (modify f).
Proof. intros s. reflexivity. Qed.

Lemma emits_emit (ev : event) : P ev = true -> emits P (@emit S ev).
Proof. intros H s. simpl. rewrite H. reflexivity. Qed.

Lemma emits_bind {A B} (m : M S A) (f : A -> M S B) :
  emits P m -> (forall a, emits P (f a)) -> emits P (bind m f).
Proof.
  intros Hm Hf s. rewrite bind_trace, forallb_app, Hm. simpl.
  destruct (fst (fst (m s))); [apply Hf | reflexivity | reflexivity].
Qed.

Lemma emits_try_catch {A} c (m : M S A) (h : exn -> M S A) :
  emits P m -> (forall e, emits P (h e)) -> emits P (try_catch c m h).
Proof.
  intros Hm Hh s. unfold try_catch. specialize (Hm s).
  destruct (m s) as [[r s1] t1]. simpl in Hm. destruct r; try exact Hm.
  destruct (c e); [|exact Hm]. specialize (Hh e s1).
  destruct (h e s1) as [[r2 s2] t2]. simpl in *.
  rewrite forallb_app, Hm, Hh. reflexivity.
Qed.
End Emits.

Ltac emits_step :=
  first
    [ apply emits_bind; [|intros ?]
    | apply emits_try_catch; [|intros ?]
    | apply emits_ret | apply emits_lift | apply emits_raise
    | apply emits_gets | apply emits_modify
    | apply emits_emit; reflexivity
    | match goal with
      | |- emits _ (if ?b then _ else _) => destruct b
      | |- emits _ (match ?o with Some _ => _ | None => _ end) => destruct o
      end ].

Lemma V2_test_turn_local ios derive env :
  emits is_local (V2.scan_iteration true ios derive env).
Proof.
  unfold V2.scan_iteration, V2.checked_wallet, V2.generate_wallet_addresses,
    V2.check_wallet_balances, V2.get_btc_balance, V2.get_eth_balance, V2.tally,
    V2.save_found_wallet, V2.display_results, sleep. simpl.
  repeat emits_step.
Qed.

Lemma Win_test_turn_local ios derive env :
  emits is_local (Win.scan_iteration true ios derive env).
Proof.
  unfold Win.scan_iteration, Win.checked_wallet, Win.generate_secure_private_key,
    Win.generate_wallet_addresses, Win.check_wallet, Win.get_btc_balance,
    Win.get_eth_balance, Win.tally, Win.save_found_wallet, Win.display_results,
    Win.display_banner, try_except, sleep. simpl.
  repeat emits_step.
Qed.

(** X7. A whole scan in test mode stays on the machine: however many turns
    [run_scan] makes, in either file, every event of the run is a line on
    the terminal or a sleep: no request is sent, no permit is taken and
    nothing is appended to found_wallets.txt. *)
Theorem test_scan_stays_on_the_machine
    (ios : string -> option Z) (derive : string -> result (string * string))
    (target : option Z) (envs : list iter_env)
    (s2 : V2.scanner) (sw : Win.scanner) :
  forallb is_local (snd (V2.run_scan true ios derive envs s2)) = true
  /\ forallb is_local (snd (Win.run_scan true ios derive target envs sw)) = true.
Proof.
  split.
  - revert s2. change (emits is_local (V2.run_scan true ios derive envs)).
    unfold V2.run_scan. apply emits_try_catch; [|intros e; repeat emits_step].
    induction envs as [|env rest IH]; simpl; [apply emits_ret|].
    apply emits_bind; [apply V2_test_turn_local | intros _; exact IH].
  - revert sw. change (emits is_local (Win.run_scan true ios derive target envs)).
    unfold Win.run_scan. apply emits_try_catch; [|intros e; repeat emits_step].
    induction envs as [|env rest IH]; simpl; [apply emits_ret|].
    apply emits_bind; [apply emits_gets|]. intros go. destruct go; [|apply emits_ret].
    apply emits_bind; [apply Win_test_turn_local | intros _; exact IH].
Qed.

(** *** A whole run of cws_v2.py *)

Lemma V2_checked_run tm ios derive env s :
  (tm = false -> V2.semaphore s <> O) ->
  fair_turn derive env ->
  exists t,
    V2.checked_wallet tm ios derive env s = (Ok (v2_checked tm ios derive env), s, t).
Proof.
  intros Hp ([a Ha] & Ho & _).
  unfold V2.checked_wallet, V2.generate_wallet_addresses, v2_checked.
  unfold bind at 1 2. unfold lift, ret. rewrite Ha.
  destruct tm.
  - eexists. reflexivity.
  - destruct (V2.semaphore s) as [|n] eqn:Es; [destruct (Hp eq_refl eq_refl)|].
    rewrite (V2_check_run ios (net env) _ s n Es Ho). eexists. reflexivity.
Qed.

Lemma V2_fair_turn_run tm ios derive env s :
  (tm = false -> V2.semaphore s <> O) ->
  fair_turn derive env ->
  exists t,
    V2.scan_iteration tm ios derive env s
    = (Ok tt,
       {| V2.semaphore := V2.semaphore s;
          V2.scan_count := V2.scan_count s + 1;
          V2.found_count :=
            V2.found_count s
            + (if has_balance (v2_checked tm ios derive env) then 1 else 0) |},
       t).
Proof.
  intros Hp Hf. destruct (V2_checked_run tm ios derive env s Hp Hf) as [t1 R].
  destruct Hf as (_ & _ & Hd). destruct s as [sem sc fc].
  unfold V2.scan_iteration. unfold bind at 1. rewrite R.
  unfold V2.tally, V2.save_found_wallet, V2.display_results, sleep.
  unfold_py. unfold V2.incr_scan, V2.incr_found. simpl.
  destruct (has_balance (v2_checked tm ios derive env)); simpl.
  - destruct tm; simpl.
    + eexists. rewrite Z.add_0_r || idtac. reflexivity.
    + destruct (disk env) as [e|]; simpl; [rewrite Hd; simpl|];
        eexists; reflexivity.
  - destruct tm; simpl; eexists; rewrite Z.add_0_r; reflexivity.
Qed.

(** X8. [run_scan] of cws_v2.py never stops by itself and counts every
    turn: over any number of turns in which the wallet is derived, the
    services fail in ordinary ways only and a failing append fails with an
    [Exception], the loop runs to the end of the turns without raising,
    [scan_count] has grown by the number of turns, [found_count] by the
    number of wallets that came back with a balance above 0, and the
    semaphore has all its permits. A failed append does not stop the scan. *)
Theorem v2_scan_counts_every_turn
    (tm : bool) (ios : string -> option Z)
    (derive : string -> result (string * string))
    (envs : list iter_env) (s : V2.scanner) :
  (tm = false -> V2.semaphore s <> O) ->
  Forall (fair_turn derive) envs ->
  exists t,
    V2.run_scan tm ios derive envs s
    = (Ok tt,
       {| V2.semaphore := V2.semaphore s;
          V2.scan_count := V2.scan_count s + Z.of_nat (length envs);
          V2.found_count :=
            V2.found_count s + Z.of_nat (v2_paying tm ios derive envs) |},
       t).
Proof.
  intros Hp Hall.
  assert (L : exists t,
             V2.scan_loop tm ios derive envs s
             = (Ok tt,
                {| V2.semaphore := V2.semaphore s;
                   V2.scan_count := V2.scan_count s + Z.of_nat (length envs);
                   V2.found_count :=
                     V2.found_count s + Z.of_nat (v2_paying tm ios derive envs) |},
                t)).
  { revert s Hp. induction Hall as [|env rest Hf Hrest IH]; intros s Hp.
    - exists []. destruct s as [sem sc fc]. simpl. unfold ret.
      unfold v2_paying. simpl. rewrite !Z.add_0_r. reflexivity.
    - destruct (V2_fair_turn_run tm ios derive env s Hp Hf) as [t1 R1].
      destruct (IH {| V2.semaphore := V2.semaphore s;
                      V2.scan_count := V2.scan_count s + 1;
                      V2.found_count :=
                        V2.found_count s
                        + (if has_balance (v2_checked tm ios derive env)
                           then 1 else 0) |} Hp) as [t2 R2].
      simpl in R2.
      exists (t1 ++ t2). simpl V2.scan_loop. unfold bind. rewrite R1, R2.
      f_equal. f_equal. unfold v2_paying. simpl List.filter.
      destruct (has_balance (v2_checked tm ios derive env)); simpl length;
        f_equal; lia. }
  destruct L as [t R]. exists t. unfold V2.run_scan, try_catch. rewrite R. reflexivity.
Qed.

Lemma v2_scan_counts_every_turn_witness :
  (false = false -> V2.semaphore (V2.init 10) <> O)
  /\ Forall (fair_turn Examples.derive1) [Examples.env_mixed; Examples.env_mixed]
  /\ exists t,
       V2.run_scan false int_of_decimal Examples.derive1
         [Examples.env_mixed; Examples.env_mixed] (V2.init 10)
       = (Ok tt,
          {| V2.semaphore := 10; V2.scan_count := 2; V2.found_count := 2 |}, t).
Proof.
  assert (H1 : false = false -> V2.semaphore (V2.init 10) <> O)
    by (intros _; discriminate).
  assert (F : fair_turn Examples.derive1 Examples.env_mixed).
  { split; [eexists; reflexivity|]. split; [|exact I].
    intros url. unfold Examples.env_mixed, Examples.net_mixed. simpl.
    destruct (String.eqb url (btc_url Examples.btc_addr)); reflexivity. }
  assert (H2 : Forall (fair_turn Examples.derive1)
                 [Examples.env_mixed; Examples.env_mixed])
    by (constructor; [exact F|]; constructor; [exact F|]; constructor).
  split; [exact H1|]. split; [exact H2|].
  exact (v2_scan_counts_every_turn false int_of_decimal Examples.derive1
           [Examples.env_mixed; Examples.env_mixed] (V2.init 10) H1 H2).
Defined.

(** *** How a run of cws_win.py ends *)

(** X9. [run_scan] of cws_win.py swallows what stops it: whatever the
    surroundings do, it never raises an [Exception] or a KeyboardInterrupt
    to its caller, and since every turn ends in the NameError of
    [display_banner] it counts at most one wallet, whatever [target_scans]
    asks for. *)
Theorem win_scan_swallows_its_errors
    (tm : bool) (ios : string -> option Z)
    (derive : string -> result (string * string))
    (target : option Z) (envs : list iter_env) (s : Win.scanner) :
  (forall e, fst (fst (Win.run_scan tm ios derive target envs s)) = Raise e ->
             is_Exception e = false /\ is_interrupt e = false)
  /\ Win.scan_count (snd (fst (Win.run_scan tm ios derive target envs s)))
     <= Win.scan_count s + 1.
Proof.
  split; [|apply Win_scan_counts_at_most_one].
  unfold Win.run_scan, try_catch, emit.
  destruct (Win.scan_loop tm ios derive target envs s) as [[[u|e0|] s1] t1];
    simpl; try discriminate.
  destruct (is_interrupt e0 || is_Exception e0) eqn:E; simpl; [discriminate|].
  intros e [= <-]. apply orb_false_iff in E. tauto.
Qed.

(** X10. A wallet that cannot be derived ends the scan in both files, in
    two different ways: [run_scan] of cws_v2.py raises the error of the
    derivation to its caller with nothing counted and no event, while
    [run_scan] of cws_win.py prints twice and returns normally, also with
    nothing counted. *)
Theorem derivation_error_ends_the_scan
    (tm : bool) (ios : string -> option Z)
    (derive : string -> result (string * string))
    (target : option Z) (env : iter_env) (rest : list iter_env) (e : exn)
    (s2 : V2.scanner) (sw : Win.scanner) :
  (forall k, derive k = Raise e) ->
  is_Exception e = true ->
  Win.keep_scanning target sw = true ->
  V2.run_scan tm ios derive (env :: rest) s2 = (Raise e, s2, [])
  /\ Win.run_scan tm ios derive target (env :: rest) sw
     = (Ok tt, sw, [EvPrint; EvPrint]).
Proof.
  intros Hd He Hk. split.
  - unfold V2.run_scan, try_catch. simpl V2.scan_loop.
    unfold V2.scan_iteration, V2.checked_wallet, V2.generate_wallet_addresses.
    unfold bind, lift. rewrite Hd.
    destruct e; try reflexivity; discriminate.
  - unfold Win.run_scan. rewrite (surjective_pairing (try_catch _ _ _ _)).
    unfold try_catch. rewrite Win_loop_cons, Hk.
    unfold Win.scan_iteration, Win.checked_wallet, Win.generate_secure_private_key,
      Win.generate_wallet_addresses, try_except, try_catch.
    unfold bind, lift, gets, ret, emit, raise.
    destruct tm; simpl; rewrite Hd, He; simpl; rewrite He, orb_true_r; reflexivity.
Qed.

Lemma derivation_error_ends_the_scan_witness :
  (forall k : string, (fun _ => Raise WalletError) k
                      = (Raise WalletError : result (string * string)))
  /\ is_Exception WalletError = true
  /\ Win.keep_scanning (Some 5) (Win.init 15) = true
  /\ V2.run_scan false int_of_decimal (fun _ => Raise WalletError)
       [Examples.env_mixed] (V2.init 10)
     = (Raise WalletError, V2.init 10, [])
  /\ Win.run_scan false int_of_decimal (fun _ => Raise WalletError) (Some 5)
       [Examples.env_mixed] (Win.init 15)
     = (Ok tt, Win.init 15, [EvPrint; EvPrint]).
Proof.
  assert (H1 : forall k : string, (fun _ => Raise WalletError) k
                 = (Raise WalletError : result (string * string)))
    by (intros k; reflexivity).
  assert (H2 : is_Exception WalletError = true) by reflexivity.
  assert (H3 : Win.keep_scanning (Some 5) (Win.init 15) = true) by reflexivity.
  split; [exact H1|]. split; [exact H2|]. split; [exact H3|].
  exact (derivation_error_ends_the_scan false int_of_decimal
           (fun _ => Raise WalletError) (Some 5) Examples.env_mixed []
           WalletError (V2.init 10) (Win.init 15) H1 H2 H3).
Defined.

(** *** The keys of test mode *)

(** X11. In test mode cws_win.py does not draw its keys: the key is 63
    zeros followed by the last decimal digit of [scan_count], 64
    characters in all, whatever the random source offers; so the key of
    scan [n + 10] is the key of scan [n], and at most ten keys are ever
    tried. In live mode the key is the one drawn. *)
Theorem test_keys_repeat_every_ten_scans
    (drawn drawn' : string) (s s' : Win.scanner) :
  Win.scan_count s' = Win.scan_count s + 10 ->
  fst (fst (Win.generate_secure_private_key true drawn' s'))
  = fst (fst (Win.generate_secure_private_key true drawn s))
  /\ (exists k d,
        fst (fst (Win.generate_secure_private_key true drawn s)) = Ok k
        /\ String.length k = 64%nat
        /\ 0 <= d <= 9
        /\ k = Win.zeros 63 +:+ Win.last_digit d)
  /\ Win.generate_secure_private_key false drawn s = (Ok drawn, s, []).
Proof.
  intros H. unfold Win.generate_secure_private_key, bind, gets, ret. simpl.
  split; [|split; [|reflexivity]].
  - unfold Win.last_digit. rewrite H.
    replace (Win.scan_count s + 10) with (Win.scan_count s + 1 * 10) by lia.
    rewrite Z_mod_plus_full. reflexivity.
  - exists (Win.zeros 63 +:+ Win.last_digit (Win.scan_count s)),
           (Win.scan_count s mod 10).
    split; [reflexivity|]. split; [reflexivity|].
    split; [pose proof (Z.mod_pos_bound (Win.scan_count s) 10); lia|].
    unfold Win.last_digit. rewrite Z.mod_mod by lia. reflexivity.
Qed.

Lemma test_keys_repeat_every_ten_scans_witness :
  Win.scan_count
    {| Win.max_concurrent := 15; Win.semaphore := 15; Win.scan_count := 13;
       Win.found_count := 0; Win.request_delays := ∅ |}
  = Win.scan_count
      {| Win.max_concurrent := 15; Win.semaphore := 15; Win.scan_count := 3;
         Win.found_count := 0; Win.request_delays := ∅ |} + 10
  /\ fst (fst (Win.generate_secure_private_key true "ab"
                 {| Win.max_concurrent := 15; Win.semaphore := 15;
                    Win.scan_count := 13; Win.found_count := 0;
                    Win.request_delays := ∅ |}))
     = Ok (Win.zeros 63 +:+ "3").
Proof.
  assert (H : Win.scan_count
                {| Win.max_concurrent := 15; Win.semaphore := 15;
                   Win.scan_count := 13; Win.found_count := 0;
                   Win.request_delays := ∅ |}
              = Win.scan_count
                  {| Win.max_concurrent := 15; Win.semaphore := 15;
                     Win.scan_count := 3; Win.found_count := 0;
                     Win.request_delays := ∅ |} + 10) by reflexivity.
  split; [exact H|].
  exact (proj1 (test_keys_repeat_every_ten_scans "cd" "ab" _ _ H)).
Defined.

(** *** The choice of the mode *)

Lemma one_of_In (x : string) (words : list string) :
  Startup.one_of x words = true <-> In x words.
Proof.
  unfold Startup.one_of. rewrite existsb_exists. split.
  - intros (w & Hw & E). apply String.eqb_eq in E. subst. exact Hw.
  - intros H. exists x. split; [exact H | apply String.eqb_refl].
Qed.

(** X12. Live mode needs an explicit request, and the command line has
    the last word. After the import and [set_testmode()], the scanner is
    in live mode exactly when the first command-line argument is, in some
    casing, one of live, false, real, or when that argument is not a
    casing of test, true, safe (or is absent) and the environment variable
    TESTMODE is set to something that is not a casing of the word true.
    In particular, with no argument and no variable the scanner is in test
    mode, and a variable such as 1 or yes selects live mode. *)
Theorem live_mode_needs_an_explicit_request
    (value : option string) (argv : list string) :
  Startup.resolved_mode value argv = false
  <-> (exists p a r, argv = p :: a :: r
                     /\ In (Startup.lower a) ["live"; "false"; "real"]%string)
      \/ ((forall p a r, argv = p :: a :: r ->
             ~ In (Startup.lower a) ["test"; "true"; "safe"]%string)
          /\ exists v, value = Some v /\ Startup.lower v <> "true"%string).
Proof.
  unfold Startup.resolved_mode, Startup.set_testmode.
  assert (E : Startup.env_testmode value = false <->
              exists v, value = Some v /\ Startup.lower v <> "true"%string).
  { unfold Startup.env_testmode. destruct value as [v|]; simpl.
    - rewrite String.eqb_neq. split; [eauto|]. intros (v' & [= <-] & H). exact H.
    - split; [discriminate|]. intros (v' & [=] & _). }
  destruct argv as [|p [|a r]].
  - rewrite E. split; [intros H; right; split; [discriminate | exact H]|].
    intros [(p & a & r & [=] & _)|[_ H]]. exact H.
  - rewrite E. split; [intros H; right; split; [discriminate | exact H]|].
    intros [(p' & a & r & [=] & _)|[_ H]]. exact H.
  - destruct (Startup.one_of (Startup.lower a) ["live"; "false"; "real"]) eqn:L.
    + split; [|reflexivity].
      intros _. left. exists p, a, r. split; [reflexivity | apply one_of_In, L].
    + assert (NL : ~ In (Startup.lower a) ["live"; "false"; "real"]%string)
        by (rewrite <- one_of_In, L; discriminate).
      destruct (Startup.one_of (Startup.lower a) ["test"; "true"; "safe"]) eqn:T.
      * split; [discriminate|].
        intros [(p' & a' & r' & [= <- <- <-] & Hin)|[N _]]; [contradiction|].
        exfalso. apply (N p a r eq_refl). apply one_of_In, T.
      * rewrite E. split.
        -- intros H. right. split; [|exact H].
           intros p' a' r' [= <- <- <-] Hin. apply one_of_In in Hin. congruence.
        -- intros [(p' & a' & r' & [= <- <- <-] & Hin)|[_ H]];
             [contradiction | exact H].
Qed.

(** Three start-ups: nothing said, a variable that is not the word true,
    and an argument against the variable. *)
Example three_startups :
  Startup.resolved_mode None ["cws_win.py"]%string = true
  /\ Startup.resolved_mode (Some "1"%string) ["cws_win.py"]%string = false
  /\ Startup.resolved_mode (Some "1"%string) ["cws_win.py"; "Safe"]%string = true
  /\ Startup.resolved_mode (Some "TRUE"%string) ["cws_v2.py"; "LIVE"]%string = false.
Proof. repeat split. Qed.

(** *** No lookup waits for ever behind the semaphore *)

Lemma V2_lookup_closed tm net url reading s :
  ordinary (net url) = true -> well_read reading ->
  closed false false (snd (V2.lookup tm net url reading s)) = true.
Proof.
  intros Ho Hr. destruct s as [sem sc fc]. unfold V2.lookup.
  destruct tm; [reflexivity|].
  unfold_py. simpl. destruct sem; [reflexivity|]. simpl. unfold ordinary in Ho.
  destruct (net url) as [e|st body]; simpl.
  - rewrite Ho. reflexivity.
  - destruct (st =? 200); [|reflexivity].
    destruct body as [data|e|]; simpl; [|rewrite Ho; reflexivity|discriminate].
    specialize (Hr data).
    destruct (reading data) as [[v|]|e|]; simpl;
      [reflexivity | reflexivity | rewrite Hr; reflexivity | contradiction].
Qed.

Lemma Win_lookup_closed tm chain net url reading s :
  ordinary (net url) = true -> well_read reading ->
  closed false false (snd (Win.lookup tm chain net url reading s)) = true.
Proof.
  intros Ho Hr. destruct s as [mc sem sc fc rd]. unfold Win.lookup.
  destruct tm; [reflexivity|].
  unfold_win. simpl. destruct sem; [reflexivity|]. simpl. unfold ordinary in Ho.
  destruct (rd !! chain) as [d|] eqn:Hd; simpl; [|reflexivity].
  destruct (net url) as [e|st body]; simpl.
  - rewrite Ho. reflexivity.
  - destruct (st =? 200).
    + destruct body as [data|e|]; simpl; [|rewrite Ho; reflexivity|discriminate].
      specialize (Hr data).
      destruct (reading data) as [[v|]|e|]; simpl;
        [reflexivity | reflexivity | rewrite Hr; reflexivity | contradiction].
    + destruct (st =? 429); simpl; [rewrite Hd|]; reflexivity.
Qed.

Lemma program_closed (c : call) :
  ordinary (call_exchange c) = true ->
  closed false false (program_of c) = true.
Proof.
  destruct c; simpl; intros Ho.
  - rewrite V2_btc_is_lookup. apply V2_lookup_closed; [exact Ho|].
    apply V2_btc_reading_well.
  - rewrite V2_eth_is_lookup. apply V2_lookup_closed; [exact Ho|].
    apply V2_eth_reading_well.
  - rewrite Win_btc_is_lookup. apply Win_lookup_closed; [exact Ho|].
    apply Win_btc_reading_well.
  - rewrite Win_eth_is_lookup. apply Win_lookup_closed; [exact Ho|].
    apply Win_eth_reading_well.
Qed.

Lemma advance_closed n t n' t' :
  task_closed t = true -> advance n t = Some (n', t') ->
  task_closed t' = true
  /\ (n' + (if holding t' then 1 else 0) = n + (if holding t then 1 else 0))%nat
  /\ length (todo t) = S (length (todo t')).
Proof.
  unfold task_closed, advance. destruct t as [h g tr]. simpl.
  destruct tr as [|ev rest]; [discriminate|].
  destruct ev; simpl; try destruct n; destruct h, g; simpl;
    try discriminate; intros Hk [= <- <-]; simpl; auto.
Qed.

Lemma Forall_insert_closed : forall (l : list task) i t',
  Forall (fun t => task_closed t = true) l -> task_closed t' = true ->
  Forall (fun t => task_closed t = true) (<[i := t']> l).
Proof.
  induction l as [|x l IH]; intros i t' Hl Ht; [exact Hl|].
  inversion Hl; subst. destruct i; simpl; constructor; auto.
Qed.

Lemma step_live ceiling i p : live_inv ceiling p -> live_inv ceiling (step i p).
Proof.
  intros [Hok Hsum]. unfold step.
  destruct (tasks p !! i) as [t|] eqn:Hi; [|split; assumption].
  destruct (advance (permits p) t) as [[n' t']|] eqn:Ha; [|split; assumption].
  assert (Ht : task_closed t = true).
  { rewrite Forall_forall in Hok. apply Hok. apply list_elem_of_lookup. eauto. }
  destruct (advance_closed _ _ _ _ Ht Ha) as (Ht' & Hn & _).
  split; simpl.
  - apply Forall_insert_closed; assumption.
  - unfold holders in *. simpl.
    pose proof (count_insert holding (tasks p) i t t' Hi). lia.
Qed.

Lemma run_live ceiling : forall schedule p,
  live_inv ceiling p -> live_inv ceiling (run schedule p).
Proof.
  unfold run. induction schedule as [|i rest IH]; intros p Hp; [exact Hp|].
  simpl. apply IH, step_live, Hp.
Qed.

Lemma start_live ceiling calls :
  Forall (fun c => ordinary (call_exchange c) = true) calls ->
  live_inv ceiling (start ceiling (map program_of calls)).
Proof.
  intros Hall. split; simpl.
  - induction Hall as [|c rest Hc Hrest IH]; constructor; [|exact IH].
    unfold task_closed, spawn. simpl. apply program_closed, Hc.
  - unfold holders. simpl. clear Hall.
    induction calls as [|c rest IH]; simpl in *; lia.
Qed.

(** A task that is not done and does not wait for a permit can move. *)
Lemma advance_some n t :
  task_closed t = true -> done t = false ->
  (n <> O \/ holding t = true) ->
  exists r, advance n t = Some r.
Proof.
  unfold task_closed, advance, done. destruct t as [h g tr]. simpl.
  destruct tr as [|ev rest]; [discriminate|]. intros Hk _ Hn.
  destruct ev; simpl; eauto.
  destruct n; [|eauto]. destruct Hn as [Hn| ->]; [contradiction|].
  destruct g; simpl in Hk; discriminate.
Qed.

Lemma holder_exists : forall l : list task,
  (0 < count holding l)%nat -> exists i t, l !! i = Some t /\ holding t = true.
Proof.
  induction l as [|x l IH]; simpl; [lia|]. intros H.
  destruct (holding x) eqn:E.
  - exists O, x. auto.
  - destruct (IH ltac:(lia)) as (i & t & Hi & Ht). exists (S i), t. auto.
Qed.

Lemma unfinished_exists : forall l : list task,
  forallb done l = false -> exists i t, l !! i = Some t /\ done t = false.
Proof.
  induction l as [|x l IH]; simpl; [discriminate|]. intros H.
  destruct (done x) eqn:E.
  - destruct (IH H) as (i & t & Hi & Ht). exists (S i), t. auto.
  - exists O, x. auto.
Qed.

Lemma live_progress ceiling p :
  (0 < ceiling)%nat -> live_inv ceiling p ->
  finished p = true \/ exists i, enabled p i = true.
Proof.
  intros Hc [Hok Hsum].
  destruct (finished p) eqn:F; [left; reflexivity|right].
  unfold finished in F.
  assert (Tok : forall i t, tasks p !! i = Some t -> task_closed t = true).
  { intros i t Hi. rewrite Forall_forall in Hok. apply Hok.
    apply list_elem_of_lookup. eauto. }
  destruct (permits p) as [|k] eqn:Ep.
  - assert (0 < count holding (tasks p))%nat by (unfold holders in Hsum; lia).
    destruct (holder_exists _ H) as (i & t & Hi & Ht).
    assert (Hd : done t = false).
    { pose proof (Tok i t Hi) as C. unfold task_closed, done in *.
      destruct t as [h g tr]. simpl in *. subst h.
      destruct tr; [|reflexivity]. destruct g; discriminate. }
    destruct (advance_some O t (Tok i t Hi) Hd (or_intror Ht)) as [r Hr].
    exists i. unfold enabled. rewrite Hi, Ep, Hr. reflexivity.
  - destruct (unfinished_exists _ F) as (i & t & Hi & Hd).
    assert (Hn : S k <> O \/ holding t = true) by (left; discriminate).
    destruct (advance_some (S k) t (Tok i t Hi) Hd Hn) as [r Hr].
    exists i. unfold enabled. rewrite Hi, Ep, Hr. reflexivity.
Qed.





(** X13. The semaphore cannot deadlock the lookups. With a ceiling of at
    least one and lookups whose exchanges end in ordinary ways, in every
    state the event loop can reach, either every lookup has finished or
    some lookup can take its next step: a lookup that waits for a permit
    always waits for a lookup that holds one and is able to go on. *)
Theorem lookups_never_deadlock
    (ceiling : nat) (calls : list call) (schedule : list nat) :
  (0 < ceiling)%nat ->
  Forall (fun c => ordinary (call_exchange c) = true) calls ->
  let p := run schedule (start ceiling (map program_of calls)) in
  finished p = true \/ exists i, enabled p i = true.
Proof.
  intros Hc Hall p. apply (live_progress ceiling); [exact Hc|].
  apply run_live, start_live, Hall.
Qed.

Lemma lookups_never_deadlock_witness :
  (0 < 2)%nat
  /\ Forall (fun c => ordinary (call_exchange c) = true) Examples.three_calls
  /\ (finished (run [0; 0; 1; 1; 1; 2; 2; 2]%nat
                  (start 2 (map program_of Examples.three_calls))) = true
      \/ exists i,
           enabled (run [0; 0; 1; 1; 1; 2; 2; 2]%nat
                      (start 2 (map program_of Examples.three_calls))) i = true).
Proof.
  assert (H1 : (0 < 2)%nat) by lia.
  assert (H2 : Forall (fun c => ordinary (call_exchange c) = true)
                 Examples.three_calls)
    by (repeat constructor).
  split; [exact H1|]. split; [exact H2|].
  exact (lookups_never_deadlock 2 Examples.three_calls
           [0; 0; 1; 1; 1; 2; 2; 2]%nat H1 H2).
Defined.


